(** * State-Machine-Template: the execution engine and its error handler

    A shallow embedding of [src/core/sm_state_machine.c],
    [src/core/sm_error_handler.c] and of [Platform_IsTimeout] from
    [src/platform/sm_platform_weak.c], with the types of
    [include/sm_framework/sm_types.h] and the constants of
    [include/sm_framework/sm_config.h].

    The C program keeps its state in file-scope globals; here they are the
    fields of one record [World] that every operation receives and returns.
    C enumerations are inductive types (the [*_MAX] sentinels are the
    constants [STATE_MAX], [EVENT_MAX], ...), [uint32_t] and [uint8_t] are
    [Z] with the wrap-around written out, arrays are lists updated by
    index, and function pointers are names ([Callback]) that
    [run_callback] resolves.  The [DEBUG_*] macros and the string
    conversions, which only feed the debug sink, and the counters of
    FEATURE_STATISTICS_ENABLED, which is off by default and which nothing
    reads back, are left out. *)

From stdpp Require Import base numbers list.

Local Open Scope Z_scope.

(** ** Machine integers *)

Definition u32 (z : Z) : Z := z mod 2 ^ 32.
Definition u8 (z : Z) : Z := z mod 2 ^ 8.

(** ** Configuration constants (sm_config.h) *)

Definition SM_MAX_STATES : Z := 10.
Definition SM_MAX_TRANSITIONS_PER_STATE : Z := 5.
Definition SM_STATE_TIMEOUT_MS : Z := 5000.
Definition ERROR_MAX_RECOVERY_ATTEMPTS : Z := 3.
Definition ERROR_MINOR_TIMEOUT_MS : Z := 50.
Definition ERROR_HISTORY_SIZE : Z := 16.
Definition COMM_TIMEOUT_MS : Z := 100.
Definition COMM_VERIFICATION_COUNT : Z := 3.
Definition COMM_VERIFICATION_WINDOW_MS : Z := 50.

(** ** Enumerations (sm_types.h) *)

Inductive StateMachineState_t : Set :=
  | STATE_INIT
  | STATE_IDLE
  | STATE_ACTIVE
  | STATE_PROCESSING
  | STATE_COMMUNICATING
  | STATE_MONITORING
  | STATE_CALIBRATING
  | STATE_DIAGNOSTICS
  | STATE_RECOVERY
  | STATE_CRITICAL_ERROR.

Definition STATE_MAX : Z := 10.

Definition state_index (s : StateMachineState_t) : Z :=
  match s with
  | STATE_INIT => 0
  | STATE_IDLE => 1
  | STATE_ACTIVE => 2
  | STATE_PROCESSING => 3
  | STATE_COMMUNICATING => 4
  | STATE_MONITORING => 5
  | STATE_CALIBRATING => 6
  | STATE_DIAGNOSTICS => 7
  | STATE_RECOVERY => 8
  | STATE_CRITICAL_ERROR => 9
  end.

Inductive StateMachineEvent_t : Set :=
  | EVENT_NONE
  | EVENT_INIT_COMPLETE
  | EVENT_START
  | EVENT_STOP
  | EVENT_DATA_READY
  | EVENT_PROCESSING_DONE
  | EVENT_COMM_REQUEST
  | EVENT_COMM_COMPLETE
  | EVENT_TIMEOUT
  | EVENT_ERROR_MINOR
  | EVENT_ERROR_NORMAL
  | EVENT_ERROR_CRITICAL
  | EVENT_RECOVERY_SUCCESS
  | EVENT_RECOVERY_FAILED.

Definition EVENT_MAX : Z := 14.

Definition event_index (e : StateMachineEvent_t) : Z :=
  match e with
  | EVENT_NONE => 0
  | EVENT_INIT_COMPLETE => 1
  | EVENT_START => 2
  | EVENT_STOP => 3
  | EVENT_DATA_READY => 4
  | EVENT_PROCESSING_DONE => 5
  | EVENT_COMM_REQUEST => 6
  | EVENT_COMM_COMPLETE => 7
  | EVENT_TIMEOUT => 8
  | EVENT_ERROR_MINOR => 9
  | EVENT_ERROR_NORMAL => 10
  | EVENT_ERROR_CRITICAL => 11
  | EVENT_RECOVERY_SUCCESS => 12
  | EVENT_RECOVERY_FAILED => 13
  end.

Inductive ErrorLevel_t : Set :=
  | ERROR_LEVEL_NONE
  | ERROR_LEVEL_MINOR
  | ERROR_LEVEL_NORMAL
  | ERROR_LEVEL_CRITICAL.

Inductive ErrorCode_t : Set :=
  | ERROR_CODE_NONE
  | ERROR_CODE_TIMEOUT
  | ERROR_CODE_COMM_LOST
  | ERROR_CODE_COMM_CORRUPT
  | ERROR_CODE_INVALID_DATA
  | ERROR_CODE_BUFFER_OVERFLOW
  | ERROR_CODE_RESOURCE_UNAVAILABLE
  | ERROR_CODE_CALIBRATION_FAILED
  | ERROR_CODE_HARDWARE_FAULT
  | ERROR_CODE_WATCHDOG_RESET
  | ERROR_CODE_MEMORY_CORRUPTION.

Definition ERROR_CODE_MAX : Z := 11.

Definition code_index (c : ErrorCode_t) : Z :=
  match c with
  | ERROR_CODE_NONE => 0
  | ERROR_CODE_TIMEOUT => 1
  | ERROR_CODE_COMM_LOST => 2
  | ERROR_CODE_COMM_CORRUPT => 3
  | ERROR_CODE_INVALID_DATA => 4
  | ERROR_CODE_BUFFER_OVERFLOW => 5
  | ERROR_CODE_RESOURCE_UNAVAILABLE => 6
  | ERROR_CODE_CALIBRATION_FAILED => 7
  | ERROR_CODE_HARDWARE_FAULT => 8
  | ERROR_CODE_WATCHDOG_RESET => 9
  | ERROR_CODE_MEMORY_CORRUPTION => 10
  end.

#[global] Instance StateMachineState_eq_dec : EqDecision StateMachineState_t.
Proof. solve_decision. Defined.

#[global] Instance StateMachineEvent_eq_dec : EqDecision StateMachineEvent_t.
Proof. solve_decision. Defined.

#[global] Instance ErrorLevel_eq_dec : EqDecision ErrorLevel_t.
Proof. solve_decision. Defined.

#[global] Instance ErrorCode_eq_dec : EqDecision ErrorCode_t.
Proof. solve_decision. Defined.

(** ** Function pointers

    The state table stores pointers to functions without arguments or
    result.  A pointer is the
    name of the function it designates: one of the thirty static callbacks
    of sm_state_machine.c, or a function of the application installed with
    [StateMachine_SetStateCallbacks], known by a number.  [None] is the
    NULL pointer. *)

Inductive Callback : Set :=
  | State_Init_OnEntry | State_Init_OnState | State_Init_OnExit
  | State_Idle_OnEntry | State_Idle_OnState | State_Idle_OnExit
  | State_Active_OnEntry | State_Active_OnState | State_Active_OnExit
  | State_Processing_OnEntry | State_Processing_OnState
  | State_Processing_OnExit
  | State_Communicating_OnEntry | State_Communicating_OnState
  | State_Communicating_OnExit
  | State_Monitoring_OnEntry | State_Monitoring_OnState
  | State_Monitoring_OnExit
  | State_Calibrating_OnEntry | State_Calibrating_OnState
  | State_Calibrating_OnExit
  | State_Diagnostics_OnEntry | State_Diagnostics_OnState
  | State_Diagnostics_OnExit
  | State_Recovery_OnEntry | State_Recovery_OnState | State_Recovery_OnExit
  | State_CriticalError_OnEntry | State_CriticalError_OnState
  | State_CriticalError_OnExit
  | Application_Callback (id : nat).

(** ** Structures (sm_types.h) *)

Record ErrorInfo_t : Set := {
  level : ErrorLevel_t;
  code : ErrorCode_t;
  timestamp : Z;
  state : StateMachineState_t;
  retry_count : Z;
  is_recovered : bool
}.

Record StateTransition_t : Set := {
  event : StateMachineEvent_t;
  next_state : StateMachineState_t
}.

Record StateConfig_t : Set := {
  state_id : StateMachineState_t;
  on_entry : option Callback;
  on_state : option Callback;
  on_exit : option Callback;
  transitions : list StateTransition_t;
  transition_count : Z;
  timeout_ms : Z
}.

Record ErrorHandler_t : Set := {
  current_error : ErrorInfo_t;
  error_history : list ErrorInfo_t;
  history_index : Z;
  minor_error_timestamp : Z;
  minor_good_message_count : Z;
  critical_lock_active : bool
}.

Record StateMachineContext_t : Set := {
  current_state : StateMachineState_t;
  previous_state : StateMachineState_t;
  pending_event : StateMachineEvent_t;
  state_entry_time : Z;
  state_execution_count : Z;
  state_changed : bool;
  error_handler : ErrorHandler_t
}.

(** [g_state_data] of sm_state_machine.c. *)
Record StateData_t : Set := {
  init_step_count : Z;
  comm_started : bool
}.

(** [g_comm_verification] of sm_error_handler.c. *)
Record CommVerification_t : Set := {
  window_start_time : Z;
  good_message_count : Z;
  is_verified : bool
}.

(** The globals of the two translation units, the number of clock
    readings taken so far (the state of the platform clock), and a ghost
    log of the callbacks invoked, most recent first. *)
Record World : Type := {
  g_sm_context : StateMachineContext_t;
  g_state_table : StateMachineState_t -> StateConfig_t;
  g_state_data : StateData_t;
  g_comm_verification : CommVerification_t;
  g_recovery_handlers : ErrorCode_t -> option nat;
  clock_reads : nat;
  callback_log : list Callback
}.

(** ** Field updates

    A C assignment [p->f = v] is the record with [f] replaced. *)

Definition set_level (v : ErrorLevel_t) (e : ErrorInfo_t) : ErrorInfo_t :=
  {| level := v; code := code e; timestamp := timestamp e; state := state e;
     retry_count := retry_count e; is_recovered := is_recovered e |}.

Definition set_code (v : ErrorCode_t) (e : ErrorInfo_t) : ErrorInfo_t :=
  {| level := level e; code := v; timestamp := timestamp e; state := state e;
     retry_count := retry_count e; is_recovered := is_recovered e |}.

Definition set_retry_count (v : Z) (e : ErrorInfo_t) : ErrorInfo_t :=
  {| level := level e; code := code e; timestamp := timestamp e;
     state := state e; retry_count := v; is_recovered := is_recovered e |}.

Definition set_is_recovered (v : bool) (e : ErrorInfo_t) : ErrorInfo_t :=
  {| level := level e; code := code e; timestamp := timestamp e;
     state := state e; retry_count := retry_count e; is_recovered := v |}.

Definition set_current_error (v : ErrorInfo_t) (h : ErrorHandler_t)
  : ErrorHandler_t :=
  {| current_error := v; error_history := error_history h;
     history_index := history_index h;
     minor_error_timestamp := minor_error_timestamp h;
     minor_good_message_count := minor_good_message_count h;
     critical_lock_active := critical_lock_active h |}.

Definition set_error_history (v : list ErrorInfo_t) (h : ErrorHandler_t)
  : ErrorHandler_t :=
  {| current_error := current_error h; error_history := v;
     history_index := history_index h;
     minor_error_timestamp := minor_error_timestamp h;
     minor_good_message_count := minor_good_message_count h;
     critical_lock_active := critical_lock_active h |}.

Definition set_history_index (v : Z) (h : ErrorHandler_t) : ErrorHandler_t :=
  {| current_error := current_error h; error_history := error_history h;
     history_index := v;
     minor_error_timestamp := minor_error_timestamp h;
     minor_good_message_count := minor_good_message_count h;
     critical_lock_active := critical_lock_active h |}.

Definition set_minor_error_timestamp (v : Z) (h : ErrorHandler_t)
  : ErrorHandler_t :=
  {| current_error := current_error h; error_history := error_history h;
     history_index := history_index h;
     minor_error_timestamp := v;
     minor_good_message_count := minor_good_message_count h;
     critical_lock_active := critical_lock_active h |}.

Definition set_minor_good_message_count (v : Z) (h : ErrorHandler_t)
  : ErrorHandler_t :=
  {| current_error := current_error h; error_history := error_history h;
     history_index := history_index h;
     minor_error_timestamp := minor_error_timestamp h;
     minor_good_message_count := v;
     critical_lock_active := critical_lock_active h |}.

Definition set_critical_lock_active (v : bool) (h : ErrorHandler_t)
  : ErrorHandler_t :=
  {| current_error := current_error h; error_history := error_history h;
     history_index := history_index h;
     minor_error_timestamp := minor_error_timestamp h;
     minor_good_message_count := minor_good_message_count h;
     critical_lock_active := v |}.

Definition set_current_state (v : StateMachineState_t)
  (c : StateMachineContext_t) : StateMachineContext_t :=
  {| current_state := v; previous_state := previous_state c;
     pending_event := pending_event c;
     state_entry_time := state_entry_time c;
     state_execution_count := state_execution_count c;
     state_changed := state_changed c; error_handler := error_handler c |}.

Definition set_previous_state (v : StateMachineState_t)
  (c : StateMachineContext_t) : StateMachineContext_t :=
  {| current_state := current_state c; previous_state := v;
     pending_event := pending_event c;
     state_entry_time := state_entry_time c;
     state_execution_count := state_execution_count c;
     state_changed := state_changed c; error_handler := error_handler c |}.

Definition set_pending_event (v : StateMachineEvent_t)
  (c : StateMachineContext_t) : StateMachineContext_t :=
  {| current_state := current_state c; previous_state := previous_state c;
     pending_event := v;
     state_entry_time := state_entry_time c;
     state_execution_count := state_execution_count c;
     state_changed := state_changed c; error_handler := error_handler c |}.

Definition set_state_entry_time (v : Z) (c : StateMachineContext_t)
  : StateMachineContext_t :=
  {| current_state := current_state c; previous_state := previous_state c;
     pending_event := pending_event c;
     state_entry_time := v;
     state_execution_count := state_execution_count c;
     state_changed := state_changed c; error_handler := error_handler c |}.

Definition set_state_execution_count (v : Z) (c : StateMachineContext_t)
  : StateMachineContext_t :=
  {| current_state := current_state c; previous_state := previous_state c;
     pending_event := pending_event c;
     state_entry_time := state_entry_time c;
     state_execution_count := v;
     state_changed := state_changed c; error_handler := error_handler c |}.

Definition set_state_changed (v : bool) (c : StateMachineContext_t)
  : StateMachineContext_t :=
  {| current_state := current_state c; previous_state := previous_state c;
     pending_event := pending_event c;
     state_entry_time := state_entry_time c;
     state_execution_count := state_execution_count c;
     state_changed := v; error_handler := error_handler c |}.

Definition set_error_handler (v : ErrorHandler_t) (c : StateMachineContext_t)
  : StateMachineContext_t :=
  {| current_state := current_state c; previous_state := previous_state c;
     pending_event := pending_event c;
     state_entry_time := state_entry_time c;
     state_execution_count := state_execution_count c;
     state_changed := state_changed c; error_handler := v |}.

Definition set_on_entry (v : option Callback) (c : StateConfig_t)
  : StateConfig_t :=
  {| state_id := state_id c; on_entry := v; on_state := on_state c;
     on_exit := on_exit c; transitions := transitions c;
     transition_count := transition_count c; timeout_ms := timeout_ms c |}.

Definition set_on_state (v : option Callback) (c : StateConfig_t)
  : StateConfig_t :=
  {| state_id := state_id c; on_entry := on_entry c; on_state := v;
     on_exit := on_exit c; transitions := transitions c;
     transition_count := transition_count c; timeout_ms := timeout_ms c |}.

Definition set_on_exit (v : option Callback) (c : StateConfig_t)
  : StateConfig_t :=
  {| state_id := state_id c; on_entry := on_entry c; on_state := on_state c;
     on_exit := v; transitions := transitions c;
     transition_count := transition_count c; timeout_ms := timeout_ms c |}.

Definition set_state_id (v : StateMachineState_t) (c : StateConfig_t)
  : StateConfig_t :=
  {| state_id := v; on_entry := on_entry c; on_state := on_state c;
     on_exit := on_exit c; transitions := transitions c;
     transition_count := transition_count c; timeout_ms := timeout_ms c |}.

Definition set_transitions (v : list StateTransition_t) (c : StateConfig_t)
  : StateConfig_t :=
  {| state_id := state_id c; on_entry := on_entry c; on_state := on_state c;
     on_exit := on_exit c; transitions := v;
     transition_count := transition_count c; timeout_ms := timeout_ms c |}.

Definition set_transition_count (v : Z) (c : StateConfig_t) : StateConfig_t :=
  {| state_id := state_id c; on_entry := on_entry c; on_state := on_state c;
     on_exit := on_exit c; transitions := transitions c;
     transition_count := v; timeout_ms := timeout_ms c |}.

Definition set_timeout_ms (v : Z) (c : StateConfig_t) : StateConfig_t :=
  {| state_id := state_id c; on_entry := on_entry c; on_state := on_state c;
     on_exit := on_exit c; transitions := transitions c;
     transition_count := transition_count c; timeout_ms := v |}.

Definition set_sm_context (v : StateMachineContext_t) (w : World) : World :=
  {| g_sm_context := v; g_state_table := g_state_table w;
     g_state_data := g_state_data w;
     g_comm_verification := g_comm_verification w;
     g_recovery_handlers := g_recovery_handlers w;
     clock_reads := clock_reads w; callback_log := callback_log w |}.

Definition set_state_table (v : StateMachineState_t -> StateConfig_t)
  (w : World) : World :=
  {| g_sm_context := g_sm_context w; g_state_table := v;
     g_state_data := g_state_data w;
     g_comm_verification := g_comm_verification w;
     g_recovery_handlers := g_recovery_handlers w;
     clock_reads := clock_reads w; callback_log := callback_log w |}.

Definition set_state_data (v : StateData_t) (w : World) : World :=
  {| g_sm_context := g_sm_context w; g_state_table := g_state_table w;
     g_state_data := v;
     g_comm_verification := g_comm_verification w;
     g_recovery_handlers := g_recovery_handlers w;
     clock_reads := clock_reads w; callback_log := callback_log w |}.

Definition set_comm_verification (v : CommVerification_t) (w : World)
  : World :=
  {| g_sm_context := g_sm_context w; g_state_table := g_state_table w;
     g_state_data := g_state_data w;
     g_comm_verification := v;
     g_recovery_handlers := g_recovery_handlers w;
     clock_reads := clock_reads w; callback_log := callback_log w |}.

Definition set_recovery_handlers (v : ErrorCode_t -> option nat) (w : World)
  : World :=
  {| g_sm_context := g_sm_context w; g_state_table := g_state_table w;
     g_state_data := g_state_data w;
     g_comm_verification := g_comm_verification w;
     g_recovery_handlers := v;
     clock_reads := clock_reads w; callback_log := callback_log w |}.

Definition set_clock_reads (v : nat) (w : World) : World :=
  {| g_sm_context := g_sm_context w; g_state_table := g_state_table w;
     g_state_data := g_state_data w;
     g_comm_verification := g_comm_verification w;
     g_recovery_handlers := g_recovery_handlers w;
     clock_reads := v; callback_log := callback_log w |}.

Definition set_callback_log (v : list Callback) (w : World) : World :=
  {| g_sm_context := g_sm_context w; g_state_table := g_state_table w;
     g_state_data := g_state_data w;
     g_comm_verification := g_comm_verification w;
     g_recovery_handlers := g_recovery_handlers w;
     clock_reads := clock_reads w; callback_log := v |}.

(** Updates through the paths the C code writes through. *)

Definition ctx (w : World) : StateMachineContext_t := g_sm_context w.

Definition handler (w : World) : ErrorHandler_t := error_handler (ctx w).

Definition upd_ctx (f : StateMachineContext_t -> StateMachineContext_t)
  (w : World) : World :=
  set_sm_context (f (g_sm_context w)) w.

Definition upd_handler (f : ErrorHandler_t -> ErrorHandler_t) (w : World)
  : World :=
  upd_ctx (fun c => set_error_handler (f (error_handler c)) c) w.

Definition upd_current_error (f : ErrorInfo_t -> ErrorInfo_t) (w : World)
  : World :=
  upd_handler (fun h => set_current_error (f (current_error h)) h) w.

(** [g_state_table[s] = ...] *)
Definition upd_config (s : StateMachineState_t)
  (f : StateConfig_t -> StateConfig_t) (w : World) : World :=
  set_state_table
    (fun s' => if decide (s' = s) then f (g_state_table w s)
               else g_state_table w s') w.

(** ** memset to zero *)

Definition zero_ErrorInfo : ErrorInfo_t :=
  {| level := ERROR_LEVEL_NONE; code := ERROR_CODE_NONE; timestamp := 0;
     state := STATE_INIT; retry_count := 0; is_recovered := false |}.

Definition zero_ErrorHandler : ErrorHandler_t :=
  {| current_error := zero_ErrorInfo;
     error_history := replicate (Z.to_nat ERROR_HISTORY_SIZE) zero_ErrorInfo;
     history_index := 0;
     minor_error_timestamp := 0;
     minor_good_message_count := 0;
     critical_lock_active := false |}.

Definition zero_Context : StateMachineContext_t :=
  {| current_state := STATE_INIT; previous_state := STATE_INIT;
     pending_event := EVENT_NONE; state_entry_time := 0;
     state_execution_count := 0; state_changed := false;
     error_handler := zero_ErrorHandler |}.

Definition zero_Transition : StateTransition_t :=
  {| event := EVENT_NONE; next_state := STATE_INIT |}.

Definition zero_StateConfig : StateConfig_t :=
  {| state_id := STATE_INIT; on_entry := None; on_state := None;
     on_exit := None;
     transitions :=
       replicate (Z.to_nat SM_MAX_TRANSITIONS_PER_STATE) zero_Transition;
     transition_count := 0; timeout_ms := 0 |}.

Definition zero_StateData : StateData_t :=
  {| init_step_count := 0; comm_started := false |}.

Definition zero_CommVerification : CommVerification_t :=
  {| window_start_time := 0; good_message_count := 0; is_verified := false |}.

(** ** The program *)

(** What the surrounding system supplies.  [Platform_GetTimeMs] is a weak
    symbol: the value of its n-th call is [platform_clock n] (the default
    of sm_platform_weak.c is [sim_time++], that is [platform_clock n = n]).
    [application_callback n] is the body of the application's n-th state
    callback and [application_recovery n] the body of its n-th recovery
    handler. *)
Class Platform : Type := {
  platform_clock : nat -> Z;
  application_callback : nat -> World -> World;
  application_recovery : nat -> ErrorCode_t -> World -> bool * World
}.

Section Engine.

Context {platform : Platform}.

(** *** sm_platform_weak.c *)

Definition Platform_GetTimeMs (w : World) : Z * World :=
  (u32 (platform_clock (clock_reads w)),
   set_clock_reads (S (clock_reads w)) w).

(** In the second branch [current_time < start_time_ms <= 0xFFFFFFFF],
    so the sum stays below 2^32 and needs no reduction. *)
Definition Platform_IsTimeout (start_time_ms timeout : Z) (w : World)
  : bool * World :=
  let '(current_time, w) := Platform_GetTimeMs w in
  if bool_decide (start_time_ms <= current_time) then
    (bool_decide (timeout <= u32 (current_time - start_time_ms)), w)
  else
    (bool_decide (timeout <= (4294967295 - start_time_ms) + current_time),
     w).

(** *** sm_state_machine.c: events *)

Definition StateMachine_GetCurrentState (w : World) : StateMachineState_t :=
  current_state (ctx w).

(** [Platform_EnterCritical] and [Platform_ExitCritical] do nothing in
    the default platform; the model is sequential. *)
Definition StateMachine_PostEvent (ev : StateMachineEvent_t) (w : World)
  : bool * World :=
  if bool_decide (EVENT_MAX <= event_index ev)
     || bool_decide (ev = EVENT_NONE)
  then (false, w)
  else if bool_decide (pending_event (ctx w) <> EVENT_NONE)
  then (false, w)
  else (true, upd_ctx (set_pending_event ev) w).

(** *** sm_error_handler.c *)

Definition ErrorHandler_Init (w : World) : bool * World :=
  let w := upd_ctx (set_error_handler zero_ErrorHandler) w in
  let w := set_comm_verification zero_CommVerification w in
  let w := set_recovery_handlers (fun _ => None) w in
  let w := upd_current_error (set_level ERROR_LEVEL_NONE) w in
  let w := upd_current_error (set_code ERROR_CODE_NONE) w in
  let w := upd_handler (set_critical_lock_active false) w in
  (true, w).

(** The C array [error_history] has [ERROR_HISTORY_SIZE] slots and the
    index written or read is always reduced modulo that size.  Outside
    the list, where C leaves the behaviour undefined, a write changes
    nothing and a read takes the zero record. *)
Definition AddErrorToHistory (error_info : ErrorInfo_t) (w : World)
  : World :=
  let h := handler w in
  let w :=
    upd_handler
      (set_error_history
         (<[Z.to_nat (history_index h) := error_info]> (error_history h)))
      w in
  upd_handler
    (set_history_index (u8 ((history_index h + 1) mod ERROR_HISTORY_SIZE)))
    w.

Definition ErrorHandler_VerifyCommChannel (w : World) : bool * World :=
  let '(current_time, w) := Platform_GetTimeMs w in
  let v := g_comm_verification w in
  if bool_decide
       (u32 (current_time - window_start_time v)
        <= COMM_VERIFICATION_WINDOW_MS)
  then
    let count := u8 (good_message_count v + 1) in
    if bool_decide (COMM_VERIFICATION_COUNT <= count) then
      (true,
       set_comm_verification
         {| window_start_time := window_start_time v;
            good_message_count := count; is_verified := true |} w)
    else
      (false,
       set_comm_verification
         {| window_start_time := window_start_time v;
            good_message_count := count; is_verified := is_verified v |} w)
  else
    (false,
     set_comm_verification
       {| window_start_time := current_time; good_message_count := 1;
          is_verified := is_verified v |} w).

Definition ErrorHandler_HandleNormalError (c : ErrorCode_t) (w : World)
  : bool * World :=
  let '(now, w) := Platform_GetTimeMs w in
  let w :=
    upd_current_error
      (fun _ =>
         {| level := ERROR_LEVEL_NORMAL; code := c; timestamp := now;
            state := StateMachine_GetCurrentState w;
            retry_count := 0; is_recovered := false |}) w in
  let '(_, w) := StateMachine_PostEvent EVENT_ERROR_NORMAL w in
  (true, w).

Definition ErrorHandler_HandleCriticalError (c : ErrorCode_t) (w : World)
  : World :=
  let '(now, w) := Platform_GetTimeMs w in
  let w :=
    upd_current_error
      (fun _ =>
         {| level := ERROR_LEVEL_CRITICAL; code := c; timestamp := now;
            state := StateMachine_GetCurrentState w;
            retry_count := 0; is_recovered := false |}) w in
  let w := upd_handler (set_critical_lock_active true) w in
  let '(_, w) := StateMachine_PostEvent EVENT_ERROR_CRITICAL w in
  w.

Definition ErrorHandler_HandleMinorError (c : ErrorCode_t) (w : World)
  : bool * World :=
  let '(current_time, w) := Platform_GetTimeMs w in
  let w :=
    if bool_decide (minor_error_timestamp (handler w) = 0) then
      upd_handler (set_minor_good_message_count 0)
        (upd_handler (set_minor_error_timestamp current_time) w)
    else w in
  if bool_decide
       (u32 (current_time - minor_error_timestamp (handler w))
        <= ERROR_MINOR_TIMEOUT_MS)
  then
    let '(verified, w) := ErrorHandler_VerifyCommChannel w in
    if verified then
      let w :=
        upd_handler
          (set_minor_good_message_count
             (u8 (minor_good_message_count (handler w) + 1))) w in
      if bool_decide
           (COMM_VERIFICATION_COUNT <= minor_good_message_count (handler w))
      then
        (true,
         upd_handler (set_minor_good_message_count 0)
           (upd_handler (set_minor_error_timestamp 0) w))
      else (true, w)
    else (true, w)
  else ErrorHandler_HandleNormalError c w.

Definition ErrorHandler_Report (l : ErrorLevel_t) (c : ErrorCode_t)
  (w : World) : bool * World :=
  let '(now, w) := Platform_GetTimeMs w in
  let error_info :=
    {| level := l; code := c; timestamp := now;
       state := StateMachine_GetCurrentState w;
       retry_count := 0; is_recovered := false |} in
  let w := AddErrorToHistory error_info w in
  match l with
  | ERROR_LEVEL_MINOR => ErrorHandler_HandleMinorError c w
  | ERROR_LEVEL_NORMAL => ErrorHandler_HandleNormalError c w
  | ERROR_LEVEL_CRITICAL => (true, ErrorHandler_HandleCriticalError c w)
  | _ => (false, w)
  end.

Definition ErrorHandler_AttemptRecovery (w : World) : bool * World :=
  if bool_decide (level (current_error (handler w)) = ERROR_LEVEL_NONE)
  then (true, w)
  else
    let w :=
      upd_current_error
        (fun e => set_retry_count (u8 (retry_count e + 1)) e) w in
    if bool_decide
         (ERROR_MAX_RECOVERY_ATTEMPTS
          <= retry_count (current_error (handler w)))
    then (false, w)
    else
      let c := code (current_error (handler w)) in
      match g_recovery_handlers w c with
      | Some id => application_recovery id c w
      | None =>
          match c with
          | ERROR_CODE_COMM_LOST =>
              let '(verified, w) := ErrorHandler_VerifyCommChannel w in
              if verified then
                (true, upd_current_error (set_is_recovered true) w)
              else (false, w)
          | ERROR_CODE_TIMEOUT =>
              (true, upd_current_error (set_is_recovered true) w)
          | _ => (false, w)
          end
      end.

Definition ErrorHandler_ClearError (w : World) : World :=
  let w := upd_current_error (set_level ERROR_LEVEL_NONE) w in
  let w := upd_current_error (set_code ERROR_CODE_NONE) w in
  upd_current_error (set_retry_count 0) w.

Definition ErrorHandler_IsCriticalLock (w : World) : bool :=
  critical_lock_active (handler w).

(** The destination [error_info] is [None] for a NULL pointer and the
    caller's record otherwise; the result pairs the returned flag with
    the destination after the call. *)
Definition ErrorHandler_GetCurrentError (error_info : option ErrorInfo_t)
  (w : World) : bool * option ErrorInfo_t :=
  match error_info with
  | None => (false, None)
  | Some _ => (true, Some (current_error (handler w)))
  end.

Definition ErrorHandler_GetHistoryError (index : Z)
  (error_info : option ErrorInfo_t) (w : World)
  : bool * option ErrorInfo_t :=
  match error_info with
  | None => (false, None)
  | Some old =>
      if bool_decide (ERROR_HISTORY_SIZE <= index) then (false, Some old)
      else
        let actual_index :=
          u8 (u32 (history_index (handler w) + ERROR_HISTORY_SIZE
                   - index - 1) mod ERROR_HISTORY_SIZE) in
        (true,
         Some (default zero_ErrorInfo
                 (error_history (handler w) !! Z.to_nat actual_index)))
  end.

Definition ErrorHandler_GetHistoryCount (w : World) : Z :=
  ERROR_HISTORY_SIZE.

Definition ErrorHandler_RegisterRecoveryHandler (c : ErrorCode_t)
  (h : option nat) (w : World) : bool * World :=
  if bool_decide (ERROR_CODE_MAX <= code_index c) then (false, w)
  else
    (true,
     set_recovery_handlers
       (fun c' => if decide (c' = c) then h else g_recovery_handlers w c')
       w).

(** *** sm_state_machine.c: the state callbacks

    The [DEBUG_*] macros write to the debug sink only and are left
    out.  Every invocation is recorded in [callback_log]. *)

Definition callback_body (cb : Callback) (w : World) : World :=
  match cb with
  | State_Init_OnEntry =>
      set_state_data
        {| init_step_count := 0;
           comm_started := comm_started (g_state_data w) |} w
  | State_Init_OnState =>
      let w :=
        set_state_data
          {| init_step_count := u32 (init_step_count (g_state_data w) + 1);
             comm_started := comm_started (g_state_data w) |} w in
      if bool_decide (5 <= init_step_count (g_state_data w)) then
        snd (StateMachine_PostEvent EVENT_INIT_COMPLETE w)
      else w
  | State_Processing_OnState =>
      if bool_decide (20 <= state_execution_count (ctx w)) then
        snd (StateMachine_PostEvent EVENT_PROCESSING_DONE w)
      else w
  | State_Communicating_OnEntry =>
      set_state_data
        {| init_step_count := init_step_count (g_state_data w);
           comm_started := false |} w
  | State_Communicating_OnState =>
      let w :=
        if negb (comm_started (g_state_data w)) then
          set_state_data
            {| init_step_count := init_step_count (g_state_data w);
               comm_started := true |} w
        else w in
      if bool_decide (8 <= state_execution_count (ctx w)) then
        let '(verified, w) := ErrorHandler_VerifyCommChannel w in
        if verified then snd (StateMachine_PostEvent EVENT_COMM_COMPLETE w)
        else w
      else w
  | State_Communicating_OnExit =>
      set_state_data
        {| init_step_count := init_step_count (g_state_data w);
           comm_started := false |} w
  | State_Calibrating_OnState =>
      if bool_decide (30 <= state_execution_count (ctx w)) then
        snd (StateMachine_PostEvent EVENT_PROCESSING_DONE w)
      else w
  | State_Diagnostics_OnState =>
      if bool_decide (15 <= state_execution_count (ctx w)) then
        snd (StateMachine_PostEvent EVENT_PROCESSING_DONE w)
      else w
  | State_Recovery_OnState =>
      let '(recovery_successful, w) := ErrorHandler_AttemptRecovery w in
      if recovery_successful then
        let w := ErrorHandler_ClearError w in
        snd (StateMachine_PostEvent EVENT_RECOVERY_SUCCESS w)
      else
        match ErrorHandler_GetCurrentError (Some zero_ErrorInfo) w with
        | (true, Some error_info) =>
            if bool_decide
                 (ERROR_MAX_RECOVERY_ATTEMPTS <= retry_count error_info)
            then snd (StateMachine_PostEvent EVENT_RECOVERY_FAILED w)
            else w
        | _ => w
        end
  | Application_Callback id => application_callback id w
  | State_Init_OnExit
  | State_Idle_OnEntry | State_Idle_OnState | State_Idle_OnExit
  | State_Active_OnEntry | State_Active_OnState | State_Active_OnExit
  | State_Processing_OnEntry | State_Processing_OnExit
  | State_Monitoring_OnEntry | State_Monitoring_OnState
  | State_Monitoring_OnExit
  | State_Calibrating_OnEntry | State_Calibrating_OnExit
  | State_Diagnostics_OnEntry | State_Diagnostics_OnExit
  | State_Recovery_OnEntry | State_Recovery_OnExit
  | State_CriticalError_OnEntry | State_CriticalError_OnState
  | State_CriticalError_OnExit => w
  end.

Definition run_callback (cb : Callback) (w : World) : World :=
  callback_body cb (set_callback_log (cb :: callback_log w) w).

(** [if (p != NULL) p();] *)
Definition call_if_set (p : option Callback) (w : World) : World :=
  match p with
  | Some cb => run_callback cb w
  | None => w
  end.

(** *** sm_state_machine.c: the table and the transitions *)

(** [transitions[idx] = (StateTransition_t){ev, target}] *)
Definition set_rule (idx : nat) (ev : StateMachineEvent_t)
  (target : StateMachineState_t) (c : StateConfig_t) : StateConfig_t :=
  set_transitions
    (<[idx := {| event := ev; next_state := target |}]> (transitions c)) c.

Definition set_callbacks (entry during exit : Callback) (c : StateConfig_t)
  : StateConfig_t :=
  set_on_exit (Some exit) (set_on_state (Some during)
    (set_on_entry (Some entry) c)).

Definition InitializeStateTable (w : World) : World :=
  let w := upd_config STATE_INIT (fun c =>
    let c := set_state_id STATE_INIT c in
    let c := set_callbacks State_Init_OnEntry State_Init_OnState
               State_Init_OnExit c in
    let c := set_timeout_ms SM_STATE_TIMEOUT_MS c in
    let c := set_rule 0 EVENT_INIT_COMPLETE STATE_IDLE c in
    let c := set_rule 1 EVENT_ERROR_NORMAL STATE_RECOVERY c in
    let c := set_rule 2 EVENT_ERROR_CRITICAL STATE_CRITICAL_ERROR c in
    let c := set_rule 3 EVENT_TIMEOUT STATE_RECOVERY c in
    set_transition_count 4 c) w in
  let w := upd_config STATE_IDLE (fun c =>
    let c := set_state_id STATE_IDLE c in
    let c := set_callbacks State_Idle_OnEntry State_Idle_OnState
               State_Idle_OnExit c in
    let c := set_timeout_ms 0 c in
    let c := set_rule 0 EVENT_START STATE_ACTIVE c in
    let c := set_rule 1 EVENT_ERROR_NORMAL STATE_RECOVERY c in
    let c := set_rule 2 EVENT_ERROR_CRITICAL STATE_CRITICAL_ERROR c in
    set_transition_count 3 c) w in
  let w := upd_config STATE_ACTIVE (fun c =>
    let c := set_state_id STATE_ACTIVE c in
    let c := set_callbacks State_Active_OnEntry State_Active_OnState
               State_Active_OnExit c in
    let c := set_timeout_ms 0 c in
    let c := set_rule 0 EVENT_DATA_READY STATE_PROCESSING c in
    let c := set_rule 1 EVENT_STOP STATE_IDLE c in
    let c := set_rule 2 EVENT_ERROR_NORMAL STATE_RECOVERY c in
    let c := set_rule 3 EVENT_ERROR_CRITICAL STATE_CRITICAL_ERROR c in
    set_transition_count 4 c) w in
  let w := upd_config STATE_PROCESSING (fun c =>
    let c := set_state_id STATE_PROCESSING c in
    let c := set_callbacks State_Processing_OnEntry State_Processing_OnState
               State_Processing_OnExit c in
    let c := set_timeout_ms 3000 c in
    let c := set_rule 0 EVENT_PROCESSING_DONE STATE_COMMUNICATING c in
    let c := set_rule 1 EVENT_TIMEOUT STATE_RECOVERY c in
    let c := set_rule 2 EVENT_ERROR_NORMAL STATE_RECOVERY c in
    let c := set_rule 3 EVENT_ERROR_CRITICAL STATE_CRITICAL_ERROR c in
    set_transition_count 4 c) w in
  let w := upd_config STATE_COMMUNICATING (fun c =>
    let c := set_state_id STATE_COMMUNICATING c in
    let c := set_callbacks State_Communicating_OnEntry
               State_Communicating_OnState State_Communicating_OnExit c in
    let c := set_timeout_ms COMM_TIMEOUT_MS c in
    let c := set_rule 0 EVENT_COMM_COMPLETE STATE_MONITORING c in
    let c := set_rule 1 EVENT_TIMEOUT STATE_RECOVERY c in
    let c := set_rule 2 EVENT_ERROR_NORMAL STATE_RECOVERY c in
    let c := set_rule 3 EVENT_ERROR_CRITICAL STATE_CRITICAL_ERROR c in
    set_transition_count 4 c) w in
  let w := upd_config STATE_MONITORING (fun c =>
    let c := set_state_id STATE_MONITORING c in
    let c := set_callbacks State_Monitoring_OnEntry State_Monitoring_OnState
               State_Monitoring_OnExit c in
    let c := set_timeout_ms 0 c in
    let c := set_rule 0 EVENT_STOP STATE_IDLE c in
    let c := set_rule 1 EVENT_DATA_READY STATE_PROCESSING c in
    let c := set_rule 2 EVENT_ERROR_NORMAL STATE_RECOVERY c in
    let c := set_rule 3 EVENT_ERROR_CRITICAL STATE_CRITICAL_ERROR c in
    set_transition_count 4 c) w in
  let w := upd_config STATE_CALIBRATING (fun c =>
    let c := set_state_id STATE_CALIBRATING c in
    let c := set_callbacks State_Calibrating_OnEntry
               State_Calibrating_OnState State_Calibrating_OnExit c in
    let c := set_timeout_ms 5000 c in
    let c := set_rule 0 EVENT_PROCESSING_DONE STATE_DIAGNOSTICS c in
    let c := set_rule 1 EVENT_TIMEOUT STATE_RECOVERY c in
    let c := set_rule 2 EVENT_ERROR_NORMAL STATE_RECOVERY c in
    let c := set_rule 3 EVENT_ERROR_CRITICAL STATE_CRITICAL_ERROR c in
    set_transition_count 4 c) w in
  let w := upd_config STATE_DIAGNOSTICS (fun c =>
    let c := set_state_id STATE_DIAGNOSTICS c in
    let c := set_callbacks State_Diagnostics_OnEntry
               State_Diagnostics_OnState State_Diagnostics_OnExit c in
    let c := set_timeout_ms 2000 c in
    let c := set_rule 0 EVENT_PROCESSING_DONE STATE_ACTIVE c in
    let c := set_rule 1 EVENT_TIMEOUT STATE_RECOVERY c in
    let c := set_rule 2 EVENT_ERROR_NORMAL STATE_RECOVERY c in
    let c := set_rule 3 EVENT_ERROR_CRITICAL STATE_CRITICAL_ERROR c in
    set_transition_count 4 c) w in
  let w := upd_config STATE_RECOVERY (fun c =>
    let c := set_state_id STATE_RECOVERY c in
    let c := set_callbacks State_Recovery_OnEntry State_Recovery_OnState
               State_Recovery_OnExit c in
    let c := set_timeout_ms 2000 c in
    let c := set_rule 0 EVENT_RECOVERY_SUCCESS STATE_IDLE c in
    let c := set_rule 1 EVENT_RECOVERY_FAILED STATE_CRITICAL_ERROR c in
    let c := set_rule 2 EVENT_TIMEOUT STATE_CRITICAL_ERROR c in
    let c := set_rule 3 EVENT_ERROR_CRITICAL STATE_CRITICAL_ERROR c in
    set_transition_count 4 c) w in
  upd_config STATE_CRITICAL_ERROR (fun c =>
    let c := set_state_id STATE_CRITICAL_ERROR c in
    let c := set_callbacks State_CriticalError_OnEntry
               State_CriticalError_OnState State_CriticalError_OnExit c in
    let c := set_timeout_ms 0 c in
    set_transition_count 0 c) w.

Definition PerformStateTransition (new_state : StateMachineState_t)
  (w : World) : World :=
  if bool_decide (STATE_MAX <= state_index new_state) then w
  else
    let w :=
      call_if_set (on_exit (g_state_table w (current_state (ctx w)))) w in
    let w := upd_ctx (fun c => set_previous_state (current_state c) c) w in
    let w := upd_ctx (set_current_state new_state) w in
    upd_ctx (set_state_changed true) w.

(** The loop [for (i = 0; i < transition_count; i++)] over
    [transitions[i]]: [rules] is the part of the array from [i] on and
    [remaining] is [transition_count - i]. *)
Fixpoint find_transition (rules : list StateTransition_t)
  (remaining : nat) (ev : StateMachineEvent_t) {struct remaining}
  : option StateMachineState_t :=
  match remaining, rules with
  | S remaining', r :: rules' =>
      if bool_decide (event r = ev) then Some (next_state r)
      else find_transition rules' remaining' ev
  | _, _ => None
  end.

(** The result is [Some target] where the C function stores [target] in
    [*next_state] and returns true, and [None] where it returns false.
    The caller never passes a NULL [next_state]. *)
Definition CheckStateTransition (ev : StateMachineEvent_t) (w : World)
  : option StateMachineState_t :=
  let current_config := g_state_table w (current_state (ctx w)) in
  find_transition (transitions current_config)
    (Z.to_nat (transition_count current_config)) ev.

(** *** sm_state_machine.c: the public API *)

Definition StateMachine_Init (w : World) : bool * World :=
  let w := set_sm_context zero_Context w in
  let w := set_state_table (fun _ => zero_StateConfig) w in
  let w := set_state_data zero_StateData w in
  let w := upd_ctx (set_current_state STATE_INIT) w in
  let w := upd_ctx (set_previous_state STATE_INIT) w in
  let w := upd_ctx (set_pending_event EVENT_NONE) w in
  let '(now, w) := Platform_GetTimeMs w in
  let w := upd_ctx (set_state_entry_time now) w in
  let w := upd_ctx (set_state_execution_count 0) w in
  let w := upd_ctx (set_state_changed false) w in
  let '(ok, w) := ErrorHandler_Init w in
  if negb ok then (false, w)
  else (true, InitializeStateTable w).

(** The blocks of [StateMachine_Execute] that follow the lock check.
    [s] is the state whose table row [current_state_config] points to:
    the pointer is taken once, before the callbacks run. *)

Definition Execute_on_entry (s : StateMachineState_t) (w : World) : World :=
  if state_changed (ctx w) then
    let w := call_if_set (on_entry (g_state_table w s)) w in
    let w := upd_ctx (set_state_changed false) w in
    let '(now, w) := Platform_GetTimeMs w in
    let w := upd_ctx (set_state_entry_time now) w in
    upd_ctx (set_state_execution_count 0) w
  else w.

Definition Execute_on_state (s : StateMachineState_t) (w : World) : World :=
  let w := call_if_set (on_state (g_state_table w s)) w in
  upd_ctx
    (fun c =>
       set_state_execution_count (u32 (state_execution_count c + 1)) c) w.

Definition Execute_timeout (s : StateMachineState_t) (w : World) : World :=
  if bool_decide (0 < timeout_ms (g_state_table w s)) then
    let '(expired, w) :=
      Platform_IsTimeout (state_entry_time (ctx w))
        (timeout_ms (g_state_table w s)) w in
    if expired then snd (StateMachine_PostEvent EVENT_TIMEOUT w) else w
  else w.

Definition Execute_event (w : World) : World :=
  if bool_decide (pending_event (ctx w) <> EVENT_NONE) then
    let w :=
      match CheckStateTransition (pending_event (ctx w)) w with
      | Some next => PerformStateTransition next w
      | None => w
      end in
    upd_ctx (set_pending_event EVENT_NONE) w
  else w.

Definition StateMachine_Execute (w : World) : StateMachineState_t * World :=
  if critical_lock_active (handler w) then
    let w :=
      if bool_decide (current_state (ctx w) <> STATE_CRITICAL_ERROR) then
        PerformStateTransition STATE_CRITICAL_ERROR w
      else w in
    (current_state (ctx w), w)
  else
    let s := current_state (ctx w) in
    let w := Execute_on_entry s w in
    let w := Execute_on_state s w in
    let w := Execute_timeout s w in
    let w := Execute_event w in
    (current_state (ctx w), w).

Definition StateMachine_Reset (w : World) : World :=
  if critical_lock_active (handler w) then w
  else
    let w := ErrorHandler_ClearError w in
    let w := set_state_data zero_StateData w in
    PerformStateTransition STATE_INIT w.

Definition StateMachine_GetPreviousState (w : World) : StateMachineState_t :=
  previous_state (ctx w).

Definition StateMachine_GetStateTime (w : World) : Z * World :=
  let '(now, w) := Platform_GetTimeMs w in
  (u32 (now - state_entry_time (ctx w)), w).

Definition StateMachine_GetExecutionCount (w : World) : Z :=
  state_execution_count (ctx w).

Definition StateMachine_AddTransition (s : StateMachineState_t)
  (ev : StateMachineEvent_t) (target : StateMachineState_t) (w : World)
  : bool * World :=
  if bool_decide (STATE_MAX <= state_index s)
     || bool_decide (EVENT_MAX <= event_index ev)
     || bool_decide (STATE_MAX <= state_index target)
  then (false, w)
  else
    let config := g_state_table w s in
    if bool_decide (SM_MAX_TRANSITIONS_PER_STATE <= transition_count config)
    then (false, w)
    else
      (true,
       upd_config s
         (fun c =>
            set_transition_count (u8 (transition_count c + 1))
              (set_rule (Z.to_nat (transition_count c)) ev target c)) w).

(** [timeout] is a [uint32_t] argument: a value below 2^32. *)
Definition StateMachine_SetStateTimeout (s : StateMachineState_t)
  (timeout : Z) (w : World) : bool * World :=
  if bool_decide (STATE_MAX <= state_index s) then (false, w)
  else (true, upd_config s (set_timeout_ms timeout) w).

Definition StateMachine_SetStateCallbacks (s : StateMachineState_t)
  (entry during exit : option Callback) (w : World) : bool * World :=
  if bool_decide (STATE_MAX <= state_index s) then (false, w)
  else
    (true,
     upd_config s
       (fun c => set_on_exit exit (set_on_state during
                   (set_on_entry entry c))) w).

(** *** Drivers

    A caller of the library is a sequence of calls of its public
    functions.  The two initialisers are not among them: they are the
    re-initialisation that ends a lockout. *)

Inductive ApiCall : Type :=
  | Call_Execute
  | Call_PostEvent (ev : StateMachineEvent_t)
  | Call_Reset
  | Call_GetStateTime
  | Call_AddTransition (s : StateMachineState_t) (ev : StateMachineEvent_t)
      (target : StateMachineState_t)
  | Call_SetStateTimeout (s : StateMachineState_t) (timeout : Z)
  | Call_SetStateCallbacks (s : StateMachineState_t)
      (entry during exit : option Callback)
  | Call_Report (l : ErrorLevel_t) (c : ErrorCode_t)
  | Call_HandleMinorError (c : ErrorCode_t)
  | Call_HandleNormalError (c : ErrorCode_t)
  | Call_HandleCriticalError (c : ErrorCode_t)
  | Call_AttemptRecovery
  | Call_ClearError
  | Call_VerifyCommChannel
  | Call_RegisterRecoveryHandler (c : ErrorCode_t) (h : option nat).

Definition run_call (call : ApiCall) (w : World) : World :=
  match call with
  | Call_Execute => snd (StateMachine_Execute w)
  | Call_PostEvent ev => snd (StateMachine_PostEvent ev w)
  | Call_Reset => StateMachine_Reset w
  | Call_GetStateTime => snd (StateMachine_GetStateTime w)
  | Call_AddTransition s ev target =>
      snd (StateMachine_AddTransition s ev target w)
  | Call_SetStateTimeout s timeout =>
      snd (StateMachine_SetStateTimeout s timeout w)
  | Call_SetStateCallbacks s entry during exit =>
      snd (StateMachine_SetStateCallbacks s entry during exit w)
  | Call_Report l c => snd (ErrorHandler_Report l c w)
  | Call_HandleMinorError c => snd (ErrorHandler_HandleMinorError c w)
  | Call_HandleNormalError c => snd (ErrorHandler_HandleNormalError c w)
  | Call_HandleCriticalError c => ErrorHandler_HandleCriticalError c w
  | Call_AttemptRecovery => snd (ErrorHandler_AttemptRecovery w)
  | Call_ClearError => ErrorHandler_ClearError w
  | Call_VerifyCommChannel => snd (ErrorHandler_VerifyCommChannel w)
  | Call_RegisterRecoveryHandler c h =>
      snd (ErrorHandler_RegisterRecoveryHandler c h w)
  end.

Definition run_calls (calls : list ApiCall) (w : World) : World :=
  foldl (fun w call => run_call call w) w calls.

(** [n] consecutive ticks with nothing in between. *)
Fixpoint run_ticks (n : nat) (w : World) : World :=
  match n with
  | O => w
  | S n' => run_ticks n' (snd (StateMachine_Execute w))
  end.

(** The results of posting the events of [evs] one after the other, and
    the world after the last call. *)
Fixpoint post_events (evs : list StateMachineEvent_t) (w : World)
  : list bool * World :=
  match evs with
  | [] => ([], w)
  | ev :: evs' =>
      let '(ok, w) := StateMachine_PostEvent ev w in
      let '(oks, w) := post_events evs' w in
      (ok :: oks, w)
  end.

(** *** Notions used in the statements *)

(** The critical lockout is active. *)
Definition locked (w : World) : Prop := critical_lock_active (handler w) = true.

(** The rules of a table row that the lookup reads: the first
    [transition_count] slots of [transitions]. *)
Definition rules_of (c : StateConfig_t) : list StateTransition_t :=
  take (Z.to_nat (transition_count c)) (transitions c).

(** The world in which a tick that was entered in [w] with the lockout
    inactive processes the pending event: after the callbacks and the
    timeout check. *)
Definition before_event (w : World) : World :=
  let s := current_state (ctx w) in
  Execute_timeout s (Execute_on_state s (Execute_on_entry s w)).

(** [n] calls of [ErrorHandler_AttemptRecovery] one after the other:
    their results and the world after the last. *)
Fixpoint attempt_recovery_times (n : nat) (w : World) : list bool * World :=
  match n with
  | O => ([], w)
  | S n' =>
      let '(ok, w) := ErrorHandler_AttemptRecovery w in
      let '(oks, w) := attempt_recovery_times n' w in
      (ok :: oks, w)
  end.

(** The history array has its [ERROR_HISTORY_SIZE] slots and the write
    index is inside it, as after [ErrorHandler_Init]. *)
Definition history_wf (h : ErrorHandler_t) : Prop :=
  length (error_history h) = Z.to_nat ERROR_HISTORY_SIZE
  /\ 0 <= history_index h < ERROR_HISTORY_SIZE.

(** The history buffer and its write index. *)
Definition history_of (w : World) : list ErrorInfo_t * Z :=
  (error_history (handler w), history_index (handler w)).

(** The record that [ErrorHandler_Report l c] builds and writes to the
    history when called in [w]. *)
Definition report_record (l : ErrorLevel_t) (c : ErrorCode_t) (w : World)
  : ErrorInfo_t :=
  {| level := l; code := c; timestamp := fst (Platform_GetTimeMs w);
     state := StateMachine_GetCurrentState w;
     retry_count := 0; is_recovered := false |}.

(** A sequence of reports: the records written, oldest first, and the
    world after the last report. *)
Fixpoint report_all (reports : list (ErrorLevel_t * ErrorCode_t)) (w : World)
  : list ErrorInfo_t * World :=
  match reports with
  | [] => ([], w)
  | (l, c) :: reports' =>
      let '(records, w') :=
        report_all reports' (snd (ErrorHandler_Report l c w)) in
      (report_record l c w :: records, w')
  end.

(** The rules of a row as (event, target) pairs. *)
Definition rule_pairs (c : StateConfig_t)
  : list (StateMachineEvent_t * StateMachineState_t) :=
  map (fun r => (event r, next_state r)) (rules_of c).

(** The canonical transition table, as section 6 of the specification
    lists it. *)
Definition canonical_rules (s : StateMachineState_t)
  : list (StateMachineEvent_t * StateMachineState_t) :=
  match s with
  | STATE_INIT =>
      [(EVENT_INIT_COMPLETE, STATE_IDLE); (EVENT_ERROR_NORMAL, STATE_RECOVERY);
       (EVENT_ERROR_CRITICAL, STATE_CRITICAL_ERROR);
       (EVENT_TIMEOUT, STATE_RECOVERY)]
  | STATE_IDLE =>
      [(EVENT_START, STATE_ACTIVE); (EVENT_ERROR_NORMAL, STATE_RECOVERY);
       (EVENT_ERROR_CRITICAL, STATE_CRITICAL_ERROR)]
  | STATE_ACTIVE =>
      [(EVENT_DATA_READY, STATE_PROCESSING); (EVENT_STOP, STATE_IDLE);
       (EVENT_ERROR_NORMAL, STATE_RECOVERY);
       (EVENT_ERROR_CRITICAL, STATE_CRITICAL_ERROR)]
  | STATE_PROCESSING =>
      [(EVENT_PROCESSING_DONE, STATE_COMMUNICATING);
       (EVENT_TIMEOUT, STATE_RECOVERY); (EVENT_ERROR_NORMAL, STATE_RECOVERY);
       (EVENT_ERROR_CRITICAL, STATE_CRITICAL_ERROR)]
  | STATE_COMMUNICATING =>
      [(EVENT_COMM_COMPLETE, STATE_MONITORING);
       (EVENT_TIMEOUT, STATE_RECOVERY); (EVENT_ERROR_NORMAL, STATE_RECOVERY);
       (EVENT_ERROR_CRITICAL, STATE_CRITICAL_ERROR)]
  | STATE_MONITORING =>
      [(EVENT_STOP, STATE_IDLE); (EVENT_DATA_READY, STATE_PROCESSING);
       (EVENT_ERROR_NORMAL, STATE_RECOVERY);
       (EVENT_ERROR_CRITICAL, STATE_CRITICAL_ERROR)]
  | STATE_CALIBRATING =>
      [(EVENT_PROCESSING_DONE, STATE_DIAGNOSTICS);
       (EVENT_TIMEOUT, STATE_RECOVERY); (EVENT_ERROR_NORMAL, STATE_RECOVERY);
       (EVENT_ERROR_CRITICAL, STATE_CRITICAL_ERROR)]
  | STATE_DIAGNOSTICS =>
      [(EVENT_PROCESSING_DONE, STATE_ACTIVE);
       (EVENT_TIMEOUT, STATE_RECOVERY); (EVENT_ERROR_NORMAL, STATE_RECOVERY);
       (EVENT_ERROR_CRITICAL, STATE_CRITICAL_ERROR)]
  | STATE_RECOVERY =>
      [(EVENT_RECOVERY_SUCCESS, STATE_IDLE);
       (EVENT_RECOVERY_FAILED, STATE_CRITICAL_ERROR);
       (EVENT_TIMEOUT, STATE_CRITICAL_ERROR);
       (EVENT_ERROR_CRITICAL, STATE_CRITICAL_ERROR)]
  | STATE_CRITICAL_ERROR => []
  end.

(** The default timeouts in milliseconds, as section 6 of the
    specification lists them; 0 is "disabled". *)
Definition default_timeout (s : StateMachineState_t) : Z :=
  match s with
  | STATE_INIT => 5000
  | STATE_PROCESSING => 3000
  | STATE_COMMUNICATING => 100
  | STATE_CALIBRATING => 5000
  | STATE_DIAGNOSTICS => 2000
  | STATE_RECOVERY => 2000
  | STATE_IDLE | STATE_ACTIVE | STATE_MONITORING | STATE_CRITICAL_ERROR => 0
  end.

(** The world in which a tick that was entered in [w] with the lockout
    inactive checks the timeout: after the on-entry and on-tick
    callbacks and the increment of the execution counter. *)
Definition before_timeout (w : World) : World :=
  let s := current_state (ctx w) in
  Execute_on_state s (Execute_on_entry s w).

(** Does the tick entered in [w] post EVENT_TIMEOUT, that is, does its
    timeout check find the slot empty and leave EVENT_TIMEOUT in it? *)
Definition tick_posts_timeout (w : World) : bool :=
  negb (critical_lock_active (handler w))
  && bool_decide (pending_event (ctx (before_timeout w)) = EVENT_NONE)
  && bool_decide (pending_event (ctx (before_event w)) = EVENT_TIMEOUT).

(** The number of ticks, among the next [n] ones with nothing in between,
    that post EVENT_TIMEOUT. *)
Fixpoint timeouts_posted (n : nat) (w : World) : nat :=
  match n with
  | O => O
  | S n' =>
      ((if tick_posts_timeout w then 1 else 0)
       + timeouts_posted n' (snd (StateMachine_Execute w)))%nat
  end.

End Engine.

(** ** Platforms and worlds to run the program on *)

(** A platform without application code whose clock is [clock]. *)
Definition bare_platform (clock : nat -> Z) : Platform :=
  {| platform_clock := clock;
     application_callback := fun _ w => w;
     application_recovery := fun _ _ w => (false, w) |}.

(** The default platform of sm_platform_weak.c: the clock advances by one
    at every reading. *)
Definition simulation_platform : Platform := bare_platform Z.of_nat.

(** A platform whose clock stands at 0. *)
Definition stopped_platform : Platform := bare_platform (fun _ => 0).

(** A platform on which five seconds pass between two clock readings. *)
Definition slow_platform : Platform :=
  bare_platform (fun n => 5000 * Z.of_nat n).

(** The globals as the C runtime zero-initialises them. *)
Definition blank_world : World :=
  {| g_sm_context := zero_Context;
     g_state_table := fun _ => zero_StateConfig;
     g_state_data := zero_StateData;
     g_comm_verification := zero_CommVerification;
     g_recovery_handlers := fun _ => None;
     clock_reads := 0;
     callback_log := [] |}.

(** Worlds of the default platform: after the initialisation; in
    STATE_IDLE, six ticks later; there with EVENT_START posted; after a
    normal error with a code that has no recovery, and after two failed
    attempts to recover from it; in the lockout, after a critical error
    and a tick; and in STATE_IDLE with a timeout of 3 ms that has
    elapsed. *)
Definition initial_world : World :=
  snd (StateMachine_Init (platform := simulation_platform) blank_world).

Definition idle_world : World :=
  run_ticks (platform := simulation_platform) 6 initial_world.

Definition idle_started_world : World :=
  snd (StateMachine_PostEvent EVENT_START idle_world).

Definition failed_world : World :=
  snd (ErrorHandler_HandleNormalError (platform := simulation_platform)
         ERROR_CODE_HARDWARE_FAULT initial_world).

Definition twice_failed_world : World :=
  snd (attempt_recovery_times (platform := simulation_platform) 2
         failed_world).

Definition locked_world : World :=
  run_calls (platform := simulation_platform)
    [Call_Report ERROR_LEVEL_CRITICAL ERROR_CODE_HARDWARE_FAULT; Call_Execute]
    idle_started_world.

Definition idle_timeout_world : World :=
  run_calls (platform := simulation_platform)
    [Call_SetStateTimeout STATE_IDLE 3; Call_Execute; Call_Execute]
    idle_world.

(** The world of the slow platform after the initialisation. *)
Definition slow_initial_world : World :=
  snd (StateMachine_Init (platform := slow_platform) blank_world).

(** Eighteen reports, two more than the history holds. *)
Definition eighteen_reports : list (ErrorLevel_t * ErrorCode_t) :=
  [(ERROR_LEVEL_MINOR, ERROR_CODE_COMM_CORRUPT);
   (ERROR_LEVEL_NORMAL, ERROR_CODE_TIMEOUT);
   (ERROR_LEVEL_MINOR, ERROR_CODE_INVALID_DATA);
   (ERROR_LEVEL_NONE, ERROR_CODE_NONE);
   (ERROR_LEVEL_MINOR, ERROR_CODE_COMM_LOST);
   (ERROR_LEVEL_NORMAL, ERROR_CODE_BUFFER_OVERFLOW);
   (ERROR_LEVEL_MINOR, ERROR_CODE_COMM_CORRUPT);
   (ERROR_LEVEL_MINOR, ERROR_CODE_COMM_CORRUPT);
   (ERROR_LEVEL_NORMAL, ERROR_CODE_CALIBRATION_FAILED);
   (ERROR_LEVEL_MINOR, ERROR_CODE_RESOURCE_UNAVAILABLE);
   (ERROR_LEVEL_MINOR, ERROR_CODE_COMM_LOST);
   (ERROR_LEVEL_NORMAL, ERROR_CODE_TIMEOUT);
   (ERROR_LEVEL_MINOR, ERROR_CODE_INVALID_DATA);
   (ERROR_LEVEL_MINOR, ERROR_CODE_COMM_CORRUPT);
   (ERROR_LEVEL_NORMAL, ERROR_CODE_WATCHDOG_RESET);
   (ERROR_LEVEL_MINOR, ERROR_CODE_COMM_LOST);
   (ERROR_LEVEL_NORMAL, ERROR_CODE_MEMORY_CORRUPTION);
   (ERROR_LEVEL_CRITICAL, ERROR_CODE_HARDWARE_FAULT)].

(** ** Notions for the further properties *)

(** The table that [InitializeStateTable] builds on the zeroed array. *)
Definition startup_table : StateMachineState_t -> StateConfig_t :=
  g_state_table
    (InitializeStateTable
       (set_state_table (fun _ => zero_StateConfig) blank_world)).

(** The machine as the initialisation configures it: the table is the
    startup table and no recovery handler is registered, so that no code
    of the application is ever called. *)
Definition standard (w : World) : Prop :=
  (forall s, g_state_table w s = startup_table s)
  /\ (forall c, g_recovery_handlers w c = None).

(** One of the thirty callbacks of sm_state_machine.c. *)
Definition builtin (cb : Callback) : bool :=
  match cb with
  | Application_Callback _ => false
  | _ => true
  end.

(** A table row whose rule count is within its array of
    SM_MAX_TRANSITIONS_PER_STATE slots. *)
Definition row_wf (c : StateConfig_t) : Prop :=
  0 <= transition_count c <= SM_MAX_TRANSITIONS_PER_STATE
  /\ length (transitions c) = Z.to_nat SM_MAX_TRANSITIONS_PER_STATE.

(** Every array index the program computes is inside its array. *)
Definition bounds_ok (w : World) : Prop :=
  (forall s, row_wf (g_state_table w s)) /\ history_wf (handler w).

(** The calls that reconfigure the machine. *)
Definition administrative (call : ApiCall) : bool :=
  match call with
  | Call_AddTransition _ _ _ | Call_SetStateTimeout _ _
  | Call_SetStateCallbacks _ _ _ _ | Call_RegisterRecoveryHandler _ _ => true
  | _ => false
  end.

(** What no callback of sm_state_machine.c and no function of
    sm_error_handler.c that they call writes: the table, the handlers,
    the states, the timing of the current state, the history, the
    tracking of minor errors and the lockout. *)
Definition engine_part (w : World) :=
  (g_state_table w, g_recovery_handlers w,
   (current_state (ctx w), previous_state (ctx w)),
   (state_entry_time (ctx w), state_execution_count (ctx w),
    state_changed (ctx w)),
   history_of w,
   (minor_error_timestamp (handler w), minor_good_message_count (handler w)),
   critical_lock_active (handler w)).

(** The table, the handlers and the current state. *)
Definition layout (w : World) :=
  (g_state_table w, g_recovery_handlers w, current_state (ctx w)).

(** An occupied slot keeps its event from [w] to [w']. *)
Definition keeps_pending (w w' : World) : Prop :=
  pending_event (ctx w) <> EVENT_NONE ->
  pending_event (ctx w') = pending_event (ctx w).

(** The first rule of a list for an event, if any. *)
Fixpoint first_match (rules : list StateTransition_t)
  (ev : StateMachineEvent_t) : option StateMachineState_t :=
  match rules with
  | [] => None
  | r :: rules' =>
      if bool_decide (event r = ev) then Some (next_state r)
      else first_match rules' ev
  end.

(** [StateMachine_AddTransition] for the rules of a list, one after the
    other: the results and the world after the last call. *)
Fixpoint add_transitions (s : StateMachineState_t)
  (rules : list (StateMachineEvent_t * StateMachineState_t)) (w : World)
  : list bool * World :=
  match rules with
  | [] => ([], w)
  | (ev, target) :: rules' =>
      let '(ok, w) := StateMachine_AddTransition s ev target w in
      let '(oks, w) := add_transitions s rules' w in
      (ok :: oks, w)
  end.

(** From [w] to [w'] nothing of [engine_part] changes and an occupied
    slot keeps its event. *)
Definition quiet (w w' : World) : Prop :=
  engine_part w' = engine_part w /\ keeps_pending w w'.

(** What a tick entered in [w] with the lockout inactive does with the
    event it finds in the slot after the callbacks and the timeout
    check: the target of the transition, if there is one. *)
Definition tick_outcome {platform : Platform} (w : World)
  : option StateMachineState_t :=
  if bool_decide (pending_event (ctx (before_event w)) <> EVENT_NONE)
  then CheckStateTransition (pending_event (ctx (before_event w))) w
  else None.

(** The arrays and the write index of the history. *)
Definition shape (w : World) :=
  (g_state_table w, history_of w).

(** The machine on its way from the initialisation to STATE_IDLE, at
    most [r] ticks away from it: in STATE_IDLE, or in STATE_RECOVERY
    without an error to recover from, or in STATE_INIT with enough of
    the five init steps done. *)
Definition boot_phase (r : nat) (w : World) : Prop :=
  standard w
  /\ critical_lock_active (handler w) = false
  /\ pending_event (ctx w) = EVENT_NONE
  /\ level (current_error (handler w)) = ERROR_LEVEL_NONE
  /\ (current_state (ctx w) = STATE_IDLE
      \/ (current_state (ctx w) = STATE_RECOVERY /\ (1 <= r)%nat)
      \/ (current_state (ctx w) = STATE_INIT
          /\ state_changed (ctx w) = false
          /\ 0 <= init_step_count (g_state_data w) <= 4
          /\ 5 - Z.of_nat r <= init_step_count (g_state_data w))).

(** [n] calls of [ErrorHandler_VerifyCommChannel] one after the other:
    their results and the world after the last. *)
Fixpoint verify_times {platform : Platform} (n : nat) (w : World)
  : list bool * World :=
  match n with
  | O => ([], w)
  | S n' =>
      let '(verified, w) := ErrorHandler_VerifyCommChannel w in
      let '(rest, w) := verify_times n' w in
      (verified :: rest, w)
  end.

(** The globals of the program, the table and the handlers read at
    every index. *)
Definition globals_agree (a b : World) : Prop :=
  g_sm_context a = g_sm_context b
  /\ (forall s, g_state_table a s = g_state_table b s)
  /\ g_state_data a = g_state_data b
  /\ g_comm_verification a = g_comm_verification b
  /\ (forall c, g_recovery_handlers a c = g_recovery_handlers b c).

(** The idle machine after a NORMAL report of a hardware fault and three
    ticks: in STATE_RECOVERY, two attempts made. *)
Definition recovering_world : World :=
  run_calls (platform := simulation_platform)
    [Call_Report ERROR_LEVEL_NORMAL ERROR_CODE_HARDWARE_FAULT;
     Call_Execute; Call_Execute; Call_Execute]
    idle_world.

(** The idle machine after a NORMAL report of a timeout and one tick:
    in STATE_RECOVERY, no attempt made yet. *)
Definition timed_out_world : World :=
  run_calls (platform := simulation_platform)
    [Call_Report ERROR_LEVEL_NORMAL ERROR_CODE_TIMEOUT; Call_Execute]
    idle_world.

Section Properties.

Context {platform : Platform}.

(** ** Properties *)

(** *** What a post changes *)

Lemma PostEvent_cases (ev : StateMachineEvent_t) (w : World) :
  StateMachine_PostEvent ev w = (false, w)
  \/ (ev <> EVENT_NONE /\ pending_event (ctx w) = EVENT_NONE
      /\ StateMachine_PostEvent ev w
         = (true, upd_ctx (set_pending_event ev) w)).
Proof.
  unfold StateMachine_PostEvent.
  destruct (bool_decide (EVENT_MAX <= event_index ev));
    [left; reflexivity|].
  cbn [orb].
  destruct (decide (ev = EVENT_NONE)) as [Hnone|Hnone];
    [rewrite bool_decide_eq_true_2 by assumption; left; reflexivity
    |rewrite bool_decide_eq_false_2 by assumption].
  case_bool_decide as Hpend; [left; reflexivity|].
  right. split; [assumption|]. split; [|reflexivity].
  destruct (pending_event (ctx w)); congruence.
Qed.

Lemma PostEvent_occupied (ev : StateMachineEvent_t) (w : World) :
  pending_event (ctx w) <> EVENT_NONE ->
  StateMachine_PostEvent ev w = (false, w).
Proof.
  intros Hp. destruct (PostEvent_cases ev w) as [H | (_ & Hn & _)];
    [assumption | contradiction].
Qed.

Lemma PostEvent_free (ev : StateMachineEvent_t) (w : World) :
  ev <> EVENT_NONE -> pending_event (ctx w) = EVENT_NONE ->
  StateMachine_PostEvent ev w = (true, upd_ctx (set_pending_event ev) w).
Proof.
  intros Hev Hp. unfold StateMachine_PostEvent.
  replace (bool_decide (EVENT_MAX <= event_index ev)) with false
    by (destruct ev; reflexivity).
  rewrite Hp. rewrite bool_decide_eq_false_2 by assumption.
  rewrite bool_decide_eq_false_2 by (intros H; apply H; reflexivity).
  reflexivity.
Qed.

Lemma PostEvent_handler (ev : StateMachineEvent_t) (w : World) :
  handler (snd (StateMachine_PostEvent ev w)) = handler w.
Proof.
  destruct (PostEvent_cases ev w) as [-> | (_ & _ & ->)]; reflexivity.
Qed.

(** *** The tick leaves the slot empty *)

Lemma Execute_event_drains (w : World) :
  pending_event (ctx (Execute_event w)) = EVENT_NONE.
Proof.
  unfold Execute_event. case_bool_decide as Hp.
  - reflexivity.
  - destruct (pending_event (ctx w)) eqn:E; congruence.
Qed.

Lemma Execute_unlocked (w : World) :
  critical_lock_active (handler w) = false ->
  StateMachine_Execute w
  = (let s := current_state (ctx w) in
     let w' :=
       Execute_event
         (Execute_timeout s (Execute_on_state s (Execute_on_entry s w))) in
     (current_state (ctx w'), w')).
Proof. intros H. unfold StateMachine_Execute. rewrite H. reflexivity. Qed.

(** C8.  With the lockout inactive on entry, [StateMachine_Execute]
    returns with an empty pending-event slot: whatever was posted before
    the tick, by the on-entry or on-tick callback, by the timeout check
    or by the on-exit callback of the state being left has been looked
    up or discarded, because the slot is cleared after
    [PerformStateTransition] has run the on-exit callback.  The
    callbacks are arbitrary. *)
Theorem tick_leaves_slot_empty (w : World) :
  critical_lock_active (handler w) = false ->
  pending_event (ctx (snd (StateMachine_Execute w))) = EVENT_NONE.
Proof.
  intros H. rewrite (Execute_unlocked w H). cbn [snd].
  apply Execute_event_drains.
Qed.

(** C9.  With the lockout active and the machine already in
    STATE_CRITICAL_ERROR, [StateMachine_Execute] returns that state and
    changes nothing: no field of the context, no clock reading, and no
    callback is invoked (the callback log is the same), so the on-entry
    callback of the state does not run, [state_changed],
    [state_entry_time] and [state_execution_count] keep their values
    and a pending event stays pending. *)
Theorem locked_tick_changes_nothing (w : World) :
  critical_lock_active (handler w) = true ->
  current_state (ctx w) = STATE_CRITICAL_ERROR ->
  StateMachine_Execute w = (STATE_CRITICAL_ERROR, w).
Proof.
  intros Hl Hs. unfold StateMachine_Execute. rewrite Hl.
  rewrite bool_decide_eq_false_2 by (intros H; apply H; exact Hs).
  rewrite Hs. reflexivity.
Qed.

(** *** One pending event at most *)

Lemma post_events_occupied (evs : list StateMachineEvent_t) (w : World) :
  pending_event (ctx w) <> EVENT_NONE ->
  post_events evs w = (replicate (length evs) false, w).
Proof.
  intros Hp. induction evs as [|ev evs IH]; [reflexivity|].
  cbn [post_events]. rewrite (PostEvent_occupied ev w Hp), IH.
  reflexivity.
Qed.

(** C2.  In a run of [StateMachine_PostEvent] calls with no tick in
    between, starting with the slot empty and with an event other than
    EVENT_NONE, the first call returns true and stores its event; every
    later call, whatever its event, returns false and the world after
    the whole run is the world after the first call: the later events
    are neither queued nor merged.  The next tick (lockout inactive)
    empties the slot, and the post after it succeeds again. *)
Theorem only_first_post_succeeds
  (ev : StateMachineEvent_t) (evs : list StateMachineEvent_t) (w : World) :
  pending_event (ctx w) = EVENT_NONE ->
  ev <> EVENT_NONE ->
  post_events (ev :: evs) w
  = (true :: replicate (length evs) false,
     upd_ctx (set_pending_event ev) w)
  /\ pending_event (ctx (snd (post_events (ev :: evs) w))) = ev
  /\ (critical_lock_active (handler w) = false ->
      forall ev', ev' <> EVENT_NONE ->
        fst (StateMachine_PostEvent ev'
               (snd (StateMachine_Execute
                       (snd (post_events (ev :: evs) w))))) = true).
Proof.
  intros Hp Hev.
  assert (Hrun : post_events (ev :: evs) w
                 = (true :: replicate (length evs) false,
                    upd_ctx (set_pending_event ev) w)).
  { cbn [post_events]. rewrite (PostEvent_free ev w Hev Hp).
    rewrite post_events_occupied by exact Hev. reflexivity. }
  rewrite Hrun. cbn [snd]. split; [reflexivity|]. split; [reflexivity|].
  intros Hl ev' Hev'.
  rewrite PostEvent_free; [reflexivity | exact Hev' |].
  rewrite Execute_unlocked by exact Hl. apply Execute_event_drains.
Qed.

(** *** Transitions *)

Lemma state_index_in_range (s : StateMachineState_t) :
  bool_decide (STATE_MAX <= state_index s) = false.
Proof. destruct s; reflexivity. Qed.

Lemma PerformStateTransition_unfold (new_state : StateMachineState_t)
  (w : World) :
  PerformStateTransition new_state w
  = (let w1 :=
       call_if_set (on_exit (g_state_table w (current_state (ctx w)))) w in
     upd_ctx (set_state_changed true)
       (upd_ctx (set_current_state new_state)
          (upd_ctx (fun c => set_previous_state (current_state c) c) w1))).
Proof.
  unfold PerformStateTransition. rewrite state_index_in_range. reflexivity.
Qed.

Lemma PerformStateTransition_current_state
  (new_state : StateMachineState_t) (w : World) :
  current_state (ctx (PerformStateTransition new_state w)) = new_state.
Proof. rewrite PerformStateTransition_unfold. reflexivity. Qed.

Lemma PerformStateTransition_state_changed
  (new_state : StateMachineState_t) (w : World) :
  state_changed (ctx (PerformStateTransition new_state w)) = true.
Proof. rewrite PerformStateTransition_unfold. reflexivity. Qed.

Lemma find_transition_first (ev : StateMachineEvent_t)
  (pre : list StateTransition_t) :
  forall (rules : list StateTransition_t) (n : nat)
         (r : StateTransition_t) (post : list StateTransition_t),
    take n rules = pre ++ r :: post ->
    (forall x, x ∈ pre -> event x <> ev) ->
    event r = ev ->
    find_transition rules n ev = Some (next_state r).
Proof.
  induction pre as [|x pre IH]; intros rules n r post Htake Hpre Hr.
  - destruct n as [|n]; [discriminate|].
    destruct rules as [|r0 rules]; [discriminate|].
    cbn in Htake. injection Htake as -> _.
    cbn [find_transition]. rewrite bool_decide_eq_true_2 by exact Hr.
    reflexivity.
  - destruct n as [|n]; [discriminate|].
    destruct rules as [|r0 rules]; [discriminate|].
    cbn in Htake. injection Htake as -> Htake.
    cbn [find_transition].
    rewrite bool_decide_eq_false_2 by (apply Hpre; left).
    apply (IH rules n r post Htake); [|exact Hr].
    intros y Hy. apply Hpre. right. exact Hy.
Qed.

Lemma find_transition_none (ev : StateMachineEvent_t) (n : nat) :
  forall rules : list StateTransition_t,
    (forall x, x ∈ take n rules -> event x <> ev) ->
    find_transition rules n ev = None.
Proof.
  induction n as [|n IH]; intros rules Hall; [reflexivity|].
  destruct rules as [|r rules]; [reflexivity|].
  cbn [find_transition].
  rewrite bool_decide_eq_false_2 by (apply Hall; left).
  apply IH. intros x Hx. apply Hall. right. exact Hx.
Qed.

(** C3.  Let a tick with the lockout inactive process the pending event
    [E] in state [S].  If the rule list of [S] has a rule for [E], the
    machine moves to the target of the first such rule, which is also
    the state returned; if it has none, the tick changes nothing but
    the slot; in both cases the slot is EVENT_NONE after the tick. *)
Theorem transition_follows_first_matching_rule
  (w : World) (E : StateMachineEvent_t) :
  critical_lock_active (handler w) = false ->
  pending_event (ctx (before_event w)) = E ->
  E <> EVENT_NONE ->
  let S := current_state (ctx (before_event w)) in
  let rules := rules_of (g_state_table (before_event w) S) in
  let result := StateMachine_Execute w in
  (forall pre r post,
      rules = pre ++ r :: post ->
      (forall x, x ∈ pre -> event x <> E) ->
      event r = E ->
      current_state (ctx (snd result)) = next_state r
      /\ previous_state (ctx (snd result))
         = current_state
             (ctx (call_if_set (on_exit (g_state_table (before_event w) S))
                     (before_event w)))
      /\ state_changed (ctx (snd result)) = true
      /\ fst result = next_state r)
  /\ ((forall x, x ∈ rules -> event x <> E) ->
      snd result = upd_ctx (set_pending_event EVENT_NONE) (before_event w)
      /\ current_state (ctx (snd result)) = S
      /\ fst result = S)
  /\ pending_event (ctx (snd result)) = EVENT_NONE.
Proof.
  intros Hl HE Hne S rules result.
  assert (Hres : result
                 = (current_state (ctx (Execute_event (before_event w))),
                    Execute_event (before_event w))).
  { unfold result. rewrite (Execute_unlocked w Hl). reflexivity. }
  assert (Hev : forall o,
             CheckStateTransition E (before_event w) = o ->
             Execute_event (before_event w)
             = upd_ctx (set_pending_event EVENT_NONE)
                 (match o with
                  | Some next => PerformStateTransition next (before_event w)
                  | None => before_event w
                  end)).
  { intros o Ho. unfold Execute_event. rewrite HE.
    rewrite bool_decide_eq_true_2 by exact Hne. rewrite Ho. reflexivity. }
  rewrite Hres. cbn [fst snd]. split; [|split].
  - intros pre r post Hrules Hpre Hr.
    rewrite (Hev (Some (next_state r))).
    + rewrite PerformStateTransition_unfold. cbn. auto.
    + unfold CheckStateTransition.
      apply (find_transition_first E pre _ _ r post); assumption.
  - intros Hnone. rewrite (Hev None).
    + auto.
    + unfold CheckStateTransition. apply find_transition_none. exact Hnone.
  - apply Execute_event_drains.
Qed.

(** *** The lockout is sticky *)

Lemma VerifyCommChannel_ctx (w : World) :
  ctx (snd (ErrorHandler_VerifyCommChannel w)) = ctx w.
Proof.
  unfold ErrorHandler_VerifyCommChannel. cbn.
  repeat case_bool_decide; reflexivity.
Qed.

Lemma HandleNormalError_lock (c : ErrorCode_t) (w : World) :
  critical_lock_active (handler (snd (ErrorHandler_HandleNormalError c w)))
  = critical_lock_active (handler w).
Proof.
  unfold ErrorHandler_HandleNormalError. cbn.
  match goal with
  | |- context [StateMachine_PostEvent ?e ?x] =>
      pose proof (PostEvent_handler e x) as H;
      destruct (StateMachine_PostEvent e x) as [ok w']
  end.
  cbn in *. rewrite H. reflexivity.
Qed.

Lemma HandleCriticalError_lock (c : ErrorCode_t) (w : World) :
  critical_lock_active (handler (ErrorHandler_HandleCriticalError c w))
  = true.
Proof.
  unfold ErrorHandler_HandleCriticalError. cbn.
  match goal with
  | |- context [StateMachine_PostEvent ?e ?x] =>
      pose proof (PostEvent_handler e x) as H;
      destruct (StateMachine_PostEvent e x) as [ok w']
  end.
  cbn in *. rewrite H. reflexivity.
Qed.

Lemma HandleMinorError_lock (c : ErrorCode_t) (w : World) :
  critical_lock_active (handler (snd (ErrorHandler_HandleMinorError c w)))
  = critical_lock_active (handler w).
Proof.
  unfold ErrorHandler_HandleMinorError.
  destruct (Platform_GetTimeMs w) as [now w1] eqn:Hclock.
  assert (Hw1 : handler w1 = handler w).
  { unfold Platform_GetTimeMs in Hclock. injection Hclock as _ <-.
    reflexivity. }
  set (w2 := if bool_decide (minor_error_timestamp (handler w1) = 0)
             then _ else w1).
  assert (Hw2 : critical_lock_active (handler w2)
                = critical_lock_active (handler w)).
  { unfold w2. case_bool_decide; rewrite <- Hw1; reflexivity. }
  clearbody w2. case_bool_decide.
  - pose proof (VerifyCommChannel_ctx w2) as Hv.
    destruct (ErrorHandler_VerifyCommChannel w2) as [verified w3].
    cbn in Hv.
    destruct verified; [case_bool_decide|]; cbn [snd];
      unfold handler, ctx, upd_handler, upd_ctx in *; cbn;
      rewrite ?Hv; exact Hw2.
  - rewrite HandleNormalError_lock. exact Hw2.
Qed.

Lemma AddErrorToHistory_lock (info : ErrorInfo_t) (w : World) :
  critical_lock_active (handler (AddErrorToHistory info w))
  = critical_lock_active (handler w).
Proof. reflexivity. Qed.

Lemma GetTimeMs_ctx (w w1 : World) (now : Z) :
  Platform_GetTimeMs w = (now, w1) -> ctx w1 = ctx w.
Proof. unfold Platform_GetTimeMs. intros [= _ <-]. reflexivity. Qed.

Lemma Report_locked (l : ErrorLevel_t) (c : ErrorCode_t) (w : World) :
  locked w -> locked (snd (ErrorHandler_Report l c w)).
Proof.
  unfold ErrorHandler_Report. intros Hl.
  destruct (Platform_GetTimeMs w) as [now w1] eqn:Hclock.
  apply GetTimeMs_ctx in Hclock.
  set (w2 := AddErrorToHistory _ w1).
  assert (Hw2 : locked w2).
  { unfold locked, w2. rewrite AddErrorToHistory_lock.
    unfold handler. rewrite Hclock. exact Hl. }
  clearbody w2. unfold locked in *.
  destruct l; cbn [snd];
    rewrite ?HandleMinorError_lock, ?HandleNormalError_lock,
      ?HandleCriticalError_lock; auto.
Qed.

Lemma ClearError_lock (w : World) :
  critical_lock_active (handler (ErrorHandler_ClearError w))
  = critical_lock_active (handler w).
Proof. reflexivity. Qed.

Section Sticky.

(** The application's callbacks and recovery handlers do not release
    a lockout (they do not re-initialise the machine). *)
Hypothesis application_callback_locked :
  forall id w, locked w -> locked (application_callback id w).
Hypothesis application_recovery_locked :
  forall id c w, locked w -> locked (snd (application_recovery id c w)).

Lemma AttemptRecovery_locked (w : World) :
  locked w -> locked (snd (ErrorHandler_AttemptRecovery w)).
Proof using application_recovery_locked.
  unfold ErrorHandler_AttemptRecovery. intros Hl.
  case_bool_decide; [exact Hl|].
  set (w1 := upd_current_error _ w).
  assert (Hw1 : locked w1) by exact Hl. clearbody w1.
  case_bool_decide; [exact Hw1|].
  destruct (g_recovery_handlers w1 _) as [id|].
  - apply application_recovery_locked. exact Hw1.
  - destruct (code (current_error (handler w1))); try exact Hw1.
    pose proof (VerifyCommChannel_ctx w1) as Hv.
    destruct (ErrorHandler_VerifyCommChannel w1) as [verified w2].
    cbn in Hv.
    destruct verified; cbn [snd];
      unfold locked, handler, ctx, upd_current_error, upd_handler,
        upd_ctx in *; cbn; rewrite ?Hv; exact Hw1.
Qed.

Lemma PostEvent_locked (ev : StateMachineEvent_t) (w : World) :
  locked w -> locked (snd (StateMachine_PostEvent ev w)).
Proof. unfold locked. rewrite PostEvent_handler. auto. Qed.

Lemma callback_body_locked (cb : Callback) (w : World) :
  locked w -> locked (callback_body cb w).
Proof using application_callback_locked application_recovery_locked.
  intros Hl.
  destruct cb; cbn [callback_body]; try exact Hl;
    try (case_bool_decide; [apply PostEvent_locked|]; exact Hl).
  - set (w1 := if negb _ then _ else w).
    assert (Hw1 : locked w1) by (unfold w1; case_match; exact Hl).
    clearbody w1. case_bool_decide; [|exact Hw1].
    pose proof (VerifyCommChannel_ctx w1) as Hv.
    destruct (ErrorHandler_VerifyCommChannel w1) as [verified w2].
    cbn in Hv.
    assert (Hw2 : locked w2) by (unfold locked, handler; rewrite Hv;
                                 exact Hw1).
    destruct verified; [apply PostEvent_locked|]; exact Hw2.
  - pose proof (AttemptRecovery_locked w Hl) as Ha.
    destruct (ErrorHandler_AttemptRecovery w) as [ok w1]. cbn in Ha.
    destruct ok.
    + apply PostEvent_locked. exact Ha.
    + cbn. case_bool_decide; [apply PostEvent_locked|]; exact Ha.
  - apply application_callback_locked. exact Hl.
Qed.

Lemma call_if_set_locked (p : option Callback) (w : World) :
  locked w -> locked (call_if_set p w).
Proof using application_callback_locked application_recovery_locked.
  intros Hl. destruct p as [cb|]; [|exact Hl].
  apply callback_body_locked. exact Hl.
Qed.

Lemma PerformStateTransition_locked (s : StateMachineState_t) (w : World) :
  locked w -> locked (PerformStateTransition s w).
Proof using application_callback_locked application_recovery_locked.
  intros Hl. rewrite PerformStateTransition_unfold.
  apply (call_if_set_locked
           (on_exit (g_state_table w (current_state (ctx w)))) w Hl).
Qed.

Lemma Execute_locked (w : World) :
  locked w ->
  locked (snd (StateMachine_Execute w))
  /\ fst (StateMachine_Execute w) = STATE_CRITICAL_ERROR.
Proof using application_callback_locked application_recovery_locked.
  intros Hl. unfold StateMachine_Execute. rewrite Hl. cbn [fst snd].
  case_bool_decide as Hs.
  - split; [apply PerformStateTransition_locked; exact Hl|].
    apply PerformStateTransition_current_state.
  - split; [exact Hl|].
    destruct (decide (current_state (ctx w) = STATE_CRITICAL_ERROR));
      [assumption | contradiction].
Qed.

Lemma run_call_locked (call : ApiCall) (w : World) :
  locked w -> locked (run_call call w).
Proof using application_callback_locked application_recovery_locked.
  intros Hl. destruct call; cbn [run_call].
  - apply Execute_locked. exact Hl.
  - apply PostEvent_locked. exact Hl.
  - unfold StateMachine_Reset. rewrite Hl. exact Hl.
  - exact Hl.
  - unfold StateMachine_AddTransition. repeat case_match; exact Hl.
  - unfold StateMachine_SetStateTimeout. case_match; exact Hl.
  - unfold StateMachine_SetStateCallbacks. case_match; exact Hl.
  - apply Report_locked. exact Hl.
  - unfold locked. rewrite HandleMinorError_lock. exact Hl.
  - unfold locked. rewrite HandleNormalError_lock. exact Hl.
  - apply HandleCriticalError_lock.
  - apply AttemptRecovery_locked. exact Hl.
  - exact Hl.
  - unfold locked, handler. rewrite VerifyCommChannel_ctx. exact Hl.
  - unfold ErrorHandler_RegisterRecoveryHandler. case_match; exact Hl.
Qed.

Lemma run_calls_locked (calls : list ApiCall) :
  forall w, locked w -> locked (run_calls calls w).
Proof using application_callback_locked application_recovery_locked.
  unfold run_calls.
  induction calls as [|call calls IH]; intros w Hl; [exact Hl|].
  cbn [foldl]. apply IH. apply run_call_locked. exact Hl.
Qed.

End Sticky.

Lemma HandleCriticalError_pending_occupied (c : ErrorCode_t) (w : World) :
  pending_event (ctx w) <> EVENT_NONE ->
  pending_event (ctx (ErrorHandler_HandleCriticalError c w))
  = pending_event (ctx w).
Proof.
  intros Hp. unfold ErrorHandler_HandleCriticalError.
  destruct (Platform_GetTimeMs w) as [now w1] eqn:Hclock.
  apply GetTimeMs_ctx in Hclock.
  rewrite PostEvent_occupied; [cbn; rewrite <- Hclock; reflexivity|].
  cbn. unfold ctx in *. rewrite Hclock. exact Hp.
Qed.

Lemma Init_unlocks (w : World) :
  critical_lock_active (handler (snd (StateMachine_Init w))) = false.
Proof. reflexivity. Qed.

(** C1.  Reporting a critical error, through [ErrorHandler_Report] with
    ERROR_LEVEL_CRITICAL or through [ErrorHandler_HandleCriticalError],
    sets the lockout, also when the slot is occupied and the
    ERROR_CRITICAL event is therefore dropped.  After any later
    sequence of calls of the public functions other than the
    initialisers (posts of any events, ticks, [StateMachine_Reset],
    further reports, table changes), a tick returns
    STATE_CRITICAL_ERROR and the lockout is still set, also after
    [StateMachine_Reset]; [StateMachine_Init] clears it.  The
    application's callbacks and recovery handlers are assumed not to
    release the lockout themselves. *)
Theorem critical_lockout_is_absolute
  (c : ErrorCode_t) (w : World) (calls : list ApiCall) :
  (forall id w', locked w' -> locked (application_callback id w')) ->
  (forall id c' w',
      locked w' -> locked (snd (application_recovery id c' w'))) ->
  let reported := ErrorHandler_Report ERROR_LEVEL_CRITICAL c w in
  let handled := ErrorHandler_HandleCriticalError c w in
  (fst reported = true /\ locked (snd reported) /\ locked handled)
  /\ (pending_event (ctx w) <> EVENT_NONE ->
      pending_event (ctx (snd reported)) = pending_event (ctx w)
      /\ pending_event (ctx handled) = pending_event (ctx w))
  /\ (forall w0, w0 = snd reported \/ w0 = handled ->
      let later := run_calls calls w0 in
      fst (StateMachine_Execute later) = STATE_CRITICAL_ERROR
      /\ locked (snd (StateMachine_Execute later))
      /\ locked (StateMachine_Reset later)
      /\ critical_lock_active (handler (snd (StateMachine_Init later)))
         = false).
Proof.
  intros Hcb Hrec reported handled.
  assert (Hrep : reported
                 = (true,
                    ErrorHandler_HandleCriticalError c
                      (AddErrorToHistory
                         {| level := ERROR_LEVEL_CRITICAL; code := c;
                            timestamp := fst (Platform_GetTimeMs w);
                            state :=
                              StateMachine_GetCurrentState
                                (snd (Platform_GetTimeMs w));
                            retry_count := 0; is_recovered := false |}
                         (snd (Platform_GetTimeMs w))))) by reflexivity.
  assert (Hlr : locked (snd reported)).
  { rewrite Hrep. apply HandleCriticalError_lock. }
  assert (Hlh : locked handled) by apply HandleCriticalError_lock.
  split; [|split].
  - rewrite Hrep at 1. auto.
  - intros Hp. split.
    + rewrite Hrep. cbn [snd].
      rewrite HandleCriticalError_pending_occupied; [reflexivity|].
      exact Hp.
    + apply HandleCriticalError_pending_occupied. exact Hp.
  - intros w0 Hw0 later.
    assert (Hl0 : locked w0) by (destruct Hw0 as [-> | ->]; assumption).
    assert (Hlater : locked later)
      by (apply run_calls_locked; assumption).
    destruct (Execute_locked Hcb Hrec later Hlater) as [Hex Hst].
    split; [exact Hst|]. split; [exact Hex|]. split.
    + unfold StateMachine_Reset. rewrite Hlater. exact Hlater.
    + apply Init_unlocks.
Qed.

(** *** Recovery attempts *)

Lemma set_retry_count_same (w : World) :
  upd_current_error
    (set_retry_count (retry_count (current_error (handler w)))) w = w.
Proof.
  destruct w as [c t d v r k l]. destruct c as [cs ps pe et ec sc eh].
  destruct eh as [ce hist hi mt mg lock]. destruct ce. reflexivity.
Qed.

Lemma AttemptRecovery_at_limit (w : World) :
  level (current_error (handler w)) <> ERROR_LEVEL_NONE ->
  ERROR_MAX_RECOVERY_ATTEMPTS - 1 <= retry_count (current_error (handler w))
  ->
  retry_count (current_error (handler w)) < 255 ->
  ErrorHandler_AttemptRecovery w
  = (false,
     upd_current_error
       (set_retry_count (retry_count (current_error (handler w)) + 1)) w).
Proof.
  intros Hlevel Hlow Hhigh. unfold ErrorHandler_AttemptRecovery.
  rewrite bool_decide_eq_false_2 by exact Hlevel.
  assert (Hu8 : u8 (retry_count (current_error (handler w)) + 1)
                = retry_count (current_error (handler w)) + 1).
  { unfold u8, ERROR_MAX_RECOVERY_ATTEMPTS in *.
    apply Z.mod_small. lia. }
  cbn. unfold handler, ctx in *. rewrite Hu8.
  rewrite bool_decide_eq_true_2 by lia.
  unfold upd_current_error, upd_handler, upd_ctx. cbn. rewrite Hu8.
  reflexivity.
Qed.

Lemma AttemptRecovery_default_count (w : World) :
  level (current_error (handler w)) <> ERROR_LEVEL_NONE ->
  0 <= retry_count (current_error (handler w)) < 255 ->
  g_recovery_handlers w (code (current_error (handler w))) = None ->
  retry_count (current_error (handler (snd (ErrorHandler_AttemptRecovery w))))
  = retry_count (current_error (handler w)) + 1.
Proof.
  intros Hlevel Hrange Hnone. unfold ErrorHandler_AttemptRecovery.
  rewrite bool_decide_eq_false_2 by exact Hlevel.
  assert (Hu8 : u8 (retry_count (current_error (handler w)) + 1)
                = retry_count (current_error (handler w)) + 1).
  { unfold u8. apply Z.mod_small. lia. }
  set (w1 := upd_current_error _ w).
  assert (Hr1 : retry_count (current_error (handler w1))
                = retry_count (current_error (handler w)) + 1)
    by exact Hu8.
  assert (Hc1 : code (current_error (handler w1))
                = code (current_error (handler w))) by reflexivity.
  assert (Hh1 : g_recovery_handlers w1 = g_recovery_handlers w)
    by reflexivity.
  clearbody w1. rewrite <- Hr1.
  case_bool_decide; [reflexivity|].
  rewrite Hh1, Hc1, Hnone.
  destruct (code (current_error (handler w))); try reflexivity.
  pose proof (VerifyCommChannel_ctx w1) as Hv.
  destruct (ErrorHandler_VerifyCommChannel w1) as [verified w2].
  cbn in Hv. destruct verified; cbn [snd];
    unfold handler, ctx, upd_current_error, upd_handler, upd_ctx in *; cbn;
    rewrite Hv; reflexivity.
Qed.

(** C4, as the code has it.  For an active error whose [retry_count]
    has not reached the end of its 8-bit range: a call of
    [ErrorHandler_AttemptRecovery] that uses the default recovery logic,
    or that reaches the maximum, leaves [retry_count] one higher; and
    from the call that brings [retry_count] to
    ERROR_MAX_RECOVERY_ATTEMPTS on, every call returns false and does
    nothing but count, so that [retry_count] goes on past the maximum:
    the counter is not capped. *)
Theorem recovery_is_abandoned_at_the_maximum (w : World) (n : nat) :
  level (current_error (handler w)) <> ERROR_LEVEL_NONE ->
  0 <= retry_count (current_error (handler w)) ->
  retry_count (current_error (handler w)) + Z.of_nat n <= 255 ->
  (retry_count (current_error (handler w)) < 255 ->
   g_recovery_handlers w (code (current_error (handler w))) = None
   \/ ERROR_MAX_RECOVERY_ATTEMPTS - 1
      <= retry_count (current_error (handler w)) ->
   retry_count
     (current_error (handler (snd (ErrorHandler_AttemptRecovery w))))
   = retry_count (current_error (handler w)) + 1)
  /\ (ERROR_MAX_RECOVERY_ATTEMPTS - 1
      <= retry_count (current_error (handler w)) ->
      attempt_recovery_times n w
      = (replicate n false,
         upd_current_error
           (set_retry_count
              (retry_count (current_error (handler w)) + Z.of_nat n)) w)).
Proof.
  intros Hlevel Hlow Hhigh. split.
  - intros Hlt [Hnone | Hmax].
    + apply AttemptRecovery_default_count; [assumption | lia | assumption].
    + rewrite AttemptRecovery_at_limit by assumption. reflexivity.
  - revert w Hlevel Hlow Hhigh.
    induction n as [|n IH]; intros w Hlevel Hlow Hhigh Hmax.
    + cbn [attempt_recovery_times replicate Z.of_nat].
      rewrite Z.add_0_r, set_retry_count_same. reflexivity.
    + cbn [attempt_recovery_times].
      rewrite AttemptRecovery_at_limit by (try assumption; lia).
      set (w1 := upd_current_error _ w).
      assert (Hr1 : retry_count (current_error (handler w1))
                    = retry_count (current_error (handler w)) + 1)
        by reflexivity.
      rewrite (IH w1); [| exact Hlevel | lia | lia | lia].
      cbn [replicate]. f_equal. rewrite Hr1. unfold w1.
      replace (retry_count (current_error (handler w)) + 1 + Z.of_nat n)
        with (retry_count (current_error (handler w)) + Z.of_nat (S n))
        by lia.
      reflexivity.
Qed.

(** *** The error history *)

Lemma HandleNormalError_history (c : ErrorCode_t) (w : World) :
  history_of (snd (ErrorHandler_HandleNormalError c w)) = history_of w.
Proof.
  unfold ErrorHandler_HandleNormalError. cbn.
  match goal with
  | |- context [StateMachine_PostEvent ?e ?x] =>
      pose proof (PostEvent_handler e x) as H;
      destruct (StateMachine_PostEvent e x) as [ok w']
  end.
  cbn in *. unfold history_of. rewrite H. reflexivity.
Qed.

Lemma HandleCriticalError_history (c : ErrorCode_t) (w : World) :
  history_of (ErrorHandler_HandleCriticalError c w) = history_of w.
Proof.
  unfold ErrorHandler_HandleCriticalError. cbn.
  match goal with
  | |- context [StateMachine_PostEvent ?e ?x] =>
      pose proof (PostEvent_handler e x) as H;
      destruct (StateMachine_PostEvent e x) as [ok w']
  end.
  cbn in *. unfold history_of. rewrite H. reflexivity.
Qed.

Lemma HandleMinorError_history (c : ErrorCode_t) (w : World) :
  history_of (snd (ErrorHandler_HandleMinorError c w)) = history_of w.
Proof.
  unfold ErrorHandler_HandleMinorError.
  destruct (Platform_GetTimeMs w) as [now w1] eqn:Hclock.
  apply GetTimeMs_ctx in Hclock.
  set (w2 := if bool_decide (minor_error_timestamp (handler w1) = 0)
             then _ else w1).
  assert (Hw2 : history_of w2 = history_of w).
  { unfold w2, history_of, handler.
    case_bool_decide; cbn; rewrite <- Hclock; reflexivity. }
  clearbody w2. case_bool_decide.
  - pose proof (VerifyCommChannel_ctx w2) as Hv.
    destruct (ErrorHandler_VerifyCommChannel w2) as [verified w3].
    cbn in Hv. rewrite <- Hw2.
    destruct verified; [case_bool_decide|]; cbn [snd];
      unfold history_of, handler, ctx, upd_handler, upd_ctx in *; cbn;
      rewrite ?Hv; reflexivity.
  - rewrite HandleNormalError_history. exact Hw2.
Qed.

Lemma Report_history (l : ErrorLevel_t) (c : ErrorCode_t) (w : World) :
  history_of (snd (ErrorHandler_Report l c w))
  = (<[Z.to_nat (history_index (handler w)) := report_record l c w]>
       (error_history (handler w)),
     u8 ((history_index (handler w) + 1) mod ERROR_HISTORY_SIZE)).
Proof.
  unfold ErrorHandler_Report.
  change (Platform_GetTimeMs w)
    with (fst (Platform_GetTimeMs w),
          set_clock_reads (S (clock_reads w)) w).
  cbv beta iota.
  set (w2 := AddErrorToHistory _ _).
  assert (Hw2 : history_of w2
                = (<[Z.to_nat (history_index (handler w))
                     := report_record l c w]> (error_history (handler w)),
                   u8 ((history_index (handler w) + 1)
                       mod ERROR_HISTORY_SIZE))) by reflexivity.
  clearbody w2. rewrite <- Hw2.
  destruct l; cbn [snd]; try reflexivity.
  - apply HandleMinorError_history.
  - apply HandleNormalError_history.
  - apply HandleCriticalError_history.
Qed.

Lemma GetHistoryError_read (k : Z) (buf : ErrorInfo_t) (w : World) :
  0 <= k < ERROR_HISTORY_SIZE ->
  0 <= history_index (handler w) < ERROR_HISTORY_SIZE ->
  ErrorHandler_GetHistoryError k (Some buf) w
  = (true,
     Some (default zero_ErrorInfo
             (error_history (handler w)
                !! Z.to_nat ((history_index (handler w) + 15 - k) mod 16)))).
Proof.
  intros Hk Hi. unfold ErrorHandler_GetHistoryError.
  unfold u8, u32, ERROR_HISTORY_SIZE in *.
  rewrite bool_decide_eq_false_2 by lia.
  do 4 f_equal.
  rewrite (Z.mod_small (history_index (handler w) + 16 - k - 1)) by lia.
  rewrite (Z.mod_small (_ mod 16)).
  - do 2 f_equal. lia.
  - pose proof (Z.mod_pos_bound
                  (history_index (handler w) + 16 - k - 1) 16). lia.
Qed.

Lemma Report_history_wf (l : ErrorLevel_t) (c : ErrorCode_t) (w : World) :
  history_wf (handler w) ->
  history_wf (handler (snd (ErrorHandler_Report l c w))).
Proof.
  intros [Hlen Hidx]. pose proof (Report_history l c w) as H.
  unfold history_of in H. injection H as Hh Hi.
  unfold history_wf. rewrite Hh, Hi, length_insert. split; [exact Hlen|].
  unfold u8, ERROR_HISTORY_SIZE in *.
  pose proof (Z.mod_pos_bound (history_index (handler w) + 1) 16).
  rewrite Z.mod_small; lia.
Qed.

Lemma Report_then_read_newest (l : ErrorLevel_t) (c : ErrorCode_t)
  (buf : ErrorInfo_t) (w : World) :
  history_wf (handler w) ->
  ErrorHandler_GetHistoryError 0 (Some buf) (snd (ErrorHandler_Report l c w))
  = (true, Some (report_record l c w)).
Proof.
  intros Hwf. pose proof (Report_history_wf l c w Hwf) as [_ Hidx'].
  destruct Hwf as [Hlen Hidx].
  rewrite GetHistoryError_read by (unfold ERROR_HISTORY_SIZE in *; lia).
  pose proof (Report_history l c w) as H.
  unfold history_of in H. injection H as Hh Hi. rewrite Hh, Hi.
  unfold u8, ERROR_HISTORY_SIZE in *.
  replace ((((history_index (handler w) + 1) mod 16) mod 2 ^ 8 + 15 - 0)
           mod 16) with (history_index (handler w))
    by (Z.div_mod_to_equations; lia).
  rewrite list_lookup_insert_eq by lia. reflexivity.
Qed.

Lemma Report_then_read_older (l : ErrorLevel_t) (c : ErrorCode_t)
  (buf : ErrorInfo_t) (k : Z) (w : World) :
  history_wf (handler w) ->
  0 <= k -> k + 1 < ERROR_HISTORY_SIZE ->
  ErrorHandler_GetHistoryError (k + 1) (Some buf)
    (snd (ErrorHandler_Report l c w))
  = ErrorHandler_GetHistoryError k (Some buf) w.
Proof.
  intros Hwf Hk0 Hk. pose proof (Report_history_wf l c w Hwf) as [_ Hidx'].
  destruct Hwf as [Hlen Hidx].
  rewrite !GetHistoryError_read by (unfold ERROR_HISTORY_SIZE in *; lia).
  pose proof (Report_history l c w) as H.
  unfold history_of in H. injection H as Hh Hi. rewrite Hh, Hi.
  unfold u8, ERROR_HISTORY_SIZE in *.
  replace ((((history_index (handler w) + 1) mod 16) mod 2 ^ 8
            + 15 - (k + 1)) mod 16)
    with ((history_index (handler w) + 15 - k) mod 16)
    by (Z.div_mod_to_equations; lia).
  rewrite list_lookup_insert_ne; [reflexivity|].
  intros Heq. apply Z2Nat.inj in Heq;
    [| lia | apply Z.mod_pos_bound; lia].
  revert Heq. Z.div_mod_to_equations. lia.
Qed.

Lemma report_all_snoc (reports : list (ErrorLevel_t * ErrorCode_t))
  (l : ErrorLevel_t) (c : ErrorCode_t) :
  forall w,
    report_all (reports ++ [(l, c)]) w
    = (fst (report_all reports w)
         ++ [report_record l c (snd (report_all reports w))],
       snd (ErrorHandler_Report l c (snd (report_all reports w)))).
Proof.
  induction reports as [|[l0 c0] reports IH]; intros w.
  - reflexivity.
  - cbn [app report_all]. rewrite IH.
    destruct (report_all reports (snd (ErrorHandler_Report l0 c0 w))).
    reflexivity.
Qed.

(** C5.  The history is a ring of ERROR_HISTORY_SIZE slots.  After any
    sequence of reports the write index has advanced by their number
    modulo the capacity, and for every [k] below the capacity and below
    the number of reports [ErrorHandler_GetHistoryError k] succeeds with
    the record of the (k+1)-th most recent report: index 0 is the latest
    report, and once more than ERROR_HISTORY_SIZE reports were made the
    oldest ones are no longer there. *)
Theorem history_is_a_ring (reports : list (ErrorLevel_t * ErrorCode_t))
  (w : World) :
  history_wf (handler w) ->
  let records := fst (report_all reports w) in
  let w' := snd (report_all reports w) in
  history_wf (handler w')
  /\ history_index (handler w')
     = (history_index (handler w) + Z.of_nat (length reports))
       mod ERROR_HISTORY_SIZE
  /\ forall (k : nat) (buf : ErrorInfo_t),
       (k < length reports)%nat ->
       Z.of_nat k < ERROR_HISTORY_SIZE ->
       ErrorHandler_GetHistoryError (Z.of_nat k) (Some buf) w'
       = (true, rev records !! k)
       /\ is_Some (rev records !! k).
Proof.
  intros Hwf. cbv zeta.
  induction reports as [|[l c] reports IH] using rev_ind.
  - cbn. split; [exact Hwf|]. split.
    + destruct Hwf as [_ Hidx]. unfold ERROR_HISTORY_SIZE in *.
      rewrite Z.add_0_r, Z.mod_small; lia.
    + intros k buf Hk. lia.
  - destruct IH as (Hwf' & Hidx' & Hread).
    rewrite report_all_snoc. cbn [fst snd].
    set (w' := snd (report_all reports w)) in *.
    set (records := fst (report_all reports w)) in *.
    split; [apply Report_history_wf; exact Hwf'|]. split.
    + pose proof (Report_history l c w') as H.
      unfold history_of in H. injection H as _ Hi. rewrite Hi, Hidx'.
      rewrite length_app. cbn [length].
      unfold u8, ERROR_HISTORY_SIZE in *.
      Z.div_mod_to_equations. lia.
    + intros k buf Hk Hcap. rewrite rev_app_distr. cbn [rev app].
      rewrite length_app in Hk. cbn [length] in Hk.
      destruct k as [|k].
      * cbn [lookup list_lookup]. split; [|eexists; reflexivity].
        apply Report_then_read_newest. exact Hwf'.
      * replace (Z.of_nat (S k)) with (Z.of_nat k + 1) by lia.
        rewrite Report_then_read_older by (try assumption; lia).
        cbn [lookup list_lookup]. apply Hread; lia.
Qed.

(** *** The table built by the initialisation *)

(** C6.  After [StateMachine_Init], which succeeds, every state's rule
    list is the one of the canonical table, in that order and with
    nothing else ([transition_count] is its length; STATE_CRITICAL_ERROR
    has no rule), and every state's timeout is the default one. *)
Theorem initial_table_is_canonical (w : World) (s : StateMachineState_t) :
  fst (StateMachine_Init w) = true
  /\ rule_pairs (g_state_table (snd (StateMachine_Init w)) s)
     = canonical_rules s
  /\ transition_count (g_state_table (snd (StateMachine_Init w)) s)
     = Z.of_nat (length (canonical_rules s))
  /\ timeout_ms (g_state_table (snd (StateMachine_Init w)) s)
     = default_timeout s.
Proof. destruct s; repeat split; reflexivity. Qed.

(** *** Reading the history *)

Lemma read_blank_history (k : Z) (buf : ErrorInfo_t) (w : World) :
  0 <= k < ERROR_HISTORY_SIZE ->
  0 <= history_index (handler w) < ERROR_HISTORY_SIZE ->
  Forall (fun e => e = zero_ErrorInfo) (error_history (handler w)) ->
  ErrorHandler_GetHistoryError k (Some buf) w = (true, Some zero_ErrorInfo).
Proof.
  intros Hk Hi Hall. rewrite GetHistoryError_read by assumption.
  do 2 f_equal.
  destruct (error_history (handler w) !! _) as [e|] eqn:E; [|reflexivity].
  cbn. exact (Forall_lookup_1 _ _ _ _ Hall E).
Qed.

(** C10.  For every index below ERROR_HISTORY_SIZE and a destination
    that is not NULL, [ErrorHandler_GetHistoryError] succeeds and yields
    a record, in every world, whatever was reported;
    [ErrorHandler_GetHistoryCount] is ERROR_HISTORY_SIZE in every world.
    Right after the initialisation, with nothing reported, every index
    reads the zero record; and a report can leave every read as it was:
    a report of level NONE and code NONE made then at clock reading 0
    (it is rejected but still written to the history) does. *)
Theorem history_reads_always_succeed
  (w : World) (index : Z) (buf : ErrorInfo_t) :
  0 <= index < ERROR_HISTORY_SIZE ->
  let w0 := snd (StateMachine_Init w) in
  fst (ErrorHandler_GetHistoryError index (Some buf) w) = true
  /\ is_Some (snd (ErrorHandler_GetHistoryError index (Some buf) w))
  /\ ErrorHandler_GetHistoryCount w = ERROR_HISTORY_SIZE
  /\ ErrorHandler_GetHistoryError index (Some buf) w0
     = (true, Some zero_ErrorInfo)
  /\ (fst (Platform_GetTimeMs w0) = 0 ->
      ErrorHandler_GetHistoryError index (Some buf)
        (snd (ErrorHandler_Report ERROR_LEVEL_NONE ERROR_CODE_NONE w0))
      = ErrorHandler_GetHistoryError index (Some buf) w0).
Proof.
  intros Hidx w0.
  assert (Hany : fst (ErrorHandler_GetHistoryError index (Some buf) w) = true
                 /\ is_Some
                      (snd (ErrorHandler_GetHistoryError index (Some buf) w))).
  { unfold ErrorHandler_GetHistoryError.
    rewrite bool_decide_eq_false_2 by lia. cbn. split; [reflexivity|].
    eexists; reflexivity. }
  assert (Hzeros : Forall (fun e => e = zero_ErrorInfo)
                     (error_history (handler w0)))
    by (apply Forall_replicate; reflexivity).
  assert (Hblank : ErrorHandler_GetHistoryError index (Some buf) w0
                   = (true, Some zero_ErrorInfo)).
  { apply read_blank_history;
      [exact Hidx | change (0 <= 0 < 16); lia | exact Hzeros]. }
  destruct Hany as [Hok Hrec].
  split; [exact Hok|]. split; [exact Hrec|]. split; [reflexivity|].
  split; [exact Hblank|].
  intros Hclock. rewrite Hblank.
  pose proof (Report_history ERROR_LEVEL_NONE ERROR_CODE_NONE w0) as Hrep.
  unfold history_of in Hrep.
  pose proof (f_equal fst Hrep) as Hh. pose proof (f_equal snd Hrep) as Hi.
  cbn [fst snd] in Hh, Hi. clear Hrep.
  apply read_blank_history;
    [exact Hidx | rewrite Hi; change (0 <= 1 < 16); lia |].
  rewrite Hh. apply Forall_insert; [exact Hzeros|].
  unfold report_record. rewrite Hclock. reflexivity.
Qed.

(** *** The state timeout *)

Lemma IsTimeout_world (start timeout : Z) (w : World) :
  snd (Platform_IsTimeout start timeout w) = snd (Platform_GetTimeMs w).
Proof. unfold Platform_IsTimeout. cbn. case_bool_decide; reflexivity. Qed.

Lemma Execute_timeout_fires (s : StateMachineState_t) (w : World) :
  0 < timeout_ms (g_state_table w s) ->
  fst (Platform_IsTimeout (state_entry_time (ctx w))
         (timeout_ms (g_state_table w s)) w) = true ->
  Execute_timeout s w
  = snd (StateMachine_PostEvent EVENT_TIMEOUT (snd (Platform_GetTimeMs w))).
Proof.
  intros HT Hexp. unfold Execute_timeout.
  rewrite bool_decide_eq_true_2 by exact HT.
  rewrite <- (IsTimeout_world (state_entry_time (ctx w))
                (timeout_ms (g_state_table w s)) w).
  destruct (Platform_IsTimeout _ _ w) as [expired w']. cbn in Hexp.
  rewrite Hexp. reflexivity.
Qed.

(** C7, as the code has it.  Let a tick with the lockout inactive find,
    in a state with a nonzero timeout, that the timeout has elapsed.  If
    the slot is empty then, EVENT_TIMEOUT is posted and consumed in that
    same tick: if the state has a rule for it the machine moves to the
    rule's target at once, and the next tick stamps a new entry time, so
    that the timeout is measured afresh; if the state has no rule for
    it, the state is unchanged.  If the slot is occupied then, the
    EVENT_TIMEOUT is dropped and the pending event is the one that is
    processed.  Nothing records that the timeout has fired. *)
Theorem timeout_is_posted_and_consumed_in_the_tick (w : World) :
  critical_lock_active (handler w) = false ->
  let s := current_state (ctx w) in
  let w1 := before_timeout w in
  let w2 := before_event w in
  let w3 := snd (StateMachine_Execute w) in
  0 < timeout_ms (g_state_table w1 s) ->
  fst (Platform_IsTimeout (state_entry_time (ctx w1))
         (timeout_ms (g_state_table w1 s)) w1) = true ->
  (pending_event (ctx w1) = EVENT_NONE ->
   pending_event (ctx w2) = EVENT_TIMEOUT
   /\ (forall target,
          CheckStateTransition EVENT_TIMEOUT w2 = Some target ->
          current_state (ctx w3) = target
          /\ state_changed (ctx w3) = true
          /\ state_entry_time (ctx (Execute_on_entry target w3))
             = fst (Platform_GetTimeMs
                      (call_if_set (on_entry (g_state_table w3 target)) w3)))
   /\ (CheckStateTransition EVENT_TIMEOUT w2 = None ->
       w3 = upd_ctx (set_pending_event EVENT_NONE) w2))
  /\ (pending_event (ctx w1) <> EVENT_NONE ->
      w2 = snd (Platform_GetTimeMs w1)
      /\ pending_event (ctx w2) = pending_event (ctx w1))
  /\ pending_event (ctx w3) = EVENT_NONE.
Proof.
  intros Hl s w1 w2 w3 HT Hexp.
  assert (Hw2 : w2 = snd (StateMachine_PostEvent EVENT_TIMEOUT
                            (snd (Platform_GetTimeMs w1))))
    by (apply Execute_timeout_fires; assumption).
  assert (Hw3 : w3 = Execute_event w2).
  { unfold w3. rewrite (Execute_unlocked w Hl). reflexivity. }
  split; [|split].
  - intros Hfree.
    assert (Hpost : w2 = upd_ctx (set_pending_event EVENT_TIMEOUT)
                           (snd (Platform_GetTimeMs w1))).
    { rewrite Hw2, PostEvent_free; [reflexivity | discriminate | exact Hfree]. }
    assert (Hp2 : pending_event (ctx w2) = EVENT_TIMEOUT)
      by (rewrite Hpost; reflexivity).
    split; [exact Hp2|]. split.
    + intros target Hrule.
      assert (Hw3' : w3 = upd_ctx (set_pending_event EVENT_NONE)
                            (PerformStateTransition target w2)).
      { rewrite Hw3. unfold Execute_event. rewrite Hp2.
        rewrite bool_decide_eq_true_2 by discriminate.
        rewrite Hrule. reflexivity. }
      assert (Hchanged : state_changed (ctx w3) = true).
      { rewrite Hw3'. cbn.
        apply (PerformStateTransition_state_changed target w2). }
      split; [|split].
      * rewrite Hw3'. cbn.
        apply (PerformStateTransition_current_state target w2).
      * exact Hchanged.
      * unfold Execute_on_entry. rewrite Hchanged. reflexivity.
    + intros Hnorule. rewrite Hw3. unfold Execute_event. rewrite Hp2.
      rewrite bool_decide_eq_true_2 by discriminate.
      rewrite Hnorule. reflexivity.
  - intros Hbusy.
    assert (Hdrop : w2 = snd (Platform_GetTimeMs w1)).
    { rewrite Hw2, PostEvent_occupied; [reflexivity | exact Hbusy]. }
    split; [exact Hdrop|]. rewrite Hdrop. reflexivity.
  - rewrite Hw3. apply Execute_event_drains.
Qed.

End Properties.

(** ** Further properties of the program

    Properties of the engine beyond the ones above: of the machine as
    [StateMachine_Init] configures it ([standard]), of the functions
    that configure it, and of the error handler.  They hold for every
    [Platform].  [platform_clock n] is the value that the n-th reading
    of the clock by the code modelled here returns; the debug output,
    which is left out, stamps its messages with readings of its own, so
    under the default clock of sm_platform_weak.c, which advances at
    every reading, the readings of the engine lie further apart in a
    build with debug output than [simulation_platform] places them. *)

Section Further.

Context {platform : Platform}.

(** *** The timeout test *)

(** X1.  [Platform_IsTimeout] compares the timeout with the time
    elapsed modulo 2^32 when the clock has not wrapped since
    [start_time_ms], and with one millisecond less than that when it
    has: it never fires early, and after a wrap it fires one
    millisecond late. *)
Theorem IsTimeout_elapsed (start timeout : Z) (w : World) :
  0 <= start < 2 ^ 32 ->
  let now := fst (Platform_GetTimeMs w) in
  let elapsed := u32 (now - start) in
  snd (Platform_IsTimeout start timeout w) = snd (Platform_GetTimeMs w)
  /\ (start <= now ->
      fst (Platform_IsTimeout start timeout w)
      = bool_decide (timeout <= elapsed))
  /\ (now < start ->
      fst (Platform_IsTimeout start timeout w)
      = bool_decide (timeout <= elapsed - 1))
  /\ (fst (Platform_IsTimeout start timeout w) = true -> timeout <= elapsed).
Proof.
  intros Hstart now elapsed.
  assert (Hnow : 0 <= now < 2 ^ 32).
  { unfold now, Platform_GetTimeMs, u32. cbn [fst].
    apply Z.mod_pos_bound. lia. }
  assert (Hrun : Platform_IsTimeout start timeout w
                 = (if bool_decide (start <= now)
                    then bool_decide (timeout <= u32 (now - start))
                    else bool_decide (timeout <= 4294967295 - start + now),
                    snd (Platform_GetTimeMs w))).
  { unfold Platform_IsTimeout, now, Platform_GetTimeMs. cbn [fst snd].
    case_bool_decide; reflexivity. }
  rewrite Hrun. cbn [fst snd]. split; [reflexivity|].
  assert (Hwrapped : now < start -> elapsed = now - start + 2 ^ 32).
  { intros H. unfold elapsed, u32.
    rewrite <- (Z.mod_add _ 1) by lia. apply Z.mod_small. lia. }
  split; [|split].
  - intros H. rewrite bool_decide_eq_true_2 by exact H. reflexivity.
  - intros H. rewrite bool_decide_eq_false_2 by lia.
    apply bool_decide_ext. rewrite (Hwrapped H). lia.
  - case_bool_decide as H; intros Hfire;
      apply bool_decide_eq_true_1 in Hfire; [exact Hfire|].
    rewrite Hwrapped by lia. lia.
Qed.

(** *** What the callbacks leave alone *)

Lemma quiet_refl (w : World) : quiet w w.
Proof. split; [reflexivity | intros _; reflexivity]. Qed.

Lemma quiet_trans (w1 w2 w3 : World) :
  quiet w1 w2 -> quiet w2 w3 -> quiet w1 w3.
Proof.
  intros [He1 Hp1] [He2 Hp2]. split; [congruence|].
  intros H. rewrite Hp2; rewrite Hp1; auto.
Qed.

Lemma quiet_handlers (w w' : World) :
  quiet w w' ->
  (forall c, g_recovery_handlers w c = None) ->
  forall c, g_recovery_handlers w' c = None.
Proof.
  intros [He _] Hn c. unfold engine_part in He.
  assert (H : g_recovery_handlers w' = g_recovery_handlers w) by congruence.
  rewrite H. apply Hn.
Qed.

Lemma PostEvent_quiet (ev : StateMachineEvent_t) (w : World) :
  quiet w (snd (StateMachine_PostEvent ev w)).
Proof.
  destruct (PostEvent_cases ev w) as [-> | (_ & Hfree & ->)].
  - apply quiet_refl.
  - split; [reflexivity|]. intros H. contradiction.
Qed.

Lemma GetTimeMs_quiet (w : World) : quiet w (snd (Platform_GetTimeMs w)).
Proof. split; [reflexivity | intros _; reflexivity]. Qed.

Lemma set_state_data_quiet (d : StateData_t) (w : World) :
  quiet w (set_state_data d w).
Proof. split; [reflexivity | intros _; reflexivity]. Qed.

Lemma upd_current_error_quiet (f : ErrorInfo_t -> ErrorInfo_t) (w : World) :
  quiet w (upd_current_error f w).
Proof. split; [reflexivity | intros _; reflexivity]. Qed.

Lemma VerifyCommChannel_quiet (w : World) :
  quiet w (snd (ErrorHandler_VerifyCommChannel w)).
Proof.
  unfold ErrorHandler_VerifyCommChannel. cbn.
  repeat case_bool_decide; (split; [reflexivity | intros _; reflexivity]).
Qed.

Lemma ClearError_quiet (w : World) : quiet w (ErrorHandler_ClearError w).
Proof. split; [reflexivity | intros _; reflexivity]. Qed.

Lemma AttemptRecovery_quiet (w : World) :
  (forall c, g_recovery_handlers w c = None) ->
  quiet w (snd (ErrorHandler_AttemptRecovery w)).
Proof.
  intros Hn. unfold ErrorHandler_AttemptRecovery.
  case_bool_decide; [apply quiet_refl|].
  set (w1 := upd_current_error _ w).
  assert (H1 : quiet w w1) by apply upd_current_error_quiet.
  assert (Hn1 : forall c, g_recovery_handlers w1 c = None) by exact Hn.
  clearbody w1. case_bool_decide; [exact H1|].
  rewrite Hn1.
  destruct (code (current_error (handler w1))); try exact H1.
  pose proof (VerifyCommChannel_quiet w1) as Hv.
  destruct (ErrorHandler_VerifyCommChannel w1) as [verified w2].
  cbn [snd] in *. apply (quiet_trans _ _ _ H1).
  destruct verified; cbn [snd]; [|exact Hv].
  apply (quiet_trans _ _ _ Hv), upd_current_error_quiet.
Qed.

Lemma callback_body_quiet (cb : Callback) (w : World) :
  builtin cb = true ->
  (forall c, g_recovery_handlers w c = None) ->
  quiet w (callback_body cb w).
Proof.
  intros Hb Hn.
  destruct cb; try discriminate Hb; cbn [callback_body];
    try apply quiet_refl; try apply set_state_data_quiet;
    try (case_bool_decide; [apply PostEvent_quiet | apply quiet_refl]).
  - set (w1 := set_state_data _ w).
    assert (H1 : quiet w w1) by apply set_state_data_quiet. clearbody w1.
    case_bool_decide; [|exact H1].
    apply (quiet_trans _ _ _ H1), PostEvent_quiet.
  - set (w1 := if negb _ then _ else w).
    assert (H1 : quiet w w1).
    { unfold w1. case_match; [apply set_state_data_quiet | apply quiet_refl]. }
    clearbody w1. case_bool_decide; [|exact H1].
    pose proof (VerifyCommChannel_quiet w1) as Hv.
    destruct (ErrorHandler_VerifyCommChannel w1) as [verified w2].
    cbn [snd] in Hv. apply (quiet_trans _ _ _ H1).
    destruct verified; [|exact Hv].
    apply (quiet_trans _ _ _ Hv), PostEvent_quiet.
  - pose proof (AttemptRecovery_quiet w Hn) as Ha.
    destruct (ErrorHandler_AttemptRecovery w) as [ok w1]. cbn [snd] in Ha.
    destruct ok.
    + apply (quiet_trans _ _ _ Ha).
      apply (quiet_trans _ _ _ (ClearError_quiet w1)), PostEvent_quiet.
    + cbn. case_bool_decide; [|exact Ha].
      apply (quiet_trans _ _ _ Ha), PostEvent_quiet.
Qed.

Lemma run_callback_quiet (cb : Callback) (w : World) :
  builtin cb = true ->
  (forall c, g_recovery_handlers w c = None) ->
  quiet w (run_callback cb w).
Proof.
  intros Hb Hn. unfold run_callback.
  apply (quiet_trans _ (set_callback_log (cb :: callback_log w) w)).
  - split; [reflexivity | intros _; reflexivity].
  - apply callback_body_quiet; assumption.
Qed.

Lemma quiet_fields (w w' : World) :
  quiet w w' ->
  layout w' = layout w
  /\ previous_state (ctx w') = previous_state (ctx w)
  /\ state_entry_time (ctx w') = state_entry_time (ctx w)
  /\ state_execution_count (ctx w') = state_execution_count (ctx w)
  /\ state_changed (ctx w') = state_changed (ctx w)
  /\ history_of w' = history_of w
  /\ critical_lock_active (handler w') = critical_lock_active (handler w).
Proof.
  intros [He _]. unfold engine_part in He. unfold layout.
  repeat split; congruence.
Qed.

Lemma layout_standard (w w' : World) :
  layout w' = layout w -> standard w -> standard w'.
Proof.
  unfold layout. intros Hl [Ht Hh].
  assert (H1 : g_state_table w' = g_state_table w) by congruence.
  assert (H2 : g_recovery_handlers w' = g_recovery_handlers w)
    by congruence.
  split; [intros s; rewrite H1; apply Ht | intros c; rewrite H2; apply Hh].
Qed.

Lemma layout_current_state (w w' : World) :
  layout w' = layout w -> current_state (ctx w') = current_state (ctx w).
Proof. unfold layout. congruence. Qed.

Lemma layout_table (w w' : World) :
  layout w' = layout w -> g_state_table w' = g_state_table w.
Proof. unfold layout. congruence. Qed.

Lemma layout_CheckStateTransition (ev : StateMachineEvent_t) (w w' : World) :
  layout w' = layout w ->
  CheckStateTransition ev w' = CheckStateTransition ev w.
Proof.
  intros H. unfold CheckStateTransition.
  rewrite (layout_table _ _ H), (layout_current_state _ _ H). reflexivity.
Qed.

Lemma startup_callbacks_builtin (s : StateMachineState_t) (cb : Callback) :
  on_entry (startup_table s) = Some cb
  \/ on_state (startup_table s) = Some cb
  \/ on_exit (startup_table s) = Some cb ->
  builtin cb = true.
Proof.
  destruct s; intros [H | [H | H]]; cbn in H; injection H as <-;
    reflexivity.
Qed.

Lemma call_if_set_quiet (p : option Callback) (w : World) :
  (forall cb, p = Some cb -> builtin cb = true) ->
  (forall c, g_recovery_handlers w c = None) ->
  quiet w (call_if_set p w).
Proof.
  intros Hb Hn. destruct p as [cb|]; [|apply quiet_refl].
  apply run_callback_quiet; [apply Hb; reflexivity | exact Hn].
Qed.

(** The part of a tick before the event is processed, on the machine as
    the initialisation configures it. *)
Lemma before_event_standard (w : World) :
  standard w ->
  layout (before_event w) = layout w
  /\ previous_state (ctx (before_event w)) = previous_state (ctx w)
  /\ history_of (before_event w) = history_of w
  /\ critical_lock_active (handler (before_event w))
     = critical_lock_active (handler w)
  /\ keeps_pending w (before_event w)
  /\ state_changed (ctx (before_event w)) = false
  /\ state_execution_count (ctx (before_event w))
     = (if state_changed (ctx w) then 1
        else u32 (state_execution_count (ctx w) + 1))
  /\ (state_changed (ctx w) = false ->
      state_entry_time (ctx (before_event w)) = state_entry_time (ctx w)).
Proof.
  intros Hstd. unfold before_event.
  set (s := current_state (ctx w)).
  (* the on-entry block *)
  assert (H1 : let w1 := Execute_on_entry s w in
               layout w1 = layout w
               /\ previous_state (ctx w1) = previous_state (ctx w)
               /\ history_of w1 = history_of w
               /\ critical_lock_active (handler w1)
                  = critical_lock_active (handler w)
               /\ keeps_pending w w1
               /\ state_changed (ctx w1) = false
               /\ state_execution_count (ctx w1)
                  = (if state_changed (ctx w) then 0
                     else state_execution_count (ctx w))
               /\ (state_changed (ctx w) = false ->
                   state_entry_time (ctx w1) = state_entry_time (ctx w))).
  { unfold Execute_on_entry.
    destruct (state_changed (ctx w)) eqn:Hch.
    - assert (Hq : quiet w (call_if_set (on_entry (g_state_table w s)) w)).
      { apply call_if_set_quiet; [|apply Hstd].
        intros cb Hcb. apply (startup_callbacks_builtin s).
        left. rewrite <- (proj1 Hstd s). exact Hcb. }
      destruct (quiet_fields _ _ Hq) as (Hl & Hp & _ & _ & _ & Hh & Hk).
      destruct Hq as [_ Hpend].
      cbn. repeat split; try assumption; try reflexivity.
      intros H; discriminate H.
    - cbn. repeat split; try reflexivity; try assumption. }
  cbv zeta in H1. set (w1 := Execute_on_entry s w) in *.
  destruct H1 as (Hl1 & Hp1 & Hh1 & Hk1 & Hpend1 & Hch1 & Hc1 & He1).
  assert (Hstd1 : standard w1) by (apply (layout_standard w); assumption).
  (* the on-tick block *)
  assert (Hq2 : quiet w1 (call_if_set (on_state (g_state_table w1 s)) w1)).
  { apply call_if_set_quiet; [|apply Hstd1].
    intros cb Hcb. apply (startup_callbacks_builtin s).
    right; left. rewrite <- (proj1 Hstd1 s). exact Hcb. }
  set (w2 := Execute_on_state s w1).
  assert (H2 : layout w2 = layout w1
               /\ previous_state (ctx w2) = previous_state (ctx w1)
               /\ history_of w2 = history_of w1
               /\ critical_lock_active (handler w2)
                  = critical_lock_active (handler w1)
               /\ keeps_pending w1 w2
               /\ state_changed (ctx w2) = state_changed (ctx w1)
               /\ state_execution_count (ctx w2)
                  = u32 (state_execution_count (ctx w1) + 1)
               /\ state_entry_time (ctx w2) = state_entry_time (ctx w1)).
  { destruct (quiet_fields _ _ Hq2) as (Hl & Hp & He & Hc & Hch & Hh & Hk).
    destruct Hq2 as [_ Hpend].
    unfold w2, Execute_on_state. cbn.
    repeat split; try assumption. unfold ctx in *. rewrite Hc.
    reflexivity. }
  destruct H2 as (Hl2 & Hp2 & Hh2 & Hk2 & Hpend2 & Hch2 & Hc2 & He2).
  (* the timeout block *)
  assert (Hq3 : quiet w2 (Execute_timeout s w2)).
  { unfold Execute_timeout. case_bool_decide; [|apply quiet_refl].
    pose proof (IsTimeout_world (state_entry_time (ctx w2))
                  (timeout_ms (g_state_table w2 s)) w2) as Hw.
    destruct (Platform_IsTimeout _ _ w2) as [expired w'].
    cbn [snd] in Hw. subst w'.
    destruct expired; [|apply GetTimeMs_quiet].
    apply (quiet_trans _ _ _ (GetTimeMs_quiet w2)), PostEvent_quiet. }
  destruct (quiet_fields _ _ Hq3) as (Hl3 & Hp3 & He3 & Hc3 & Hch3 & Hh3 & Hk3).
  destruct Hq3 as [_ Hpend3].
  repeat split.
  - congruence.
  - congruence.
  - congruence.
  - congruence.
  - intros H. rewrite Hpend3, Hpend2, Hpend1; auto.
    + rewrite Hpend1; auto.
    + rewrite Hpend2, Hpend1; auto. rewrite Hpend1; auto.
  - congruence.
  - rewrite Hc3, Hc2, Hc1. destruct (state_changed (ctx w)); reflexivity.
  - intros H. rewrite He3, He2. apply He1. exact H.
Qed.

Lemma PerformStateTransition_standard (target : StateMachineState_t)
  (w : World) :
  standard w ->
  layout (PerformStateTransition target w)
  = (g_state_table w, g_recovery_handlers w, target)
  /\ previous_state (ctx (PerformStateTransition target w))
     = current_state (ctx w)
  /\ state_changed (ctx (PerformStateTransition target w)) = true
  /\ state_execution_count (ctx (PerformStateTransition target w))
     = state_execution_count (ctx w)
  /\ state_entry_time (ctx (PerformStateTransition target w))
     = state_entry_time (ctx w)
  /\ history_of (PerformStateTransition target w) = history_of w
  /\ critical_lock_active (handler (PerformStateTransition target w))
     = critical_lock_active (handler w)
  /\ keeps_pending w (PerformStateTransition target w).
Proof.
  intros Hstd. rewrite PerformStateTransition_unfold. cbv zeta.
  set (w1 := call_if_set _ w).
  assert (Hq : quiet w w1).
  { apply call_if_set_quiet; [|apply Hstd].
    intros cb Hcb. apply (startup_callbacks_builtin (current_state (ctx w))).
    right; right. rewrite <- (proj1 Hstd). exact Hcb. }
  destruct (quiet_fields _ _ Hq) as (Hl & Hp & He & Hc & Hch & Hh & Hk).
  destruct Hq as [_ Hpend]. clearbody w1.
  unfold layout, history_of, handler, ctx, keeps_pending in *. cbn.
  repeat split; try congruence; try exact Hpend.
Qed.

Lemma standard_of_tables (w w' : World) :
  g_state_table w' = g_state_table w ->
  g_recovery_handlers w' = g_recovery_handlers w ->
  standard w -> standard w'.
Proof.
  intros H1 H2 [Ht Hh].
  split; [intros s; rewrite H1; apply Ht | intros c; rewrite H2; apply Hh].
Qed.

(** A tick of the machine as the initialisation configures it, entered
    with the lockout inactive. *)
Lemma Execute_standard (w : World) :
  standard w ->
  critical_lock_active (handler w) = false ->
  let w' := snd (StateMachine_Execute w) in
  fst (StateMachine_Execute w) = current_state (ctx w')
  /\ standard w'
  /\ critical_lock_active (handler w') = false
  /\ history_of w' = history_of w
  /\ pending_event (ctx w') = EVENT_NONE
  /\ current_state (ctx w') = default (current_state (ctx w)) (tick_outcome w)
  /\ previous_state (ctx w')
     = match tick_outcome w with
       | Some _ => current_state (ctx w)
       | None => previous_state (ctx w)
       end
  /\ state_changed (ctx w')
     = match tick_outcome w with Some _ => true | None => false end
  /\ state_execution_count (ctx w')
     = (if state_changed (ctx w) then 1
        else u32 (state_execution_count (ctx w) + 1)).
Proof.
  intros Hstd Hl.
  destruct (before_event_standard w Hstd)
    as (Hlay & Hprev & Hhist & Hlock & Hpend & Hch & Hcount & _).
  rewrite (Execute_unlocked w Hl). cbv zeta. cbn [fst snd].
  change (Execute_timeout (current_state (ctx w))
            (Execute_on_state (current_state (ctx w))
               (Execute_on_entry (current_state (ctx w)) w)))
    with (before_event w).
  assert (Hstd2 : standard (before_event w))
    by (apply (layout_standard w); assumption).
  unfold tick_outcome, Execute_event.
  rewrite <- (layout_CheckStateTransition _ w (before_event w) Hlay).
  set (w2 := before_event w) in *. clearbody w2.
  split; [reflexivity|].
  case_bool_decide as HE.
  - destruct (CheckStateTransition (pending_event (ctx w2)) w2)
      as [target|] eqn:Hrule.
    + destruct (PerformStateTransition_standard target w2 Hstd2)
        as (Hl3 & Hp3 & Hch3 & Hc3 & _ & Hh3 & Hk3 & _).
      set (w3 := PerformStateTransition target w2) in *. clearbody w3.
      split.
      { apply (standard_of_tables w2); [| |exact Hstd2];
          unfold layout in Hl3; cbn; congruence. }
      unfold layout, history_of, handler, ctx in *. cbn.
      repeat split; congruence.
    + split.
      { apply (standard_of_tables w2); [reflexivity..|exact Hstd2]. }
      unfold layout, history_of, handler, ctx in *. cbn.
      repeat split; congruence.
  - assert (Hnone : pending_event (ctx w2) = EVENT_NONE).
    { destruct (decide (pending_event (ctx w2) = EVENT_NONE));
        [assumption | contradiction]. }
    split; [exact Hstd2|].
    unfold layout, history_of, handler, ctx in *. cbn.
    repeat split; congruence.
Qed.

(** *** What the functions of the error handler leave alone *)

Lemma HandleNormalError_quiet (c : ErrorCode_t) (w : World) :
  quiet w (snd (ErrorHandler_HandleNormalError c w)).
Proof.
  unfold ErrorHandler_HandleNormalError. cbn.
  match goal with
  | |- context [StateMachine_PostEvent ?e ?x] =>
      pose proof (PostEvent_quiet e x) as H;
      assert (H0 : quiet w x) by (split; [reflexivity | intros _; reflexivity]);
      destruct (StateMachine_PostEvent e x) as [ok w']
  end.
  cbn [snd] in *. exact (quiet_trans _ _ _ H0 H).
Qed.

Lemma HandleCriticalError_layout (c : ErrorCode_t) (w : World) :
  layout (ErrorHandler_HandleCriticalError c w) = layout w
  /\ keeps_pending w (ErrorHandler_HandleCriticalError c w).
Proof.
  unfold ErrorHandler_HandleCriticalError. cbn.
  match goal with
  | |- context [StateMachine_PostEvent ?e ?x] =>
      pose proof (PostEvent_quiet e x) as H;
      assert (H0 : layout x = layout w /\ keeps_pending w x)
        by (split; [reflexivity | intros _; reflexivity]);
      destruct (StateMachine_PostEvent e x) as [ok w']
  end.
  cbn [snd] in *. destruct (quiet_fields _ _ H) as (Hl & _).
  destruct H as [_ Hp]. destruct H0 as [Hl0 Hp0].
  split; [congruence|]. intros Hne. rewrite Hp; rewrite Hp0; auto.
Qed.

Lemma HandleMinorError_layout (c : ErrorCode_t) (w : World) :
  layout (snd (ErrorHandler_HandleMinorError c w)) = layout w
  /\ keeps_pending w (snd (ErrorHandler_HandleMinorError c w)).
Proof.
  unfold ErrorHandler_HandleMinorError.
  destruct (Platform_GetTimeMs w) as [now w1] eqn:Hclock.
  assert (Hw1 : layout w1 = layout w /\ keeps_pending w w1).
  { unfold Platform_GetTimeMs in Hclock. injection Hclock as _ <-.
    split; [reflexivity | intros _; reflexivity]. }
  set (w2 := if bool_decide (minor_error_timestamp (handler w1) = 0)
             then _ else w1).
  assert (Hw2 : layout w2 = layout w /\ keeps_pending w w2).
  { unfold w2. case_bool_decide; [|exact Hw1].
    destruct Hw1 as [H1 H2]. split; [exact H1 | exact H2]. }
  clearbody w2. destruct Hw2 as [Hl2 Hp2]. case_bool_decide.
  - pose proof (VerifyCommChannel_quiet w2) as Hv.
    destruct (ErrorHandler_VerifyCommChannel w2) as [verified w3].
    cbn [snd] in Hv. destruct (quiet_fields _ _ Hv) as (Hl3 & _).
    destruct Hv as [_ Hp3].
    assert (Hl : layout w3 = layout w) by congruence.
    assert (Hp : keeps_pending w w3).
    { intros Hne. rewrite Hp3; rewrite Hp2; auto. }
    destruct verified; [case_bool_decide|]; cbn [snd];
      (split; [exact Hl | exact Hp]).
  - pose proof (HandleNormalError_quiet c w2) as Hn.
    destruct (quiet_fields _ _ Hn) as (Hl3 & _). destruct Hn as [_ Hp3].
    split; [congruence|]. intros Hne. rewrite Hp3; rewrite Hp2; auto.
Qed.

Lemma Report_layout (l : ErrorLevel_t) (c : ErrorCode_t) (w : World) :
  layout (snd (ErrorHandler_Report l c w)) = layout w
  /\ keeps_pending w (snd (ErrorHandler_Report l c w)).
Proof.
  unfold ErrorHandler_Report.
  change (Platform_GetTimeMs w)
    with (fst (Platform_GetTimeMs w),
          set_clock_reads (S (clock_reads w)) w).
  cbv beta iota.
  set (w2 := AddErrorToHistory _ _).
  assert (Hw2 : layout w2 = layout w /\ keeps_pending w w2)
    by (split; [reflexivity | intros _; reflexivity]).
  clearbody w2. destruct Hw2 as [Hl2 Hp2].
  destruct l; cbn [snd].
  - split; assumption.
  - destruct (HandleMinorError_layout c w2) as [Hl Hp].
    split; [congruence|]. intros Hne. rewrite Hp; rewrite Hp2; auto.
  - pose proof (HandleNormalError_quiet c w2) as Hn.
    destruct (quiet_fields _ _ Hn) as (Hl & _). destruct Hn as [_ Hp].
    split; [congruence|]. intros Hne. rewrite Hp; rewrite Hp2; auto.
  - destruct (HandleCriticalError_layout c w2) as [Hl Hp].
    split; [congruence|]. intros Hne. rewrite Hp; rewrite Hp2; auto.
Qed.

(** *** The lookup as a search of the rule list *)

Lemma find_transition_first_match (ev : StateMachineEvent_t) (n : nat) :
  forall rules : list StateTransition_t,
    find_transition rules n ev = first_match (take n rules) ev.
Proof.
  induction n as [|n IH]; intros rules; [reflexivity|].
  destruct rules as [|r rules]; [reflexivity|].
  cbn [find_transition take first_match]. rewrite IH. reflexivity.
Qed.

Lemma CheckStateTransition_first_match (ev : StateMachineEvent_t)
  (w : World) :
  CheckStateTransition ev w
  = first_match (rules_of (g_state_table w (current_state (ctx w)))) ev.
Proof. apply find_transition_first_match. Qed.

Lemma first_match_app (ev : StateMachineEvent_t)
  (rules more : list StateTransition_t) :
  first_match (rules ++ more) ev
  = match first_match rules ev with
    | Some target => Some target
    | None => first_match more ev
    end.
Proof.
  induction rules as [|r rules IH]; [reflexivity|].
  cbn [app first_match]. case_bool_decide; [reflexivity | exact IH].
Qed.

(** *** The machine as the initialisation configures it *)

Lemma Init_standard (w : World) : standard (snd (StateMachine_Init w)).
Proof. split; [intros s; destruct s; reflexivity | intros c; reflexivity]. Qed.

Lemma startup_targets (s target : StateMachineState_t)
  (ev : StateMachineEvent_t) :
  first_match (rules_of (startup_table s)) ev = Some target ->
  s <> STATE_CALIBRATING -> s <> STATE_DIAGNOSTICS ->
  target <> STATE_CALIBRATING /\ target <> STATE_DIAGNOSTICS.
Proof.
  intros Hrule Hc Hd.
  destruct s; try contradiction; destruct ev; vm_compute in Hrule;
    try discriminate Hrule; injection Hrule as <-; split; discriminate.
Qed.

Lemma startup_critical_error_has_no_rule (ev : StateMachineEvent_t) :
  first_match (rules_of (startup_table STATE_CRITICAL_ERROR)) ev = None.
Proof. reflexivity. Qed.

Lemma CheckStateTransition_standard (ev : StateMachineEvent_t) (w : World) :
  standard w ->
  CheckStateTransition ev w
  = first_match (rules_of (startup_table (current_state (ctx w)))) ev.
Proof.
  intros Hstd. rewrite CheckStateTransition_first_match.
  rewrite (proj1 Hstd). reflexivity.
Qed.

Lemma Execute_standard_any (w : World) :
  standard w ->
  let w' := snd (StateMachine_Execute w) in
  standard w'
  /\ fst (StateMachine_Execute w) = current_state (ctx w')
  /\ (current_state (ctx w') = STATE_CRITICAL_ERROR
      \/ current_state (ctx w') = current_state (ctx w)
      \/ exists ev,
           first_match (rules_of (startup_table (current_state (ctx w)))) ev
           = Some (current_state (ctx w'))).
Proof.
  intros Hstd.
  destruct (critical_lock_active (handler w)) eqn:Hl.
  - unfold StateMachine_Execute. rewrite Hl. cbn [fst snd].
    case_bool_decide.
    + destruct (PerformStateTransition_standard STATE_CRITICAL_ERROR w Hstd)
        as (Hlay & _).
      unfold layout in Hlay. split; [|split; [reflexivity|]].
      * apply (standard_of_tables w); [congruence | congruence | exact Hstd].
      * left. congruence.
    + split; [exact Hstd|]. split; [reflexivity|]. right; left. reflexivity.
  - destruct (Execute_standard w Hstd Hl)
      as (Hfst & Hstd' & _ & _ & _ & Hcur & _).
    split; [exact Hstd'|]. split; [exact Hfst|].
    rewrite Hcur. unfold tick_outcome. case_bool_decide.
    + rewrite (CheckStateTransition_standard _ w Hstd).
      destruct (first_match _ _) as [target|] eqn:Hrule.
      * right; right. eexists. exact Hrule.
      * right; left. reflexivity.
    + right; left. reflexivity.
Qed.

Lemma Reset_standard (w : World) :
  standard w ->
  standard (StateMachine_Reset w)
  /\ (critical_lock_active (handler w) = true -> StateMachine_Reset w = w)
  /\ (critical_lock_active (handler w) = false ->
      current_state (ctx (StateMachine_Reset w)) = STATE_INIT
      /\ previous_state (ctx (StateMachine_Reset w)) = current_state (ctx w)
      /\ state_changed (ctx (StateMachine_Reset w)) = true
      /\ critical_lock_active (handler (StateMachine_Reset w)) = false
      /\ keeps_pending w (StateMachine_Reset w)).
Proof.
  intros Hstd. unfold StateMachine_Reset.
  destruct (critical_lock_active (handler w)) eqn:Hl.
  - split; [exact Hstd|]. split; [reflexivity | discriminate].
  - set (w1 := set_state_data zero_StateData (ErrorHandler_ClearError w)).
    assert (H1 : quiet w w1).
    { apply (quiet_trans _ _ _ (ClearError_quiet w)), set_state_data_quiet. }
    destruct (quiet_fields _ _ H1) as (Hlay1 & _ & _ & _ & _ & _ & Hk1).
    destruct H1 as [_ Hp1].
    assert (Hstd1 : standard w1) by (apply (layout_standard w); assumption).
    destruct (PerformStateTransition_standard STATE_INIT w1 Hstd1)
      as (Hlay & Hprev & Hch & _ & _ & _ & Hk & Hp).
    clearbody w1. unfold layout in *.
    split; [|split; [discriminate|]].
    + apply (standard_of_tables w1); [congruence | congruence | exact Hstd1].
    + intros _. repeat split; try congruence.
      intros Hne. rewrite Hp; rewrite Hp1; auto.
Qed.

Lemma run_call_routine (call : ApiCall) (w : World) :
  administrative call = false ->
  standard w ->
  standard (run_call call w)
  /\ (current_state (ctx (run_call call w)) = current_state (ctx w)
      \/ call = Call_Execute
      \/ (call = Call_Reset
          /\ current_state (ctx (run_call call w)) = STATE_INIT)).
Proof.
  intros Hadm Hstd.
  assert (Hkeep : forall w', layout w' = layout w ->
                    standard w'
                    /\ (current_state (ctx w') = current_state (ctx w)
                        \/ call = Call_Execute
                        \/ (call = Call_Reset
                            /\ current_state (ctx w') = STATE_INIT))).
  { intros w' Hlay. split; [apply (layout_standard w); assumption|].
    left. apply layout_current_state. exact Hlay. }
  destruct call; try discriminate Hadm; cbn [run_call].
  - split; [apply Execute_standard_any; exact Hstd|]. right; left.
    reflexivity.
  - apply Hkeep, quiet_fields, PostEvent_quiet.
  - destruct (Reset_standard w Hstd) as (Hs & Hlocked & Hunlocked).
    split; [exact Hs|].
    destruct (critical_lock_active (handler w)) eqn:Hl.
    + left. rewrite Hlocked; reflexivity.
    + right; right. split; [reflexivity|]. apply Hunlocked. reflexivity.
  - apply Hkeep. reflexivity.
  - apply Hkeep, Report_layout.
  - apply Hkeep, HandleMinorError_layout.
  - apply Hkeep, quiet_fields, HandleNormalError_quiet.
  - apply Hkeep, HandleCriticalError_layout.
  - apply Hkeep, quiet_fields, AttemptRecovery_quiet, Hstd.
  - apply Hkeep, quiet_fields, ClearError_quiet.
  - apply Hkeep, quiet_fields, VerifyCommChannel_quiet.
Qed.

(** X2.  Only the four configuration functions change the table or the
    recovery handlers.  [StateMachine_Init] leaves the startup table and
    no handler, and after any sequence of the other public functions
    (ticks, posts, resets, reports, recovery attempts) the table is
    still the startup table and no handler is registered: no callback
    and no function of the error handler writes to them. *)
Theorem table_is_changed_by_configuration_only
  (w0 w : World) (calls : list ApiCall) :
  standard w ->
  Forall (fun call => administrative call = false) calls ->
  standard (snd (StateMachine_Init w0))
  /\ standard (run_calls calls w)
  /\ forall s, g_state_table (run_calls calls w) s = g_state_table w s.
Proof.
  intros Hstd Hcalls. split; [apply Init_standard|].
  assert (H : standard (run_calls calls w)).
  { revert w Hstd. unfold run_calls.
    induction Hcalls as [|call calls Hcall _ IH]; intros w Hstd;
      [exact Hstd|].
    cbn [foldl]. apply IH. apply run_call_routine; assumption. }
  split; [exact H|]. intros s.
  rewrite (proj1 H), (proj1 Hstd). reflexivity.
Qed.

(** X3.  STATE_CRITICAL_ERROR has no way out but a reset or a
    re-initialisation: on the machine as the initialisation configures
    it, locked or not, whatever is posted, reported or attempted, the
    machine stays in STATE_CRITICAL_ERROR, and the next tick returns
    it, as long as neither [StateMachine_Reset] nor a configuration
    function is called. *)
Theorem critical_error_is_absorbing (w : World) (calls : list ApiCall) :
  standard w ->
  current_state (ctx w) = STATE_CRITICAL_ERROR ->
  Forall (fun call => administrative call = false /\ call <> Call_Reset)
    calls ->
  current_state (ctx (run_calls calls w)) = STATE_CRITICAL_ERROR
  /\ fst (StateMachine_Execute (run_calls calls w)) = STATE_CRITICAL_ERROR.
Proof.
  intros Hstd Hcur Hcalls.
  assert (Hstep : forall w1,
             standard w1 ->
             current_state (ctx w1) = STATE_CRITICAL_ERROR ->
             current_state (ctx (snd (StateMachine_Execute w1)))
             = STATE_CRITICAL_ERROR
             /\ fst (StateMachine_Execute w1) = STATE_CRITICAL_ERROR).
  { intros w1 Hstd1 Hcur1.
    destruct (Execute_standard_any w1 Hstd1) as (_ & Hfst & Hnext).
    assert (H : current_state (ctx (snd (StateMachine_Execute w1)))
                = STATE_CRITICAL_ERROR).
    { destruct Hnext as [H | [H | [ev H]]]; [exact H | congruence |].
      rewrite Hcur1, startup_critical_error_has_no_rule in H.
      discriminate H. }
    split; [exact H | congruence]. }
  assert (H : standard (run_calls calls w)
              /\ current_state (ctx (run_calls calls w))
                 = STATE_CRITICAL_ERROR).
  { revert w Hstd Hcur. unfold run_calls.
    induction Hcalls as [|call calls [Hadm Hreset] _ IH]; intros w Hstd Hcur;
      [split; assumption|].
    cbn [foldl].
    destruct (run_call_routine call w Hadm Hstd) as [Hstd' Hstate].
    apply IH; [exact Hstd'|].
    destruct Hstate as [H | [-> | [-> _]]];
      [congruence | | contradiction].
    apply Hstep; assumption. }
  destruct H as [Hs Hc]. split; [exact Hc|]. apply Hstep; assumption.
Qed.

(** X4.  No rule of the startup table leads to STATE_CALIBRATING, and
    STATE_DIAGNOSTICS is entered from STATE_CALIBRATING only: if the
    machine as the initialisation configures it is in neither of them,
    no sequence of public calls other than the configuration functions
    brings it to one of them. *)
Theorem calibrating_and_diagnostics_are_never_entered
  (w : World) (calls : list ApiCall) :
  standard w ->
  current_state (ctx w) <> STATE_CALIBRATING ->
  current_state (ctx w) <> STATE_DIAGNOSTICS ->
  Forall (fun call => administrative call = false) calls ->
  current_state (ctx (run_calls calls w)) <> STATE_CALIBRATING
  /\ current_state (ctx (run_calls calls w)) <> STATE_DIAGNOSTICS.
Proof.
  intros Hstd Hc Hd Hcalls. revert w Hstd Hc Hd. unfold run_calls.
  induction Hcalls as [|call calls Hadm _ IH]; intros w Hstd Hc Hd;
    [split; assumption|].
  cbn [foldl].
  destruct (run_call_routine call w Hadm Hstd) as [Hstd' Hstate].
  assert (H : current_state (ctx (run_call call w)) <> STATE_CALIBRATING
              /\ current_state (ctx (run_call call w)) <> STATE_DIAGNOSTICS).
  { destruct Hstate as [H | [-> | [_ H]]].
    - rewrite H. split; assumption.
    - cbn [run_call].
      destruct (Execute_standard_any w Hstd) as (_ & _ & Hnext).
      destruct Hnext as [H | [H | [ev H]]].
      + rewrite H. split; discriminate.
      + rewrite H. split; assumption.
      + apply (startup_targets _ _ _ H); assumption.
    - rewrite H. split; discriminate. }
  apply IH; [exact Hstd' | apply H | apply H].
Qed.

Lemma tick_outcome_of_posted (w : World) (E : StateMachineEvent_t) :
  standard w ->
  pending_event (ctx w) = E -> E <> EVENT_NONE ->
  tick_outcome w
  = first_match (rules_of (startup_table (current_state (ctx w)))) E.
Proof.
  intros Hstd HE Hne.
  destruct (before_event_standard w Hstd) as (_ & _ & _ & _ & Hpend & _).
  unfold tick_outcome. rewrite Hpend by congruence. rewrite HE.
  rewrite bool_decide_eq_true_2 by exact Hne.
  apply CheckStateTransition_standard. exact Hstd.
Qed.

(** X5.  On the machine as the initialisation configures it, an event
    that is in the slot when a tick begins (lockout inactive) is the
    event that tick processes, against the rules of the state the tick
    began in: neither a callback nor the timeout check can displace it
    or change the state first.  The tick returns the target of the first
    rule for the event and records the state it left in
    [previous_state], or, without a rule, stays where it is. *)
Theorem posted_event_is_processed_by_the_next_tick
  (w : World) (E : StateMachineEvent_t) :
  standard w ->
  critical_lock_active (handler w) = false ->
  pending_event (ctx w) = E ->
  E <> EVENT_NONE ->
  let rule :=
    first_match (rules_of (startup_table (current_state (ctx w)))) E in
  let w' := snd (StateMachine_Execute w) in
  fst (StateMachine_Execute w) = default (current_state (ctx w)) rule
  /\ current_state (ctx w') = default (current_state (ctx w)) rule
  /\ previous_state (ctx w')
     = match rule with
       | Some _ => current_state (ctx w)
       | None => previous_state (ctx w)
       end
  /\ state_changed (ctx w')
     = match rule with Some _ => true | None => false end
  /\ pending_event (ctx w') = EVENT_NONE.
Proof.
  intros Hstd Hl HE Hne rule w'.
  destruct (Execute_standard w Hstd Hl)
    as (Hfst & _ & _ & _ & Hpend & Hcur & Hprev & Hch & _).
  rewrite (tick_outcome_of_posted w E Hstd HE Hne) in Hcur, Hprev, Hch.
  fold rule in Hcur, Hprev, Hch. fold w' in Hfst, Hcur, Hprev, Hch, Hpend.
  repeat split; congruence.
Qed.

Lemma Report_normal_posts (c : ErrorCode_t) (w : World) :
  pending_event (ctx w) = EVENT_NONE ->
  pending_event (ctx (snd (ErrorHandler_Report ERROR_LEVEL_NORMAL c w)))
  = EVENT_ERROR_NORMAL
  /\ critical_lock_active
       (handler (snd (ErrorHandler_Report ERROR_LEVEL_NORMAL c w)))
     = critical_lock_active (handler w).
Proof.
  intros Hfree. unfold ErrorHandler_Report.
  change (Platform_GetTimeMs w)
    with (fst (Platform_GetTimeMs w),
          set_clock_reads (S (clock_reads w)) w).
  cbv beta iota.
  set (w2 := AddErrorToHistory _ _).
  assert (Hp2 : pending_event (ctx w2) = EVENT_NONE) by exact Hfree.
  assert (Hk2 : critical_lock_active (handler w2)
                = critical_lock_active (handler w)) by reflexivity.
  clearbody w2. rewrite <- Hk2. split; [|apply HandleNormalError_lock].
  unfold ErrorHandler_HandleNormalError. cbn.
  rewrite PostEvent_free; [reflexivity | discriminate | exact Hp2].
Qed.

(** X6.  The error events reach their states from everywhere.  On the
    machine as the initialisation configures it and with the lockout
    inactive: a tick that begins with EVENT_ERROR_CRITICAL in the slot
    returns STATE_CRITICAL_ERROR from every state; and a normal error
    reported through [ErrorHandler_Report] while the slot is empty takes
    the machine to STATE_RECOVERY on the next tick from every state but
    STATE_RECOVERY and STATE_CRITICAL_ERROR, where the event has no rule
    and the machine stays. *)
Theorem error_events_reach_their_states (w : World) (c : ErrorCode_t) :
  standard w ->
  critical_lock_active (handler w) = false ->
  (pending_event (ctx w) = EVENT_ERROR_CRITICAL ->
   fst (StateMachine_Execute w) = STATE_CRITICAL_ERROR)
  /\ (pending_event (ctx w) = EVENT_NONE ->
      fst (StateMachine_Execute
             (snd (ErrorHandler_Report ERROR_LEVEL_NORMAL c w)))
      = (if bool_decide (current_state (ctx w) = STATE_RECOVERY
                         \/ current_state (ctx w) = STATE_CRITICAL_ERROR)
         then current_state (ctx w)
         else STATE_RECOVERY)).
Proof.
  intros Hstd Hl. split.
  - intros HE.
    destruct (Execute_standard w Hstd Hl) as (Hfst & _ & _ & _ & _ & Hcur & _).
    rewrite Hfst, Hcur.
    rewrite (tick_outcome_of_posted w EVENT_ERROR_CRITICAL Hstd HE)
      by discriminate.
    destruct (current_state (ctx w)); reflexivity.
  - intros Hfree.
    destruct (Report_normal_posts c w Hfree) as [Hpost Hk].
    destruct (Report_layout ERROR_LEVEL_NORMAL c w) as [Hlay _].
    set (w1 := snd (ErrorHandler_Report ERROR_LEVEL_NORMAL c w)) in *.
    assert (Hstd1 : standard w1) by (apply (layout_standard w); assumption).
    assert (Hl1 : critical_lock_active (handler w1) = false) by congruence.
    destruct (Execute_standard w1 Hstd1 Hl1)
      as (Hfst & _ & _ & _ & _ & Hcur & _).
    rewrite Hfst, Hcur.
    rewrite (tick_outcome_of_posted w1 EVENT_ERROR_NORMAL Hstd1 Hpost)
      by discriminate.
    rewrite (layout_current_state _ _ Hlay).
    destruct (current_state (ctx w)); reflexivity.
Qed.

(** X7.  [state_execution_count] counts the ticks spent in the current
    state.  On the machine as the initialisation configures it, a tick
    with the lockout inactive leaves it at 1 when it is the first tick
    after a transition and one higher (modulo 2^32) otherwise, whether
    or not the tick itself ends with a transition; the counter is
    restarted by the first tick in the new state, not by the
    transition. *)
Theorem execution_count_counts_the_ticks_in_a_state (w : World) :
  standard w ->
  critical_lock_active (handler w) = false ->
  StateMachine_GetExecutionCount (snd (StateMachine_Execute w))
  = (if state_changed (ctx w) then 1
     else u32 (StateMachine_GetExecutionCount w + 1)).
Proof.
  intros Hstd Hl.
  destruct (Execute_standard w Hstd Hl) as (_ & _ & _ & _ & _ & _ & _ & _ & H).
  exact H.
Qed.

(** *** The recovery state *)

Lemma Execute_timeout_handler (s : StateMachineState_t) (w : World) :
  handler (Execute_timeout s w) = handler w
  /\ keeps_pending w (Execute_timeout s w).
Proof.
  unfold Execute_timeout. case_bool_decide;
    [|split; [reflexivity | intros _; reflexivity]].
  pose proof (IsTimeout_world (state_entry_time (ctx w))
                (timeout_ms (g_state_table w s)) w) as Hw.
  destruct (Platform_IsTimeout _ _ w) as [expired w'].
  cbn [snd] in Hw. subst w'.
  destruct expired; [|split; [reflexivity | intros _; reflexivity]].
  split; [rewrite PostEvent_handler; reflexivity|].
  apply (PostEvent_quiet EVENT_TIMEOUT (snd (Platform_GetTimeMs w))).
Qed.

(** What the callback of STATE_RECOVERY posts into an empty slot. *)
Lemma Recovery_OnState_posts (w : World) :
  (forall c, g_recovery_handlers w c = None) ->
  pending_event (ctx w) = EVENT_NONE ->
  (level (current_error (handler w)) <> ERROR_LEVEL_NONE ->
   ERROR_MAX_RECOVERY_ATTEMPTS - 1 <= retry_count (current_error (handler w))
   < 255 ->
   pending_event (ctx (callback_body State_Recovery_OnState w))
   = EVENT_RECOVERY_FAILED)
  /\ (level (current_error (handler w)) = ERROR_LEVEL_NONE
      \/ (code (current_error (handler w)) = ERROR_CODE_TIMEOUT
          /\ 0 <= retry_count (current_error (handler w))
             < ERROR_MAX_RECOVERY_ATTEMPTS - 1) ->
      pending_event (ctx (callback_body State_Recovery_OnState w))
      = EVENT_RECOVERY_SUCCESS
      /\ level
           (current_error
              (handler (callback_body State_Recovery_OnState w)))
         = ERROR_LEVEL_NONE).
Proof.
  intros Hn Hfree. split.
  - intros Hlevel [Hlow Hhigh]. cbn [callback_body].
    rewrite AttemptRecovery_at_limit by assumption. cbn.
    rewrite bool_decide_eq_true_2
      by (unfold ERROR_MAX_RECOVERY_ATTEMPTS, handler, ctx in *; lia).
    rewrite PostEvent_free; [reflexivity | discriminate | exact Hfree].
  - intros Hok. cbn [callback_body].
    assert (Hrun : exists w1,
               ErrorHandler_AttemptRecovery w = (true, w1)
               /\ pending_event (ctx w1) = EVENT_NONE).
    { unfold ErrorHandler_AttemptRecovery.
      destruct Hok as [Hnone | (Hcode & Hlow & Hhigh)].
      - rewrite bool_decide_eq_true_2 by exact Hnone.
        eexists; split; [reflexivity | exact Hfree].
      - case_bool_decide; [eexists; split; [reflexivity | exact Hfree]|].
        assert (Hu8 : u8 (retry_count (current_error (handler w)) + 1)
                      = retry_count (current_error (handler w)) + 1).
        { unfold u8, ERROR_MAX_RECOVERY_ATTEMPTS in *.
          apply Z.mod_small. lia. }
        cbn. unfold handler, ctx in *. rewrite Hu8.
        rewrite bool_decide_eq_false_2
          by (unfold ERROR_MAX_RECOVERY_ATTEMPTS in *; lia).
        rewrite Hn, Hcode.
        eexists; split; [reflexivity | exact Hfree]. }
    destruct Hrun as (w1 & -> & Hfree1).
    rewrite PostEvent_free; [split; reflexivity | discriminate | exact Hfree1].
Qed.

(** The tick of the machine in STATE_RECOVERY up to the processing of
    the event. *)
Lemma recovery_before_event (w : World) :
  standard w ->
  current_state (ctx w) = STATE_RECOVERY ->
  pending_event (ctx w) = EVENT_NONE ->
  exists w1,
    (forall c, g_recovery_handlers w1 c = None)
    /\ pending_event (ctx w1) = EVENT_NONE
    /\ current_error (handler w1) = current_error (handler w)
    /\ (pending_event (ctx (callback_body State_Recovery_OnState w1))
        <> EVENT_NONE ->
        pending_event (ctx (before_event w))
        = pending_event (ctx (callback_body State_Recovery_OnState w1)))
    /\ current_error (handler (before_event w))
       = current_error (handler (callback_body State_Recovery_OnState w1)).
Proof.
  intros Hstd Hcur Hfree. unfold before_event. rewrite Hcur.
  set (w1 := Execute_on_entry STATE_RECOVERY w).
  assert (H1 : g_state_table w1 = g_state_table w
               /\ g_recovery_handlers w1 = g_recovery_handlers w
               /\ pending_event (ctx w1) = EVENT_NONE
               /\ current_error (handler w1) = current_error (handler w)).
  { unfold w1, Execute_on_entry. rewrite (proj1 Hstd).
    destruct (state_changed (ctx w)); cbn; auto. }
  destruct H1 as (Ht1 & Hh1 & Hp1 & He1). clearbody w1.
  exists (set_callback_log (State_Recovery_OnState :: callback_log w1) w1).
  split; [intros c; cbn; rewrite Hh1; apply Hstd|].
  split; [exact Hp1|]. split; [exact He1|].
  set (body := callback_body State_Recovery_OnState
                 (set_callback_log
                    (State_Recovery_OnState :: callback_log w1) w1)).
  assert (H2 : Execute_on_state STATE_RECOVERY w1
               = upd_ctx
                   (fun c =>
                      set_state_execution_count
                        (u32 (state_execution_count c + 1)) c) body).
  { unfold Execute_on_state. rewrite Ht1, (proj1 Hstd). reflexivity. }
  rewrite H2.
  destruct (Execute_timeout_handler STATE_RECOVERY
              (upd_ctx
                 (fun c =>
                    set_state_execution_count
                      (u32 (state_execution_count c + 1)) c) body))
    as [Hh Hp].
  split.
  - intros Hne. rewrite Hp; [reflexivity | exact Hne].
  - rewrite Hh. reflexivity.
Qed.

(** X8.  A recovery that runs out of attempts ends in
    STATE_CRITICAL_ERROR but does not set the lockout.  On the machine
    as the initialisation configures it, in STATE_RECOVERY with an
    active error, the slot empty and [retry_count] one below the
    maximum or above, the tick posts EVENT_RECOVERY_FAILED and returns
    STATE_CRITICAL_ERROR; [ErrorHandler_IsCriticalLock] is still false
    afterwards, and [StateMachine_Reset] takes the machine back to
    STATE_INIT. *)
Theorem exhausted_recovery_does_not_lock (w : World) :
  standard w ->
  critical_lock_active (handler w) = false ->
  current_state (ctx w) = STATE_RECOVERY ->
  pending_event (ctx w) = EVENT_NONE ->
  level (current_error (handler w)) <> ERROR_LEVEL_NONE ->
  ERROR_MAX_RECOVERY_ATTEMPTS - 1 <= retry_count (current_error (handler w))
  < 255 ->
  let w' := snd (StateMachine_Execute w) in
  fst (StateMachine_Execute w) = STATE_CRITICAL_ERROR
  /\ ErrorHandler_IsCriticalLock w' = false
  /\ current_state (ctx (StateMachine_Reset w')) = STATE_INIT.
Proof.
  intros Hstd Hl Hcur Hfree Hlevel Hretry w'.
  destruct (recovery_before_event w Hstd Hcur Hfree)
    as (w1 & Hn1 & Hp1 & He1 & Hpend & _).
  destruct (Recovery_OnState_posts w1 Hn1 Hp1) as [Hfail _].
  rewrite He1 in Hfail. specialize (Hfail Hlevel Hretry).
  rewrite Hfail in Hpend. specialize (Hpend ltac:(discriminate)).
  destruct (Execute_standard w Hstd Hl)
    as (Hfst & Hstd' & Hl' & _ & _ & Hcur' & _).
  assert (Hout : tick_outcome w = Some STATE_CRITICAL_ERROR).
  { unfold tick_outcome. rewrite Hpend.
    rewrite bool_decide_eq_true_2 by discriminate.
    rewrite (CheckStateTransition_standard _ w Hstd), Hcur. reflexivity. }
  rewrite Hout in Hcur'. cbn [default] in Hcur'.
  split; [rewrite Hfst; exact Hcur'|]. split; [exact Hl'|].
  apply (Reset_standard w' Hstd'). exact Hl'.
Qed.

Lemma Execute_event_recovery_handler (w : World) :
  standard w ->
  current_state (ctx w) = STATE_RECOVERY ->
  handler (Execute_event w) = handler w.
Proof.
  intros Hstd Hcur. unfold Execute_event.
  case_bool_decide; [|reflexivity].
  destruct (CheckStateTransition _ w) as [target|]; [|reflexivity].
  rewrite PerformStateTransition_unfold, Hcur, (proj1 Hstd). reflexivity.
Qed.

(** The tick in STATE_RECOVERY whose recovery attempt succeeds. *)
Lemma recovery_tick_success (w : World) :
  standard w ->
  critical_lock_active (handler w) = false ->
  current_state (ctx w) = STATE_RECOVERY ->
  pending_event (ctx w) = EVENT_NONE ->
  level (current_error (handler w)) = ERROR_LEVEL_NONE
  \/ (code (current_error (handler w)) = ERROR_CODE_TIMEOUT
      /\ 0 <= retry_count (current_error (handler w))
         < ERROR_MAX_RECOVERY_ATTEMPTS - 1) ->
  fst (StateMachine_Execute w) = STATE_IDLE
  /\ previous_state (ctx (snd (StateMachine_Execute w))) = STATE_RECOVERY
  /\ level (current_error (handler (snd (StateMachine_Execute w))))
     = ERROR_LEVEL_NONE.
Proof.
  intros Hstd Hl Hcur Hfree Hok.
  destruct (recovery_before_event w Hstd Hcur Hfree)
    as (w1 & Hn1 & Hp1 & He1 & Hpend & Herr).
  destruct (Recovery_OnState_posts w1 Hn1 Hp1) as [_ Hsucc].
  rewrite He1 in Hsucc. destruct (Hsucc Hok) as [Hposted Hcleared].
  rewrite Hposted in Hpend. specialize (Hpend ltac:(discriminate)).
  destruct (Execute_standard w Hstd Hl)
    as (Hfst & _ & _ & _ & _ & Hcur' & Hprev & _).
  assert (Hout : tick_outcome w = Some STATE_IDLE).
  { unfold tick_outcome. rewrite Hpend.
    rewrite bool_decide_eq_true_2 by discriminate.
    rewrite (CheckStateTransition_standard _ w Hstd), Hcur. reflexivity. }
  rewrite Hout in Hcur', Hprev. cbn [default] in Hcur'.
  split; [rewrite Hfst; exact Hcur'|].
  split; [rewrite Hprev; exact Hcur|].
  destruct (before_event_standard w Hstd) as (Hlay & _).
  rewrite (Execute_unlocked w Hl). cbv zeta. cbn [snd].
  change (Execute_timeout (current_state (ctx w))
            (Execute_on_state (current_state (ctx w))
               (Execute_on_entry (current_state (ctx w)) w)))
    with (before_event w).
  rewrite Execute_event_recovery_handler.
  - rewrite Herr. exact Hcleared.
  - apply (layout_standard w); assumption.
  - rewrite (layout_current_state _ _ Hlay). exact Hcur.
Qed.

(** X9.  A recovery that succeeds leads to STATE_IDLE.  On the machine
    as the initialisation configures it, in STATE_RECOVERY with the slot
    empty, when there is no active error, or the error has the code
    TIMEOUT and [retry_count] is more than one below the maximum, the
    tick posts EVENT_RECOVERY_SUCCESS and returns STATE_IDLE, and the
    error is cleared. *)
Theorem successful_recovery_leads_to_idle (w : World) :
  standard w ->
  critical_lock_active (handler w) = false ->
  current_state (ctx w) = STATE_RECOVERY ->
  pending_event (ctx w) = EVENT_NONE ->
  level (current_error (handler w)) = ERROR_LEVEL_NONE
  \/ (code (current_error (handler w)) = ERROR_CODE_TIMEOUT
      /\ 0 <= retry_count (current_error (handler w))
         < ERROR_MAX_RECOVERY_ATTEMPTS - 1) ->
  fst (StateMachine_Execute w) = STATE_IDLE
  /\ previous_state (ctx (snd (StateMachine_Execute w))) = STATE_RECOVERY
  /\ level (current_error (handler (snd (StateMachine_Execute w))))
     = ERROR_LEVEL_NONE.
Proof.
  intros Hstd Hl Hcur Hfree Hok.
  destruct (recovery_before_event w Hstd Hcur Hfree)
    as (w1 & Hn1 & Hp1 & He1 & Hpend & Herr).
  destruct (Recovery_OnState_posts w1 Hn1 Hp1) as [_ Hsucc].
  rewrite He1 in Hsucc. destruct (Hsucc Hok) as [Hposted Hcleared].
  rewrite Hposted in Hpend. specialize (Hpend ltac:(discriminate)).
  destruct (Execute_standard w Hstd Hl)
    as (Hfst & _ & _ & _ & _ & Hcur' & Hprev & _).
  assert (Hout : tick_outcome w = Some STATE_IDLE).
  { unfold tick_outcome. rewrite Hpend.
    rewrite bool_decide_eq_true_2 by discriminate.
    rewrite (CheckStateTransition_standard _ w Hstd), Hcur. reflexivity. }
  rewrite Hout in Hcur', Hprev. cbn [default] in Hcur'.
  split; [rewrite Hfst; exact Hcur'|].
  split; [rewrite Hprev; exact Hcur|].
  destruct (before_event_standard w Hstd) as (Hlay & _).
  rewrite (Execute_unlocked w Hl). cbv zeta. cbn [snd].
  change (Execute_timeout (current_state (ctx w))
            (Execute_on_state (current_state (ctx w))
               (Execute_on_entry (current_state (ctx w)) w)))
    with (before_event w).
  rewrite Execute_event_recovery_handler.
  - rewrite Herr. exact Hcleared.
  - apply (layout_standard w); assumption.
  - rewrite (layout_current_state _ _ Hlay). exact Hcur.
Qed.

(** *** Reset *)

Lemma startup_on_exit_ctx (s : StateMachineState_t) (w : World) :
  ctx (call_if_set (on_exit (startup_table s)) w) = ctx w
  /\ g_state_data (call_if_set (on_exit (startup_table s))
                     (set_state_data zero_StateData w))
     = zero_StateData.
Proof. destruct s; split; reflexivity. Qed.

(** X10.  [StateMachine_Reset] on the machine as the initialisation
    configures it.  With the lockout active it changes nothing.
    Otherwise it leaves the machine in STATE_INIT with [state_changed]
    set and the state it left in [previous_state], the current error
    cleared and the data of the callbacks zeroed; it does not empty the
    slot: an event pending before the reset is pending after it. *)
Theorem reset_returns_to_init_and_keeps_the_slot (w : World) :
  standard w ->
  (critical_lock_active (handler w) = true -> StateMachine_Reset w = w)
  /\ (critical_lock_active (handler w) = false ->
      let w' := StateMachine_Reset w in
      current_state (ctx w') = STATE_INIT
      /\ previous_state (ctx w') = current_state (ctx w)
      /\ state_changed (ctx w') = true
      /\ level (current_error (handler w')) = ERROR_LEVEL_NONE
      /\ code (current_error (handler w')) = ERROR_CODE_NONE
      /\ retry_count (current_error (handler w')) = 0
      /\ g_state_data w' = zero_StateData
      /\ pending_event (ctx w') = pending_event (ctx w)).
Proof.
  intros Hstd. unfold StateMachine_Reset. split.
  - intros Hl. rewrite Hl. reflexivity.
  - intros Hl. rewrite Hl. cbv zeta.
    rewrite PerformStateTransition_unfold. cbv zeta.
    set (w1 := set_state_data zero_StateData (ErrorHandler_ClearError w)).
    assert (Ht : g_state_table w1 (current_state (ctx w1))
                 = startup_table (current_state (ctx w)))
      by apply Hstd.
    rewrite Ht.
    destruct (startup_on_exit_ctx (current_state (ctx w))
                (ErrorHandler_ClearError w)) as [_ Hdata].
    destruct (startup_on_exit_ctx (current_state (ctx w)) w1) as [Hctx _].
    fold w1 in Hdata.
    set (w2 := call_if_set _ w1) in *. clearbody w2.
    unfold handler, ctx in *. cbn. rewrite Hctx.
    repeat split; try reflexivity. exact Hdata.
Qed.

(** *** The timeout with the startup table *)

Lemma before_timeout_layout (w : World) :
  standard w ->
  layout (before_timeout w) = layout w.
Proof.
  intros Hstd. unfold before_timeout.
  set (s := current_state (ctx w)).
  assert (H1 : layout (Execute_on_entry s w) = layout w).
  { unfold Execute_on_entry. destruct (state_changed (ctx w)); [|reflexivity].
    assert (Hq : quiet w (call_if_set (on_entry (g_state_table w s)) w)).
    { apply call_if_set_quiet; [|apply Hstd].
      intros cb Hcb. apply (startup_callbacks_builtin s).
      left. rewrite <- (proj1 Hstd s). exact Hcb. }
    destruct (quiet_fields _ _ Hq) as (Hl & _). exact Hl. }
  set (w1 := Execute_on_entry s w) in *.
  assert (Hstd1 : standard w1) by (apply (layout_standard w); assumption).
  assert (Hq2 : quiet w1 (call_if_set (on_state (g_state_table w1 s)) w1)).
  { apply call_if_set_quiet; [|apply Hstd1].
    intros cb Hcb. apply (startup_callbacks_builtin s).
    right; left. rewrite <- (proj1 Hstd1 s). exact Hcb. }
  destruct (quiet_fields _ _ Hq2) as (Hl2 & _).
  unfold Execute_on_state. rewrite <- H1, <- Hl2. reflexivity.
Qed.

(** X11.  With the startup table a timeout does change the state, in
    the tick that finds it.  On the machine as the initialisation
    configures it, when a tick with the lockout inactive finds the
    timeout of its state elapsed and the slot empty, it returns
    STATE_RECOVERY, or STATE_CRITICAL_ERROR when the state was
    STATE_RECOVERY: every state that has a timeout has a rule for
    EVENT_TIMEOUT. *)
Theorem timeout_leaves_the_state_with_the_startup_table (w : World) :
  standard w ->
  critical_lock_active (handler w) = false ->
  0 < timeout_ms (startup_table (current_state (ctx w))) ->
  fst (Platform_IsTimeout (state_entry_time (ctx (before_timeout w)))
         (timeout_ms (startup_table (current_state (ctx w))))
         (before_timeout w)) = true ->
  pending_event (ctx (before_timeout w)) = EVENT_NONE ->
  fst (StateMachine_Execute w)
  = (if bool_decide (current_state (ctx w) = STATE_RECOVERY)
     then STATE_CRITICAL_ERROR else STATE_RECOVERY)
  /\ fst (StateMachine_Execute w) <> current_state (ctx w)
  /\ previous_state (ctx (snd (StateMachine_Execute w)))
     = current_state (ctx w).
Proof.
  intros Hstd Hl HT Hexp Hfree.
  pose proof (before_timeout_layout w Hstd) as Hlay.
  assert (Htable : g_state_table (before_timeout w) (current_state (ctx w))
                   = startup_table (current_state (ctx w))).
  { rewrite (layout_table _ _ Hlay). apply Hstd. }
  assert (Hpend : pending_event (ctx (before_event w)) = EVENT_TIMEOUT).
  { change (before_event w)
      with (Execute_timeout (current_state (ctx w)) (before_timeout w)).
    rewrite Execute_timeout_fires by (rewrite Htable; assumption).
    rewrite PostEvent_free; [reflexivity | discriminate | exact Hfree]. }
  destruct (Execute_standard w Hstd Hl)
    as (Hfst & _ & _ & _ & _ & Hcur & Hprev & _).
  assert (Hout : tick_outcome w
                 = first_match
                     (rules_of (startup_table (current_state (ctx w))))
                     EVENT_TIMEOUT).
  { unfold tick_outcome. rewrite Hpend.
    rewrite bool_decide_eq_true_2 by discriminate.
    apply CheckStateTransition_standard. exact Hstd. }
  rewrite Hout in Hcur, Hprev. rewrite Hfst, Hcur, Hprev.
  destruct (current_state (ctx w)); vm_compute in HT; try discriminate HT;
    cbn; repeat split; discriminate.
Qed.

(** *** Adding transitions *)

Lemma AddTransition_unfold (s : StateMachineState_t)
  (ev : StateMachineEvent_t) (target : StateMachineState_t) (w : World) :
  StateMachine_AddTransition s ev target w
  = if bool_decide
         (SM_MAX_TRANSITIONS_PER_STATE <= transition_count (g_state_table w s))
    then (false, w)
    else
      (true,
       upd_config s
         (fun c =>
            set_transition_count (u8 (transition_count c + 1))
              (set_rule (Z.to_nat (transition_count c)) ev target c)) w).
Proof.
  unfold StateMachine_AddTransition.
  rewrite !state_index_in_range.
  replace (bool_decide (EVENT_MAX <= event_index ev)) with false
    by (destruct ev; reflexivity).
  reflexivity.
Qed.

Lemma AddTransition_room (s : StateMachineState_t)
  (ev : StateMachineEvent_t) (target : StateMachineState_t) (w : World) :
  row_wf (g_state_table w s) ->
  transition_count (g_state_table w s) < SM_MAX_TRANSITIONS_PER_STATE ->
  let w' := snd (StateMachine_AddTransition s ev target w) in
  fst (StateMachine_AddTransition s ev target w) = true
  /\ rules_of (g_state_table w' s)
     = rules_of (g_state_table w s)
         ++ [{| event := ev; next_state := target |}]
  /\ transition_count (g_state_table w' s)
     = transition_count (g_state_table w s) + 1
  /\ row_wf (g_state_table w' s)
  /\ (forall s', s' <> s -> g_state_table w' s' = g_state_table w s')
  /\ g_sm_context w' = g_sm_context w.
Proof.
  intros [[Hlow Hhigh] Hlen] Hroom. rewrite AddTransition_unfold.
  rewrite bool_decide_eq_false_2 by lia. cbn [fst snd].
  unfold upd_config. cbn [g_state_table set_state_table g_sm_context].
  rewrite decide_True by reflexivity.
  set (row := g_state_table w s) in *.
  unfold SM_MAX_TRANSITIONS_PER_STATE in *.
  assert (Hu8 : u8 (transition_count row + 1) = transition_count row + 1)
    by (unfold u8; apply Z.mod_small; lia).
  assert (Hn : (Z.to_nat (transition_count row) < length (transitions row))%nat)
    by lia.
  split; [reflexivity|]. split; [|split; [|split; [|split]]].
  - unfold rules_of. cbn. rewrite Hu8.
    replace (Z.to_nat (transition_count row + 1))
      with (S (Z.to_nat (transition_count row))) by lia.
    rewrite (take_S_r _ _ {| event := ev; next_state := target |})
      by (apply list_lookup_insert_eq; exact Hn).
    rewrite take_insert_ge by lia. reflexivity.
  - cbn. exact Hu8.
  - split; cbn; unfold SM_MAX_TRANSITIONS_PER_STATE;
      [rewrite Hu8; lia | rewrite length_insert; exact Hlen].
  - intros s' Hne. rewrite decide_False by exact Hne. reflexivity.
  - reflexivity.
Qed.

Lemma AddTransition_full (s : StateMachineState_t)
  (ev : StateMachineEvent_t) (target : StateMachineState_t) (w : World) :
  SM_MAX_TRANSITIONS_PER_STATE <= transition_count (g_state_table w s) ->
  StateMachine_AddTransition s ev target w = (false, w).
Proof.
  intros Hfull. rewrite AddTransition_unfold.
  rewrite bool_decide_eq_true_2 by exact Hfull. reflexivity.
Qed.

(** X12.  A row takes rules until its SM_MAX_TRANSITIONS_PER_STATE
    slots are used and rejects the rest.  Of a sequence of
    [StateMachine_AddTransition] calls for one state, the first ones,
    as many as the row has free slots, return true and append their
    rules to the row's list in that order; all later calls return false
    and change nothing.  The rows of the other states are unchanged. *)
Theorem row_takes_rules_until_full (s : StateMachineState_t)
  (rules : list (StateMachineEvent_t * StateMachineState_t)) (w : World) :
  row_wf (g_state_table w s) ->
  let free :=
    Z.to_nat
      (SM_MAX_TRANSITIONS_PER_STATE - transition_count (g_state_table w s)) in
  let w' := snd (add_transitions s rules w) in
  fst (add_transitions s rules w)
  = replicate (length rules `min` free) true
      ++ replicate (length rules - free) false
  /\ rules_of (g_state_table w' s)
     = rules_of (g_state_table w s)
         ++ map (fun r => {| event := fst r; next_state := snd r |})
              (take free rules)
  /\ row_wf (g_state_table w' s)
  /\ (forall s', s' <> s -> g_state_table w' s' = g_state_table w s').
Proof.
  revert w. induction rules as [|[ev target] rules IH]; intros w Hwf.
  - cbn. rewrite take_nil, app_nil_r. auto.
  - cbv zeta. cbn [add_transitions].
    destruct (decide (transition_count (g_state_table w s)
                      < SM_MAX_TRANSITIONS_PER_STATE)) as [Hroom|Hfull].
    + destruct (AddTransition_room s ev target w Hwf Hroom)
        as (Hok & Hrules & Hcount & Hwf1 & Hother & _).
      destruct (StateMachine_AddTransition s ev target w) as [ok w1].
      cbn [fst snd] in *. subst ok.
      specialize (IH w1 Hwf1). cbv zeta in IH.
      destruct (add_transitions s rules w1) as [oks w2].
      cbn [fst snd] in *. destruct IH as (IH1 & IH2 & IH3 & IH4).
      rewrite Hcount in IH1, IH2.
      destruct Hwf as [[Hlow Hhigh] _].
      unfold SM_MAX_TRANSITIONS_PER_STATE in *.
      replace (Z.to_nat (5 - transition_count (g_state_table w s)))
        with (S (Z.to_nat (5 - (transition_count (g_state_table w s) + 1))))
        by lia.
      split; [|split; [|split]].
      * rewrite IH1. reflexivity.
      * rewrite IH2, Hrules, <- app_assoc. reflexivity.
      * exact IH3.
      * intros s' Hne. rewrite IH4, Hother by exact Hne. reflexivity.
    + rewrite AddTransition_full by lia.
      specialize (IH w Hwf). cbv zeta in IH.
      destruct (add_transitions s rules w) as [oks w2].
      cbn [fst snd] in *. destruct IH as (IH1 & IH2 & IH3 & IH4).
      replace (Z.to_nat (SM_MAX_TRANSITIONS_PER_STATE
                         - transition_count (g_state_table w s)))
        with 0%nat in * by lia.
      rewrite Nat.min_0_r, Nat.sub_0_r in *. cbn [replicate app] in *.
      split; [|split; [|split]]; try assumption.
      rewrite IH1. reflexivity.
Qed.

(** X13.  A rule added with [StateMachine_AddTransition] is found by
    the lookup exactly when the state had no rule for its event before:
    in the state it was added to, the lookup of any event gives what it
    gave before, if it gave something, and otherwise the new target for
    the new rule's event; an added rule never overrides an older one. *)
Theorem added_rule_is_found_unless_shadowed (s : StateMachineState_t)
  (ev ev' : StateMachineEvent_t) (target : StateMachineState_t) (w : World) :
  row_wf (g_state_table w s) ->
  transition_count (g_state_table w s) < SM_MAX_TRANSITIONS_PER_STATE ->
  current_state (ctx w) = s ->
  CheckStateTransition ev' (snd (StateMachine_AddTransition s ev target w))
  = match CheckStateTransition ev' w with
    | Some old => Some old
    | None => if bool_decide (ev = ev') then Some target else None
    end.
Proof.
  intros Hwf Hroom Hcur.
  destruct (AddTransition_room s ev target w Hwf Hroom)
    as (_ & Hrules & _ & _ & _ & Hctx).
  rewrite !CheckStateTransition_first_match. unfold ctx.
  rewrite Hctx. fold (ctx w). rewrite Hcur, Hrules, first_match_app.
  reflexivity.
Qed.

(** *** Array bounds *)

Lemma bounds_shape (w w' : World) :
  shape w' = shape w -> bounds_ok w -> bounds_ok w'.
Proof.
  unfold shape, history_of, bounds_ok, history_wf. intros Hs [Ht Hh].
  assert (H1 : g_state_table w' = g_state_table w) by congruence.
  assert (H2 : error_history (handler w') = error_history (handler w))
    by congruence.
  assert (H3 : history_index (handler w') = history_index (handler w))
    by congruence.
  rewrite H1, H2, H3. split; assumption.
Qed.

Lemma quiet_shape (w w' : World) : quiet w w' -> shape w' = shape w.
Proof.
  intros Hq. destruct (quiet_fields _ _ Hq) as (Hl & _ & _ & _ & _ & Hh & _).
  unfold shape. rewrite Hh, (layout_table _ _ Hl). reflexivity.
Qed.

Lemma bounds_quiet (w w' : World) : quiet w w' -> bounds_ok w -> bounds_ok w'.
Proof. intros Hq. apply bounds_shape, quiet_shape, Hq. Qed.

Lemma Init_bounds (w : World) : bounds_ok (snd (StateMachine_Init w)).
Proof.
  split.
  - intros s. destruct s; (split; [split|]); vm_compute;
      try reflexivity; discriminate.
  - (split; [|split]); vm_compute; try reflexivity; discriminate.
Qed.

Lemma Report_bounds (l : ErrorLevel_t) (c : ErrorCode_t) (w : World) :
  bounds_ok w -> bounds_ok (snd (ErrorHandler_Report l c w)).
Proof.
  intros [Ht Hh]. split.
  - destruct (Report_layout l c w) as [Hl _].
    rewrite (layout_table _ _ Hl). exact Ht.
  - apply Report_history_wf. exact Hh.
Qed.

Lemma HandleMinorError_bounds (c : ErrorCode_t) (w : World) :
  bounds_ok w -> bounds_ok (snd (ErrorHandler_HandleMinorError c w)).
Proof.
  apply bounds_shape. unfold shape.
  destruct (HandleMinorError_layout c w) as [Hl _].
  rewrite HandleMinorError_history, (layout_table _ _ Hl). reflexivity.
Qed.

Lemma HandleCriticalError_bounds (c : ErrorCode_t) (w : World) :
  bounds_ok w -> bounds_ok (ErrorHandler_HandleCriticalError c w).
Proof.
  apply bounds_shape. unfold shape.
  destruct (HandleCriticalError_layout c w) as [Hl _].
  rewrite HandleCriticalError_history, (layout_table _ _ Hl). reflexivity.
Qed.

Lemma AddTransition_bounds (s : StateMachineState_t)
  (ev : StateMachineEvent_t) (target : StateMachineState_t) (w : World) :
  bounds_ok w -> bounds_ok (snd (StateMachine_AddTransition s ev target w)).
Proof.
  intros [Ht Hh].
  destruct (decide (transition_count (g_state_table w s)
                    < SM_MAX_TRANSITIONS_PER_STATE)) as [Hroom|Hfull].
  - destruct (AddTransition_room s ev target w (Ht s) Hroom)
      as (_ & _ & _ & Hwf & Hother & Hctx).
    split.
    + intros s'. destruct (decide (s' = s)) as [->|Hne]; [exact Hwf|].
      rewrite Hother by exact Hne. apply Ht.
    + unfold handler, ctx. rewrite Hctx. exact Hh.
  - rewrite AddTransition_full by lia. split; assumption.
Qed.

Lemma upd_config_bounds (s : StateMachineState_t)
  (f : StateConfig_t -> StateConfig_t) (w : World) :
  (forall c, transitions (f c) = transitions c
             /\ transition_count (f c) = transition_count c) ->
  bounds_ok w -> bounds_ok (upd_config s f w).
Proof.
  intros Hf [Ht Hh]. split; [|exact Hh].
  intros s'. unfold upd_config. cbn.
  destruct (decide (s' = s)) as [->|Hne]; [|apply Ht].
  destruct (Hf (g_state_table w s)) as [H1 H2].
  unfold row_wf. rewrite H1, H2. apply Ht.
Qed.

Section Bounds.

(** The application's callbacks and recovery handlers keep the arrays
    as they find them. *)
Hypothesis application_callback_bounds :
  forall id w, bounds_ok w -> bounds_ok (application_callback id w).
Hypothesis application_recovery_bounds :
  forall id c w, bounds_ok w -> bounds_ok (snd (application_recovery id c w)).

Lemma AttemptRecovery_bounds (w : World) :
  bounds_ok w -> bounds_ok (snd (ErrorHandler_AttemptRecovery w)).
Proof using application_recovery_bounds.
  unfold ErrorHandler_AttemptRecovery. intros Hb.
  case_bool_decide; [exact Hb|].
  set (w1 := upd_current_error _ w).
  assert (Hb1 : bounds_ok w1) by exact Hb. clearbody w1.
  case_bool_decide; [exact Hb1|].
  destruct (g_recovery_handlers w1 _) as [id|].
  - apply application_recovery_bounds. exact Hb1.
  - destruct (code (current_error (handler w1))); try exact Hb1.
    pose proof (VerifyCommChannel_quiet w1) as Hv.
    destruct (ErrorHandler_VerifyCommChannel w1) as [verified w2].
    cbn [snd] in Hv. pose proof (bounds_quiet _ _ Hv Hb1) as Hb2.
    destruct verified; exact Hb2.
Qed.

Lemma callback_body_bounds (cb : Callback) (w : World) :
  bounds_ok w -> bounds_ok (callback_body cb w).
Proof using application_callback_bounds application_recovery_bounds.
  intros Hb.
  destruct cb; cbn [callback_body]; try exact Hb;
    try (case_bool_decide;
         [apply (bounds_quiet _ _ (PostEvent_quiet _ _))|]; exact Hb).
  - set (w1 := if negb _ then _ else w).
    assert (Hb1 : bounds_ok w1) by (unfold w1; case_match; exact Hb).
    clearbody w1. case_bool_decide; [|exact Hb1].
    pose proof (VerifyCommChannel_quiet w1) as Hv.
    destruct (ErrorHandler_VerifyCommChannel w1) as [verified w2].
    cbn [snd] in Hv. pose proof (bounds_quiet _ _ Hv Hb1) as Hb2.
    destruct verified; [|exact Hb2].
    apply (bounds_quiet _ _ (PostEvent_quiet _ _)). exact Hb2.
  - pose proof (AttemptRecovery_bounds w Hb) as Ha.
    destruct (ErrorHandler_AttemptRecovery w) as [ok w1]. cbn [snd] in Ha.
    destruct ok.
    + apply (bounds_quiet _ _ (PostEvent_quiet _ _)). exact Ha.
    + cbn. case_bool_decide; [|exact Ha].
      apply (bounds_quiet _ _ (PostEvent_quiet _ _)). exact Ha.
  - apply application_callback_bounds. exact Hb.
Qed.

Lemma call_if_set_bounds (p : option Callback) (w : World) :
  bounds_ok w -> bounds_ok (call_if_set p w).
Proof using application_callback_bounds application_recovery_bounds.
  intros Hb. destruct p as [cb|]; [|exact Hb].
  apply callback_body_bounds. exact Hb.
Qed.

Lemma PerformStateTransition_bounds (s : StateMachineState_t) (w : World) :
  bounds_ok w -> bounds_ok (PerformStateTransition s w).
Proof using application_callback_bounds application_recovery_bounds.
  intros Hb. rewrite PerformStateTransition_unfold.
  apply (call_if_set_bounds
           (on_exit (g_state_table w (current_state (ctx w)))) w Hb).
Qed.

Lemma Execute_bounds (w : World) :
  bounds_ok w -> bounds_ok (snd (StateMachine_Execute w)).
Proof using application_callback_bounds application_recovery_bounds.
  intros Hb. unfold StateMachine_Execute.
  destruct (critical_lock_active (handler w)); cbn [snd].
  - case_bool_decide; [apply PerformStateTransition_bounds|]; exact Hb.
  - set (s := current_state (ctx w)).
    assert (H1 : bounds_ok (Execute_on_entry s w)).
    { unfold Execute_on_entry. destruct (state_changed (ctx w)); [|exact Hb].
      apply (call_if_set_bounds (on_entry (g_state_table w s)) w Hb). }
    set (w1 := Execute_on_entry s w) in *. clearbody w1.
    assert (H2 : bounds_ok (Execute_on_state s w1)).
    { unfold Execute_on_state.
      apply (call_if_set_bounds (on_state (g_state_table w1 s)) w1 H1). }
    set (w2 := Execute_on_state s w1) in *. clearbody w2.
    assert (H3 : bounds_ok (Execute_timeout s w2)).
    { destruct (Execute_timeout_handler s w2) as [Hh _].
      unfold Execute_timeout in *. case_bool_decide; [|exact H2].
      pose proof (IsTimeout_world (state_entry_time (ctx w2))
                    (timeout_ms (g_state_table w2 s)) w2) as Hw.
      destruct (Platform_IsTimeout _ _ w2) as [expired w'].
      cbn [snd] in Hw. subst w'.
      destruct expired; [|exact H2].
      apply (bounds_quiet _ _ (PostEvent_quiet _ _)). exact H2. }
    set (w3 := Execute_timeout s w2) in *. clearbody w3.
    unfold Execute_event. case_bool_decide; [|exact H3].
    destruct (CheckStateTransition _ w3) as [next|]; [|exact H3].
    apply (PerformStateTransition_bounds next w3 H3).
Qed.

Lemma run_call_bounds (call : ApiCall) (w : World) :
  bounds_ok w -> bounds_ok (run_call call w).
Proof using application_callback_bounds application_recovery_bounds.
  intros Hb. destruct call; cbn [run_call].
  - apply Execute_bounds. exact Hb.
  - apply (bounds_quiet _ _ (PostEvent_quiet _ _)). exact Hb.
  - unfold StateMachine_Reset.
    destruct (critical_lock_active (handler w)); [exact Hb|].
    apply PerformStateTransition_bounds. exact Hb.
  - exact Hb.
  - apply AddTransition_bounds. exact Hb.
  - unfold StateMachine_SetStateTimeout. rewrite state_index_in_range.
    apply upd_config_bounds; [intros c; split; reflexivity | exact Hb].
  - unfold StateMachine_SetStateCallbacks. rewrite state_index_in_range.
    apply upd_config_bounds; [intros c; split; reflexivity | exact Hb].
  - apply Report_bounds. exact Hb.
  - apply HandleMinorError_bounds. exact Hb.
  - apply (bounds_quiet _ _ (HandleNormalError_quiet _ _)). exact Hb.
  - apply HandleCriticalError_bounds. exact Hb.
  - apply AttemptRecovery_bounds. exact Hb.
  - exact Hb.
  - apply (bounds_quiet _ _ (VerifyCommChannel_quiet _)). exact Hb.
  - unfold ErrorHandler_RegisterRecoveryHandler. case_match; exact Hb.
Qed.

End Bounds.


(** *** From the initialisation to STATE_IDLE *)

Lemma Execute_event_handler (w : World) :
  standard w -> handler (Execute_event w) = handler w.
Proof.
  intros Hstd. unfold Execute_event.
  case_bool_decide; [|reflexivity].
  destruct (CheckStateTransition _ w) as [target|]; [|reflexivity].
  rewrite PerformStateTransition_unfold, (proj1 Hstd).
  destruct (current_state (ctx w)); reflexivity.
Qed.

Lemma Execute_event_nothing (w : World) :
  pending_event (ctx w) = EVENT_NONE -> Execute_event w = w.
Proof.
  intros H. unfold Execute_event.
  rewrite bool_decide_eq_false_2; [reflexivity|].
  intros Hne. apply Hne. exact H.
Qed.

(** The tick in STATE_IDLE up to the processing of the event. *)
Lemma idle_before_event (w : World) :
  standard w ->
  current_state (ctx w) = STATE_IDLE ->
  pending_event (ctx w) = EVENT_NONE ->
  handler (before_event w) = handler w
  /\ pending_event (ctx (before_event w)) = EVENT_NONE.
Proof.
  intros [Ht Hh] Hcur Hfree. unfold before_event. rewrite Hcur.
  set (w1 := Execute_on_entry STATE_IDLE w).
  assert (H1 : g_state_table w1 = g_state_table w
               /\ handler w1 = handler w
               /\ pending_event (ctx w1) = EVENT_NONE).
  { unfold w1, Execute_on_entry. rewrite Ht.
    change (on_entry (startup_table STATE_IDLE))
      with (Some State_Idle_OnEntry).
    destruct (state_changed (ctx w)); cbn; auto. }
  destruct H1 as (Ht1 & Hh1 & Hp1). clearbody w1.
  set (w2 := Execute_on_state STATE_IDLE w1).
  assert (H2 : g_state_table w2 = g_state_table w
               /\ handler w2 = handler w
               /\ pending_event (ctx w2) = EVENT_NONE).
  { unfold w2, Execute_on_state. rewrite Ht1, Ht.
    change (on_state (startup_table STATE_IDLE))
      with (Some State_Idle_OnState).
    cbn. auto. }
  destruct H2 as (Ht2 & Hh2 & Hp2). clearbody w2.
  unfold Execute_timeout. rewrite Ht2, Ht.
  change (timeout_ms (startup_table STATE_IDLE)) with 0.
  rewrite bool_decide_eq_false_2 by lia. auto.
Qed.

(** The tick in STATE_INIT up to the processing of the event, when the
    state was entered by an earlier tick or by the initialisation. *)
Lemma init_before_event (w : World) :
  standard w ->
  current_state (ctx w) = STATE_INIT ->
  state_changed (ctx w) = false ->
  pending_event (ctx w) = EVENT_NONE ->
  0 <= init_step_count (g_state_data w) <= 4 ->
  handler (before_event w) = handler w
  /\ init_step_count (g_state_data (before_event w))
     = init_step_count (g_state_data w) + 1
  /\ (init_step_count (g_state_data w) = 4 ->
      pending_event (ctx (before_event w)) = EVENT_INIT_COMPLETE)
  /\ (init_step_count (g_state_data w) < 4 ->
      pending_event (ctx (before_event w)) = EVENT_TIMEOUT
      \/ pending_event (ctx (before_event w)) = EVENT_NONE).
Proof.
  intros [Ht Hh] Hcur Hch Hfree Hn. unfold before_event. rewrite Hcur.
  unfold Execute_on_entry. rewrite Hch.
  set (w2 := Execute_on_state STATE_INIT w).
  assert (H2 : g_state_table w2 = g_state_table w
               /\ handler w2 = handler w
               /\ init_step_count (g_state_data w2)
                  = init_step_count (g_state_data w) + 1
               /\ pending_event (ctx w2)
                  = (if bool_decide
                          (5 <= init_step_count (g_state_data w) + 1)
                     then EVENT_INIT_COMPLETE else EVENT_NONE)).
  { unfold w2, Execute_on_state. rewrite Ht.
    change (on_state (startup_table STATE_INIT))
      with (Some State_Init_OnState).
    unfold call_if_set, run_callback. cbn [callback_body].
    set (w1 := set_callback_log _ w).
    assert (Hu : u32 (init_step_count (g_state_data w1) + 1)
                 = init_step_count (g_state_data w) + 1).
    { unfold w1. cbn. unfold u32. rewrite Z.mod_small; lia. }
    cbn [g_state_data set_state_data init_step_count]. rewrite Hu.
    case_bool_decide.
    - rewrite PostEvent_free; [|discriminate|exact Hfree].
      cbn. auto.
    - cbn. auto. }
  destruct H2 as (Ht2 & Hh2 & Hd2 & Hp2). clearbody w2.
  destruct (Execute_timeout_handler STATE_INIT w2) as [Hh3 Hk3].
  assert (Hd3 : g_state_data (Execute_timeout STATE_INIT w2)
                = g_state_data w2
                /\ (pending_event (ctx w2) = EVENT_NONE ->
                    pending_event (ctx (Execute_timeout STATE_INIT w2))
                    = EVENT_TIMEOUT
                    \/ pending_event (ctx (Execute_timeout STATE_INIT w2))
                       = EVENT_NONE)).
  { unfold Execute_timeout.
    destruct (bool_decide (0 < timeout_ms _)); [|auto].
    pose proof (IsTimeout_world (state_entry_time (ctx w2))
                  (timeout_ms (g_state_table w2 STATE_INIT)) w2) as Hw.
    destruct (Platform_IsTimeout _ _ w2) as [expired w'].
    cbn [snd] in Hw. subst w'. destruct expired; [|auto].
    split.
    - destruct (PostEvent_cases EVENT_TIMEOUT (snd (Platform_GetTimeMs w2)))
        as [-> | (_ & _ & ->)]; reflexivity.
    - intros Hp. rewrite PostEvent_free; [left; reflexivity|discriminate|].
      exact Hp. }
  destruct Hd3 as [Hd3 Hp3].
  split; [rewrite Hh3; exact Hh2|].
  split; [rewrite Hd3; exact Hd2|].
  split.
  - intros H4. rewrite Hk3; rewrite Hp2, bool_decide_eq_true_2 by lia;
      [reflexivity | discriminate].
  - intros H4. apply Hp3. rewrite Hp2, bool_decide_eq_false_2 by lia.
    reflexivity.
Qed.

Lemma boot_tick (r : nat) (w : World) :
  boot_phase r w -> boot_phase (r - 1) (snd (StateMachine_Execute w)).
Proof.
  intros (Hstd & Hl & Hfree & Hlevel & Hcase).
  destruct (Execute_standard w Hstd Hl)
    as (Hfst & Hstd' & Hl' & _ & Hfree' & Hcur' & _ & Hch' & _).
  assert (Hrun : snd (StateMachine_Execute w)
                 = Execute_event (before_event w)).
  { rewrite (Execute_unlocked w Hl). reflexivity. }
  destruct (before_event_standard w Hstd) as (Hlay & _).
  assert (Hstdb : standard (before_event w))
    by (apply (layout_standard w); assumption).
  assert (Hhandler :
            handler (before_event w) = handler w ->
            level (current_error (handler (snd (StateMachine_Execute w))))
            = ERROR_LEVEL_NONE).
  { intros Hb. rewrite Hrun, (Execute_event_handler _ Hstdb), Hb.
    exact Hlevel. }
  split; [exact Hstd'|]. split; [exact Hl'|]. split; [exact Hfree'|].
  destruct Hcase as [Hcur | [[Hcur Hr] | (Hcur & Hch & Hn & Hr)]].
  - destruct (idle_before_event w Hstd Hcur Hfree) as [Hb Hp].
    split; [apply Hhandler, Hb|]. left.
    rewrite Hcur'. unfold tick_outcome. rewrite Hp.
    rewrite bool_decide_eq_false_2 by (intros H; apply H; reflexivity).
    exact Hcur.
  - destruct (recovery_tick_success w Hstd Hl Hcur Hfree (or_introl Hlevel))
      as (Hidle & _ & Hlev).
    split; [exact Hlev|]. left. rewrite <- Hfst. exact Hidle.
  - destruct (init_before_event w Hstd Hcur Hch Hfree Hn)
      as (Hb & Hd & H4 & Hlt).
    split; [apply Hhandler, Hb|].
    destruct (decide (init_step_count (g_state_data w) = 4)) as [He|Hne].
    + left. rewrite Hcur'. unfold tick_outcome. rewrite (H4 He).
      rewrite bool_decide_eq_true_2 by discriminate.
      rewrite (CheckStateTransition_standard _ w Hstd), Hcur. reflexivity.
    + destruct (Hlt ltac:(lia)) as [Hp | Hp].
      * right; left. split; [|lia].
        rewrite Hcur'. unfold tick_outcome. rewrite Hp.
        rewrite bool_decide_eq_true_2 by discriminate.
        rewrite (CheckStateTransition_standard _ w Hstd), Hcur. reflexivity.
      * right; right.
        assert (Hout : tick_outcome w = None).
        { unfold tick_outcome. rewrite Hp.
          rewrite bool_decide_eq_false_2; [reflexivity|].
          intros H; apply H; reflexivity. }
        split; [rewrite Hcur', Hout; exact Hcur|].
        split; [rewrite Hch', Hout; reflexivity|].
        rewrite Hrun, (Execute_event_nothing _ Hp), Hd. lia.
Qed.

Lemma boot_ticks (n r : nat) (w : World) :
  boot_phase r w -> boot_phase (r - n) (run_ticks n w).
Proof.
  revert r w. induction n as [|n IH]; intros r w H.
  - rewrite Nat.sub_0_r. exact H.
  - cbn [run_ticks]. replace (r - S n)%nat with (r - 1 - n)%nat by lia.
    apply IH, boot_tick, H.
Qed.

Lemma Init_boot_phase (w0 : World) :
  boot_phase 5 (snd (StateMachine_Init w0)).
Proof.
  split; [apply Init_standard|].
  repeat split; try reflexivity.
  right; right. repeat split; try reflexivity; vm_compute; discriminate.
Qed.

(** X15.  The initialisation runs to STATE_IDLE by itself.  After
    [StateMachine_Init], five ticks with no other call in between leave
    the machine in STATE_IDLE, whatever the clock reads, and further
    ticks keep it there with the slot empty and the lockout inactive:
    either the fifth tick of STATE_INIT posts EVENT_INIT_COMPLETE, or
    the timeout of STATE_INIT fires first, and the tick in
    STATE_RECOVERY that follows finds no error and posts
    EVENT_RECOVERY_SUCCESS. *)
Theorem initialisation_runs_to_idle (w0 : World) (n : nat) :
  let w := run_ticks (5 + n) (snd (StateMachine_Init w0)) in
  StateMachine_GetCurrentState w = STATE_IDLE
  /\ pending_event (ctx w) = EVENT_NONE
  /\ ErrorHandler_IsCriticalLock w = false.
Proof.
  intros w.
  destruct (boot_ticks (5 + n) 5 _ (Init_boot_phase w0))
    as (_ & Hl & Hfree & _ & Hcase).
  fold w in Hl, Hfree, Hcase.
  split; [|split; [exact Hfree | exact Hl]].
  destruct Hcase as [Hcur | [[_ Hr] | (_ & _ & Hn & Hr)]];
    [exact Hcur | lia | lia].
Qed.

(** *** Minor errors *)

Lemma VerifyCommChannel_handler (w : World) :
  handler (snd (ErrorHandler_VerifyCommChannel w)) = handler w.
Proof.
  unfold handler. rewrite VerifyCommChannel_ctx. reflexivity.
Qed.

(** X16.  [ErrorHandler_HandleMinorError] always returns true.  The
    first minor error starts a window at the current reading of the
    clock, a later one finds the window started at
    [minor_error_timestamp].  Within ERROR_MINOR_TIMEOUT_MS of the start
    the call leaves the current error, the slot, the lockout and the
    state as they are.  After that it acts as
    [ErrorHandler_HandleNormalError]: the current error becomes a NORMAL
    one with the given code, EVENT_ERROR_NORMAL goes into an empty slot,
    and the window is not restarted. *)
Theorem minor_error_is_tolerated_within_its_window
  (c : ErrorCode_t) (w : World) :
  let now := fst (Platform_GetTimeMs w) in
  let ts := minor_error_timestamp (handler w) in
  let start := if bool_decide (ts = 0) then now else ts in
  let w' := snd (ErrorHandler_HandleMinorError c w) in
  fst (ErrorHandler_HandleMinorError c w) = true
  /\ (u32 (now - start) <= ERROR_MINOR_TIMEOUT_MS ->
      current_error (handler w') = current_error (handler w)
      /\ pending_event (ctx w') = pending_event (ctx w)
      /\ critical_lock_active (handler w') = critical_lock_active (handler w)
      /\ current_state (ctx w') = current_state (ctx w))
  /\ (ERROR_MINOR_TIMEOUT_MS < u32 (now - start) ->
      level (current_error (handler w')) = ERROR_LEVEL_NORMAL
      /\ code (current_error (handler w')) = c
      /\ retry_count (current_error (handler w')) = 0
      /\ (pending_event (ctx w) = EVENT_NONE ->
          pending_event (ctx w') = EVENT_ERROR_NORMAL)
      /\ minor_error_timestamp (handler w') = ts).
Proof.
  intros now ts start w'. subst w'.
  unfold ErrorHandler_HandleMinorError.
  change (Platform_GetTimeMs w)
    with (now, set_clock_reads (S (clock_reads w)) w).
  cbv beta iota.
  set (w1 := set_clock_reads (S (clock_reads w)) w).
  set (w2 := if bool_decide (minor_error_timestamp (handler w1) = 0)
             then _ else w1).
  assert (H2 : minor_error_timestamp (handler w2) = start
               /\ current_error (handler w2) = current_error (handler w)
               /\ pending_event (ctx w2) = pending_event (ctx w)
               /\ critical_lock_active (handler w2)
                  = critical_lock_active (handler w)
               /\ current_state (ctx w2) = current_state (ctx w)).
  { unfold w2, start, ts.
    change (minor_error_timestamp (handler w1))
      with (minor_error_timestamp (handler w)).
    destruct (bool_decide (minor_error_timestamp (handler w) = 0));
      repeat split; reflexivity. }
  destruct H2 as (Hts & Herr & Hpend & Hlock & Hcur). clearbody w2.
  rewrite Hts.
  destruct (bool_decide (u32 (now - start) <= ERROR_MINOR_TIMEOUT_MS))
    eqn:Hin.
  - apply bool_decide_eq_true_1 in Hin.
    pose proof (VerifyCommChannel_ctx w2) as Hctx.
    destruct (ErrorHandler_VerifyCommChannel w2) as [verified w3].
    cbn [snd] in Hctx.
    assert (H3 : current_error (handler w3) = current_error (handler w)
                 /\ pending_event (ctx w3) = pending_event (ctx w)
                 /\ critical_lock_active (handler w3)
                    = critical_lock_active (handler w)
                 /\ current_state (ctx w3) = current_state (ctx w)).
    { unfold handler, ctx in *. rewrite Hctx. auto. }
    split; [destruct verified; [case_bool_decide|]; reflexivity|].
    split; [|lia]. intros _.
    destruct verified; [case_bool_decide|]; cbn [snd]; try exact H3;
      unfold handler, ctx in *; cbn; exact H3.
  - apply bool_decide_eq_false_1 in Hin.
    unfold ErrorHandler_HandleNormalError.
    change (Platform_GetTimeMs w2)
      with (fst (Platform_GetTimeMs w2),
            set_clock_reads (S (clock_reads w2)) w2).
    cbv beta iota.
    match goal with
    | |- context [StateMachine_PostEvent ?e ?x] =>
        pose proof (PostEvent_handler e x) as Hh;
        pose proof (PostEvent_free e x ltac:(discriminate)) as Hf;
        destruct (StateMachine_PostEvent e x) as [ok w4]
    end.
    cbn [fst snd] in *.
    split; [reflexivity|]. split; [lia|]. intros _. rewrite Hh.
    assert (Hstart : start = ts).
    { destruct (decide (ts = 0)) as [Hz|Hz]; unfold start in *.
      - exfalso. apply Hin. rewrite bool_decide_eq_true_2 by exact Hz.
        rewrite Z.sub_diag. vm_compute. discriminate.
      - rewrite bool_decide_eq_false_2 by exact Hz. reflexivity. }
    repeat split.
    + intros Hfree.
      assert (Hp : pending_event (ctx w2) = EVENT_NONE)
        by (rewrite Hpend; exact Hfree).
      specialize (Hf Hp). injection Hf as _ ->. reflexivity.
    + change (minor_error_timestamp (handler w2) = ts).
      rewrite Hts. exact Hstart.
Qed.

(** *** Reports *)

Lemma HandleMinorError_true (c : ErrorCode_t) (w : World) :
  fst (ErrorHandler_HandleMinorError c w) = true.
Proof.
  unfold ErrorHandler_HandleMinorError.
  destruct (Platform_GetTimeMs w) as [now w1].
  match goal with |- context [if ?b then ?x else w1] => set (w2 := if b then x else w1) end.
  clearbody w2.
  destruct (bool_decide _).
  - destruct (ErrorHandler_VerifyCommChannel w2) as [[|] w3];
      [destruct (bool_decide _)|]; reflexivity.
  - unfold ErrorHandler_HandleNormalError.
    destruct (Platform_GetTimeMs w2) as [now' w3].
    destruct (StateMachine_PostEvent _ _). reflexivity.
Qed.

(** X17.  [ErrorHandler_Report] returns false for ERROR_LEVEL_NONE and
    true for the three other levels.  The rejected report is written to
    the history all the same, in the slot [history_index] pointed to;
    the current error, the slot of the pending event and the lockout are
    not touched by it. *)
Theorem report_of_no_level_is_rejected_but_recorded
  (l : ErrorLevel_t) (c : ErrorCode_t) (w : World) :
  fst (ErrorHandler_Report l c w) = bool_decide (l <> ERROR_LEVEL_NONE)
  /\ (let w' := snd (ErrorHandler_Report ERROR_LEVEL_NONE c w) in
      history_of w'
      = (<[Z.to_nat (history_index (handler w))
           := report_record ERROR_LEVEL_NONE c w]>
           (error_history (handler w)),
         u8 ((history_index (handler w) + 1) mod ERROR_HISTORY_SIZE))
      /\ current_error (handler w') = current_error (handler w)
      /\ pending_event (ctx w') = pending_event (ctx w)
      /\ critical_lock_active (handler w')
         = critical_lock_active (handler w)).
Proof.
  split.
  - unfold ErrorHandler_Report.
    destruct (Platform_GetTimeMs w) as [now w1].
    destruct l; cbn [fst]; try reflexivity.
    + apply HandleMinorError_true.
    + unfold ErrorHandler_HandleNormalError.
      destruct (Platform_GetTimeMs _) as [now' w3].
      destruct (StateMachine_PostEvent _ _). reflexivity.
  - cbv zeta. split; [apply Report_history|].
    repeat split; reflexivity.
Qed.

(** *** The initialisation *)

(** X18.  [StateMachine_Init] starts from nothing: it returns true,
    and the globals it leaves do not depend on the globals it found.
    Two initialisations that read the same time from the clock leave the
    same context, table, callback data, verification window and recovery
    handlers, whatever was configured, registered, reported or locked
    before. *)
Theorem initialisation_forgets_everything (w1 w2 : World) :
  fst (Platform_GetTimeMs w1) = fst (Platform_GetTimeMs w2) ->
  fst (StateMachine_Init w1) = true
  /\ globals_agree (snd (StateMachine_Init w1)) (snd (StateMachine_Init w2)).
Proof.
  intros Hclock. split; [reflexivity|].
  unfold globals_agree.
  assert (Hctx : g_sm_context (snd (StateMachine_Init w1))
                 = g_sm_context (snd (StateMachine_Init w2))).
  { unfold StateMachine_Init. cbn. cbn in Hclock. rewrite Hclock.
    reflexivity. }
  split; [exact Hctx|]. repeat split; reflexivity.
Qed.

(** *** The verification of the channel *)

(** X19.  The channel counts as verified from the third message of a
    window.  When [n] calls of [ErrorHandler_VerifyCommChannel] in a row
    all read the clock within COMM_VERIFICATION_WINDOW_MS of
    [window_start_time], and the counter does not pass 255, the call
    that takes the counter to [k] returns true exactly when
    [COMM_VERIFICATION_COUNT <= k]; the window start is kept and the
    counter ends [n] higher. *)
Theorem channel_is_verified_from_the_third_message (n : nat) (w : World) :
  let v := g_comm_verification w in
  (forall i, (i < n)%nat ->
     u32 (u32 (platform_clock (clock_reads w + i)) - window_start_time v)
     <= COMM_VERIFICATION_WINDOW_MS) ->
  0 <= good_message_count v ->
  good_message_count v + Z.of_nat n <= 255 ->
  fst (verify_times n w)
  = map (fun i => bool_decide (COMM_VERIFICATION_COUNT
                               <= good_message_count v + Z.of_nat i + 1))
        (seq 0 n)
  /\ window_start_time (g_comm_verification (snd (verify_times n w)))
     = window_start_time v
  /\ good_message_count (g_comm_verification (snd (verify_times n w)))
     = good_message_count v + Z.of_nat n.
Proof.
  cbv zeta. revert w. induction n as [|n IH]; intros w Hin Hlow Hhigh.
  - cbn. repeat split; lia.
  - cbn [verify_times].
    assert (Hfirst : ErrorHandler_VerifyCommChannel w
                     = (bool_decide
                          (COMM_VERIFICATION_COUNT
                           <= good_message_count (g_comm_verification w) + 1),
                        set_comm_verification
                          {| window_start_time :=
                               window_start_time (g_comm_verification w);
                             good_message_count :=
                               good_message_count (g_comm_verification w) + 1;
                             is_verified :=
                               if bool_decide
                                    (COMM_VERIFICATION_COUNT
                                     <= good_message_count
                                          (g_comm_verification w) + 1)
                               then true
                               else is_verified (g_comm_verification w) |}
                          (set_clock_reads (S (clock_reads w)) w))).
    { unfold ErrorHandler_VerifyCommChannel.
      change (Platform_GetTimeMs w)
        with (u32 (platform_clock (clock_reads w)),
              set_clock_reads (S (clock_reads w)) w).
      cbv beta iota zeta.
      change (g_comm_verification (set_clock_reads (S (clock_reads w)) w))
        with (g_comm_verification w).
      pose proof (Hin 0%nat ltac:(lia)) as H0.
      rewrite Nat.add_0_r in H0.
      rewrite (bool_decide_eq_true_2 _ H0).
      assert (Hu : u8 (good_message_count (g_comm_verification w) + 1)
                   = good_message_count (g_comm_verification w) + 1).
      { unfold u8. rewrite Z.mod_small; lia. }
      rewrite Hu. case_bool_decide; reflexivity. }
    rewrite Hfirst.
    set (w1 := set_comm_verification _ _).
    specialize (IH w1).
    assert (Hw1 : window_start_time (g_comm_verification w1)
                  = window_start_time (g_comm_verification w)
                  /\ good_message_count (g_comm_verification w1)
                     = good_message_count (g_comm_verification w) + 1
                  /\ clock_reads w1 = S (clock_reads w))
      by (repeat split; reflexivity).
    destruct Hw1 as (Hs1 & Hc1 & Hr1). clearbody w1.
    rewrite Hs1, Hc1, Hr1 in IH.
    destruct IH as (IH1 & IH2 & IH3).
    + intros i Hi. replace (S (clock_reads w) + i)%nat
        with (clock_reads w + S i)%nat by lia.
      apply Hin. lia.
    + lia.
    + lia.
    + destruct (verify_times n w1) as [rest w2]. cbn [fst snd] in *.
      split; [|split; [exact IH2 | lia]].
      cbn [seq map]. f_equal.
      * apply bool_decide_ext. lia.
      * rewrite <- seq_shift, map_map, IH1. apply map_ext. intros i.
        apply bool_decide_ext. lia.
Qed.

(** *** Recovery handlers *)

(** X20.  A registered recovery handler replaces the default logic for
    its code and for no other.  [ErrorHandler_RegisterRecoveryHandler]
    returns true; afterwards an attempt to recover from an error of that
    code, below the maximum of attempts, returns what the handler
    returns, called with the code after [retry_count] was raised; the
    handlers of the other codes are as before, and registering NULL
    gives the code back to the default logic, which recovers an
    ERROR_CODE_TIMEOUT at once. *)
Theorem registered_handler_replaces_the_default_logic
  (c : ErrorCode_t) (id : nat) (w : World) :
  level (current_error (handler w)) <> ERROR_LEVEL_NONE ->
  code (current_error (handler w)) = c ->
  0 <= retry_count (current_error (handler w))
  < ERROR_MAX_RECOVERY_ATTEMPTS - 1 ->
  let w1 := snd (ErrorHandler_RegisterRecoveryHandler c (Some id) w) in
  let w2 := snd (ErrorHandler_RegisterRecoveryHandler c None w1) in
  fst (ErrorHandler_RegisterRecoveryHandler c (Some id) w) = true
  /\ (forall c', c' <> c -> g_recovery_handlers w1 c' = g_recovery_handlers w c')
  /\ ErrorHandler_AttemptRecovery w1
     = application_recovery id c
         (upd_current_error
            (fun e => set_retry_count (u8 (retry_count e + 1)) e) w1)
  /\ (c = ERROR_CODE_TIMEOUT ->
      fst (ErrorHandler_AttemptRecovery w2) = true).
Proof.
  intros Hlevel Hcode Hretry w1 w2.
  assert (Hreg : forall h x,
             ErrorHandler_RegisterRecoveryHandler c h x
             = (true,
                set_recovery_handlers
                  (fun c' => if decide (c' = c) then h
                             else g_recovery_handlers x c') x)).
  { intros h x. unfold ErrorHandler_RegisterRecoveryHandler.
    rewrite bool_decide_eq_false_2; [reflexivity|].
    destruct c; vm_compute; congruence. }
  unfold w2, w1. rewrite !Hreg. cbn [fst snd].
  assert (Hu : u8 (retry_count (current_error (handler w)) + 1)
               = retry_count (current_error (handler w)) + 1).
  { unfold u8. rewrite Z.mod_small; [reflexivity|].
    unfold ERROR_MAX_RECOVERY_ATTEMPTS in Hretry. lia. }
  split; [reflexivity|]. split.
  { intros c' Hne. cbn. destruct (decide (c' = c)); [contradiction|].
    reflexivity. }
  split.
  - unfold ErrorHandler_AttemptRecovery.
    rewrite bool_decide_eq_false_2 by exact Hlevel.
    unfold handler, ctx in *. cbn -[u8]. rewrite Hu.
    rewrite bool_decide_eq_false_2
      by (unfold ERROR_MAX_RECOVERY_ATTEMPTS in *; lia).
    rewrite Hcode.
    destruct (decide (c = c)); [reflexivity|contradiction].
  - intros Htimeout. unfold ErrorHandler_AttemptRecovery.
    rewrite bool_decide_eq_false_2 by exact Hlevel.
    unfold handler, ctx in *. cbn -[u8]. rewrite Hu.
    rewrite bool_decide_eq_false_2
      by (unfold ERROR_MAX_RECOVERY_ATTEMPTS in *; lia).
    rewrite Hcode.
    destruct (decide (c = c)); [|contradiction].
    rewrite Htimeout. reflexivity.
Qed.

End Further.

(** ** The program at work

    The scenarios of section 8 of the specification on the default
    platform, from the zero-initialised globals. *)

Example init_completes_on_the_fifth_tick :
  current_state
    (ctx (run_ticks (platform := simulation_platform) 4 initial_world))
  = STATE_INIT
  /\ current_state
       (ctx (run_ticks (platform := simulation_platform) 5 initial_world))
     = STATE_IDLE.
Proof. vm_compute. split; reflexivity. Qed.

Example start_in_idle_makes_active :
  current_state (ctx idle_world) = STATE_IDLE
  /\ fst (StateMachine_PostEvent EVENT_START idle_world) = true
  /\ fst (StateMachine_Execute (platform := simulation_platform)
            idle_started_world) = STATE_ACTIVE.
Proof. vm_compute. repeat split; reflexivity. Qed.

(** The lockout flag is set by [ErrorHandler_HandleCriticalError] only:
    the machine that reaches STATE_CRITICAL_ERROR through
    EVENT_RECOVERY_FAILED is not locked. *)
Example normal_error_leads_to_recovery_then_critical_error :
  let active :=
    snd (StateMachine_Execute (platform := simulation_platform)
           idle_started_world) in
  let reported :=
    snd (ErrorHandler_Report (platform := simulation_platform)
           ERROR_LEVEL_NORMAL ERROR_CODE_HARDWARE_FAULT active) in
  current_state (ctx active) = STATE_ACTIVE
  /\ map (fun n =>
            current_state
              (ctx (run_ticks (platform := simulation_platform) n reported)))
       [1; 2; 3; 4]%nat
     = [STATE_RECOVERY; STATE_RECOVERY; STATE_RECOVERY; STATE_CRITICAL_ERROR]
  /\ critical_lock_active
       (handler (run_ticks (platform := simulation_platform) 4 reported))
     = false.
Proof. vm_compute. repeat split; reflexivity. Qed.

(** The 8-bit [retry_count] wraps: with the error code TIMEOUT, which the
    default logic always recovers, the attempts fail from the third on
    and succeed again at the 256th, where the counter is back at 0. *)
Example retry_count_wraps_at_256 :
  let failed :=
    snd (ErrorHandler_HandleNormalError (platform := simulation_platform)
           ERROR_CODE_TIMEOUT initial_world) in
  let attempts :=
    attempt_recovery_times (platform := simulation_platform) 256 failed in
  take 4 (fst attempts) = [true; true; false; false]
  /\ fst attempts !! 255%nat = Some true
  /\ retry_count (current_error (handler (snd attempts))) = 0.
Proof. vm_compute. repeat split; reflexivity. Qed.

(** ** The theorems at concrete inputs *)

Lemma critical_lockout_is_absolute_witness :
  (forall id w,
      locked w ->
      locked (application_callback (Platform := simulation_platform) id w))
  /\ (forall id c w,
         locked w ->
         locked
           (snd (application_recovery (Platform := simulation_platform)
                   id c w)))
  /\ pending_event (ctx idle_started_world) <> EVENT_NONE
  /\ pending_event
       (ctx (ErrorHandler_HandleCriticalError
               (platform := simulation_platform) ERROR_CODE_HARDWARE_FAULT
               idle_started_world))
     = pending_event (ctx idle_started_world)
  /\ fst (StateMachine_Execute (platform := simulation_platform)
            (run_calls (platform := simulation_platform)
               [Call_Execute; Call_PostEvent EVENT_STOP; Call_Reset;
                Call_Execute; Call_ClearError]
               (ErrorHandler_HandleCriticalError
                  (platform := simulation_platform) ERROR_CODE_HARDWARE_FAULT
                  idle_started_world)))
     = STATE_CRITICAL_ERROR.
Proof.
  assert (Hcb : forall id w,
             locked w ->
             locked (application_callback (Platform := simulation_platform)
                       id w)) by (intros id w H; exact H).
  assert (Hrec : forall id c w,
             locked w ->
             locked
               (snd (application_recovery (Platform := simulation_platform)
                       id c w))) by (intros id c w H; exact H).
  assert (Hp : pending_event (ctx idle_started_world) <> EVENT_NONE)
    by (vm_compute; discriminate).
  pose proof (critical_lockout_is_absolute
                (platform := simulation_platform) ERROR_CODE_HARDWARE_FAULT
                idle_started_world
                [Call_Execute; Call_PostEvent EVENT_STOP; Call_Reset;
                 Call_Execute; Call_ClearError] Hcb Hrec)
    as (_ & Hdrop & Hlater).
  split; [exact Hcb|]. split; [exact Hrec|]. split; [exact Hp|]. split.
  - exact (proj2 (Hdrop Hp)).
  - exact (proj1 (Hlater _ (or_intror eq_refl))).
Defined.

Lemma only_first_post_succeeds_witness :
  pending_event (ctx idle_world) = EVENT_NONE
  /\ EVENT_START <> EVENT_NONE
  /\ fst (post_events [EVENT_START; EVENT_STOP; EVENT_DATA_READY] idle_world)
     = [true; false; false].
Proof.
  assert (Hp : pending_event (ctx idle_world) = EVENT_NONE)
    by (vm_compute; reflexivity).
  assert (Hne : EVENT_START <> EVENT_NONE) by discriminate.
  split; [exact Hp|]. split; [exact Hne|].
  exact (f_equal fst
           (proj1 (only_first_post_succeeds
                     (platform := simulation_platform) EVENT_START
                     [EVENT_STOP; EVENT_DATA_READY] idle_world Hp Hne))).
Defined.

Lemma transition_follows_first_matching_rule_witness :
  critical_lock_active (handler idle_started_world) = false
  /\ pending_event
       (ctx (before_event (platform := simulation_platform)
               idle_started_world)) = EVENT_START
  /\ EVENT_START <> EVENT_NONE
  /\ current_state
       (ctx (snd (StateMachine_Execute (platform := simulation_platform)
                    idle_started_world))) = STATE_ACTIVE.
Proof.
  assert (Hl : critical_lock_active (handler idle_started_world) = false)
    by (vm_compute; reflexivity).
  assert (Hp : pending_event
                 (ctx (before_event (platform := simulation_platform)
                         idle_started_world)) = EVENT_START)
    by (vm_compute; reflexivity).
  assert (Hne : EVENT_START <> EVENT_NONE) by discriminate.
  split; [exact Hl|]. split; [exact Hp|]. split; [exact Hne|].
  refine (proj1 (proj1 (transition_follows_first_matching_rule
                          (platform := simulation_platform)
                          idle_started_world EVENT_START Hl Hp Hne)
                   []
                   {| event := EVENT_START; next_state := STATE_ACTIVE |}
                   [{| event := EVENT_ERROR_NORMAL;
                       next_state := STATE_RECOVERY |};
                    {| event := EVENT_ERROR_CRITICAL;
                       next_state := STATE_CRITICAL_ERROR |}] _ _ _)).
  - vm_compute. reflexivity.
  - intros x Hx. inversion Hx.
  - reflexivity.
Defined.

Lemma recovery_is_abandoned_at_the_maximum_witness :
  level (current_error (handler twice_failed_world)) <> ERROR_LEVEL_NONE
  /\ 0 <= retry_count (current_error (handler twice_failed_world))
  /\ retry_count (current_error (handler twice_failed_world))
     + Z.of_nat 5 <= 255
  /\ fst (attempt_recovery_times (platform := simulation_platform) 5
            twice_failed_world)
     = [false; false; false; false; false].
Proof.
  assert (Hr : retry_count (current_error (handler twice_failed_world)) = 2)
    by (vm_compute; reflexivity).
  assert (Hlevel : level (current_error (handler twice_failed_world))
                   <> ERROR_LEVEL_NONE) by (vm_compute; discriminate).
  assert (Hlow : 0 <= retry_count (current_error (handler twice_failed_world)))
    by (rewrite Hr; lia).
  assert (Hhigh : retry_count (current_error (handler twice_failed_world))
                  + Z.of_nat 5 <= 255) by (rewrite Hr; lia).
  assert (Hmax : ERROR_MAX_RECOVERY_ATTEMPTS - 1
                 <= retry_count (current_error (handler twice_failed_world)))
    by (rewrite Hr; unfold ERROR_MAX_RECOVERY_ATTEMPTS; lia).
  split; [exact Hlevel|]. split; [exact Hlow|]. split; [exact Hhigh|].
  exact (f_equal fst
           (proj2 (recovery_is_abandoned_at_the_maximum
                     (platform := simulation_platform) twice_failed_world 5
                     Hlevel Hlow Hhigh) Hmax)).
Defined.

(** Against C4 as stated: on the fourth attempt to recover from an error
    without recovery, [retry_count] is 4, above the maximum of 3. *)
Lemma retry_count_exceeds_the_maximum :
  level (current_error (handler failed_world)) <> ERROR_LEVEL_NONE
  /\ fst (attempt_recovery_times (platform := simulation_platform) 4
            failed_world) = [false; false; false; false]
  /\ retry_count
       (current_error
          (handler
             (snd (attempt_recovery_times (platform := simulation_platform) 4
                     failed_world)))) = 4
  /\ ~ (retry_count
          (current_error
             (handler
                (snd (attempt_recovery_times
                        (platform := simulation_platform) 4 failed_world))))
        <= ERROR_MAX_RECOVERY_ATTEMPTS).
Proof.
  assert (Hr : retry_count
                 (current_error
                    (handler
                       (snd (attempt_recovery_times
                               (platform := simulation_platform) 4
                               failed_world)))) = 4)
    by (vm_compute; reflexivity).
  split; [vm_compute; discriminate|].
  split; [vm_compute; reflexivity|]. split; [exact Hr|].
  rewrite Hr. unfold ERROR_MAX_RECOVERY_ATTEMPTS. lia.
Qed.

Lemma history_is_a_ring_witness :
  history_wf (handler initial_world)
  /\ ErrorHandler_GetHistoryError (Z.of_nat 0) (Some zero_ErrorInfo)
       (snd (report_all (platform := simulation_platform) eighteen_reports
               initial_world))
     = (true,
        rev (fst (report_all (platform := simulation_platform)
                    eighteen_reports initial_world)) !! 0%nat)
  /\ history_index
       (handler
          (snd (report_all (platform := simulation_platform) eighteen_reports
                  initial_world)))
     = (history_index (handler initial_world)
        + Z.of_nat (length eighteen_reports)) mod ERROR_HISTORY_SIZE.
Proof.
  assert (Hwf : history_wf (handler initial_world)).
  { split; [vm_compute; reflexivity|].
    change (history_index (handler initial_world)) with 0.
    unfold ERROR_HISTORY_SIZE. lia. }
  pose proof (history_is_a_ring (platform := simulation_platform)
                eighteen_reports initial_world Hwf) as (_ & Hidx & Hread).
  split; [exact Hwf|]. split; [|exact Hidx].
  refine (proj1 (Hread 0%nat zero_ErrorInfo _ _)).
  - vm_compute. lia.
  - unfold ERROR_HISTORY_SIZE. lia.
Defined.

(** The reads after the eighteen reports: the latest report first, the
    third report last; the first two reports are gone. *)
Example history_after_eighteen_reports :
  map (fun k =>
         match
           ErrorHandler_GetHistoryError k
             (Some zero_ErrorInfo)
             (snd (report_all (platform := simulation_platform)
                     eighteen_reports initial_world))
         with
         | (true, Some e) => Some (level e, code e)
         | _ => None
         end)
    [0; 1; 15; 16]
  = [Some (ERROR_LEVEL_CRITICAL, ERROR_CODE_HARDWARE_FAULT);
     Some (ERROR_LEVEL_NORMAL, ERROR_CODE_MEMORY_CORRUPTION);
     Some (ERROR_LEVEL_MINOR, ERROR_CODE_INVALID_DATA);
     None].
Proof. vm_compute. reflexivity. Qed.

Lemma timeout_is_posted_and_consumed_in_the_tick_witness :
  critical_lock_active (handler slow_initial_world) = false
  /\ 0 < timeout_ms
           (g_state_table
              (before_timeout (platform := slow_platform) slow_initial_world)
              (current_state (ctx slow_initial_world)))
  /\ fst (Platform_IsTimeout (platform := slow_platform)
            (state_entry_time
               (ctx (before_timeout (platform := slow_platform)
                       slow_initial_world)))
            (timeout_ms
               (g_state_table
                  (before_timeout (platform := slow_platform)
                     slow_initial_world)
                  (current_state (ctx slow_initial_world))))
            (before_timeout (platform := slow_platform) slow_initial_world))
     = true
  /\ current_state
       (ctx (snd (StateMachine_Execute (platform := slow_platform)
                    slow_initial_world))) = STATE_RECOVERY.
Proof.
  assert (Hl : critical_lock_active (handler slow_initial_world) = false)
    by (vm_compute; reflexivity).
  assert (HT : 0 < timeout_ms
                     (g_state_table
                        (before_timeout (platform := slow_platform)
                           slow_initial_world)
                        (current_state (ctx slow_initial_world))))
    by (vm_compute; reflexivity).
  assert (Hexp : fst (Platform_IsTimeout (platform := slow_platform)
                        (state_entry_time
                           (ctx (before_timeout (platform := slow_platform)
                                   slow_initial_world)))
                        (timeout_ms
                           (g_state_table
                              (before_timeout (platform := slow_platform)
                                 slow_initial_world)
                              (current_state (ctx slow_initial_world))))
                        (before_timeout (platform := slow_platform)
                           slow_initial_world)) = true)
    by (vm_compute; reflexivity).
  split; [exact Hl|]. split; [exact HT|]. split; [exact Hexp|].
  pose proof (timeout_is_posted_and_consumed_in_the_tick
                (platform := slow_platform) slow_initial_world Hl HT Hexp)
    as (Hfree & _ & _).
  refine (proj1 (proj1 (proj2 (Hfree _)) STATE_RECOVERY _));
    vm_compute; reflexivity.
Defined.

(** Against C7 as stated: in STATE_IDLE with a timeout of 3 ms set
    through [StateMachine_SetStateTimeout], the timeout elapsed and no
    event arriving, each of the next three ticks posts EVENT_TIMEOUT
    and the machine stays in STATE_IDLE, which has no rule for it. *)
Lemma timeout_is_posted_on_every_tick :
  current_state (ctx idle_timeout_world) = STATE_IDLE
  /\ timeout_ms (g_state_table idle_timeout_world STATE_IDLE) = 3
  /\ critical_lock_active (handler idle_timeout_world) = false
  /\ pending_event (ctx idle_timeout_world) = EVENT_NONE
  /\ timeouts_posted (platform := simulation_platform) 3 idle_timeout_world
     = 3%nat
  /\ map (fun n =>
            current_state
              (ctx (run_ticks (platform := simulation_platform) n
                      idle_timeout_world))) [1; 2; 3]%nat
     = [STATE_IDLE; STATE_IDLE; STATE_IDLE]
  /\ timeouts_posted (platform := simulation_platform) 3 idle_timeout_world
     <> 1%nat.
Proof. vm_compute. repeat split; try reflexivity. discriminate. Qed.

(** With the canonical table too the check fires on every tick spent in
    a state whose timeout has elapsed: in STATE_INIT on the slow
    platform, with EVENT_START posted before the first tick, the
    EVENT_TIMEOUT of the first tick is dropped, EVENT_START is discarded
    for want of a rule, and the second tick posts EVENT_TIMEOUT, which
    takes the machine to STATE_RECOVERY. *)
Example timeout_check_fires_again_after_a_drop :
  let w := snd (StateMachine_PostEvent EVENT_START slow_initial_world) in
  let w' := snd (StateMachine_Execute (platform := slow_platform) w) in
  pending_event (ctx (before_event (platform := slow_platform) w))
  = EVENT_START
  /\ tick_posts_timeout (platform := slow_platform) w = false
  /\ current_state (ctx w') = STATE_INIT
  /\ tick_posts_timeout (platform := slow_platform) w' = true
  /\ fst (StateMachine_Execute (platform := slow_platform) w')
     = STATE_RECOVERY.
Proof. vm_compute. repeat split; reflexivity. Qed.

Lemma tick_leaves_slot_empty_witness :
  critical_lock_active (handler idle_started_world) = false
  /\ pending_event (ctx idle_started_world) = EVENT_START
  /\ pending_event
       (ctx (snd (StateMachine_Execute (platform := simulation_platform)
                    idle_started_world))) = EVENT_NONE.
Proof.
  assert (Hl : critical_lock_active (handler idle_started_world) = false)
    by (vm_compute; reflexivity).
  split; [exact Hl|]. split; [vm_compute; reflexivity|].
  exact (tick_leaves_slot_empty (platform := simulation_platform)
           idle_started_world Hl).
Defined.

Lemma locked_tick_changes_nothing_witness :
  critical_lock_active (handler locked_world) = true
  /\ current_state (ctx locked_world) = STATE_CRITICAL_ERROR
  /\ pending_event (ctx locked_world) = EVENT_START
  /\ state_changed (ctx locked_world) = true
  /\ StateMachine_Execute (platform := simulation_platform) locked_world
     = (STATE_CRITICAL_ERROR, locked_world).
Proof.
  assert (Hl : critical_lock_active (handler locked_world) = true)
    by (vm_compute; reflexivity).
  assert (Hs : current_state (ctx locked_world) = STATE_CRITICAL_ERROR)
    by (vm_compute; reflexivity).
  split; [exact Hl|]. split; [exact Hs|].
  split; [vm_compute; reflexivity|]. split; [vm_compute; reflexivity|].
  exact (locked_tick_changes_nothing (platform := simulation_platform)
           locked_world Hl Hs).
Defined.

Lemma history_reads_always_succeed_witness :
  0 <= 5 < ERROR_HISTORY_SIZE
  /\ fst (Platform_GetTimeMs (platform := stopped_platform)
            (snd (StateMachine_Init (platform := stopped_platform)
                    blank_world))) = 0
  /\ ErrorHandler_GetHistoryError 5
       (Some zero_ErrorInfo)
       (snd (ErrorHandler_Report (platform := stopped_platform)
               ERROR_LEVEL_NONE ERROR_CODE_NONE
               (snd (StateMachine_Init (platform := stopped_platform)
                       blank_world))))
     = ErrorHandler_GetHistoryError 5
         (Some zero_ErrorInfo)
         (snd (StateMachine_Init (platform := stopped_platform) blank_world)).
Proof.
  assert (Hidx : 0 <= 5 < ERROR_HISTORY_SIZE)
    by (unfold ERROR_HISTORY_SIZE; lia).
  assert (Hclock : fst (Platform_GetTimeMs (platform := stopped_platform)
                          (snd (StateMachine_Init
                                  (platform := stopped_platform)
                                  blank_world))) = 0)
    by (vm_compute; reflexivity).
  split; [exact Hidx|]. split; [exact Hclock|].
  pose proof (history_reads_always_succeed (platform := stopped_platform)
                blank_world 5 zero_ErrorInfo Hidx)
    as (_ & _ & _ & _ & Hsame).
  exact (Hsame Hclock).
Defined.

(** *** The further properties at concrete inputs *)

Ltac startup_machine :=
  split; [intros s; destruct s; vm_compute; reflexivity
         | intros c; vm_compute; reflexivity].

Lemma IsTimeout_elapsed_witness :
  0 <= 4294967290 < 2 ^ 32
  /\ fst (Platform_GetTimeMs (platform := simulation_platform)
            (set_clock_reads 3 blank_world)) < 4294967290
  /\ u32 (3 - 4294967290) = 9
  /\ fst (Platform_IsTimeout (platform := simulation_platform)
            4294967290 9 (set_clock_reads 3 blank_world)) = false.
Proof.
  assert (H : 0 <= 4294967290 < 2 ^ 32) by lia.
  assert (Hnow : fst (Platform_GetTimeMs (platform := simulation_platform)
                        (set_clock_reads 3 blank_world)) < 4294967290)
    by (vm_compute; reflexivity).
  split; [exact H|]. split; [exact Hnow|]. split; [reflexivity|].
  exact (proj1 (proj2 (proj2
           (IsTimeout_elapsed (platform := simulation_platform)
              4294967290 9 (set_clock_reads 3 blank_world) H))) Hnow).
Defined.

Lemma table_is_changed_by_configuration_only_witness :
  standard initial_world
  /\ standard
       (run_calls (platform := simulation_platform)
          [Call_Execute; Call_PostEvent EVENT_START;
           Call_Report ERROR_LEVEL_MINOR ERROR_CODE_COMM_CORRUPT;
           Call_Execute; Call_Reset]
          initial_world).
Proof.
  assert (Hstd : standard initial_world) by startup_machine.
  split; [exact Hstd|].
  refine (proj1 (proj2
            (table_is_changed_by_configuration_only
               (platform := simulation_platform) locked_world initial_world
               [Call_Execute; Call_PostEvent EVENT_START;
                Call_Report ERROR_LEVEL_MINOR ERROR_CODE_COMM_CORRUPT;
                Call_Execute; Call_Reset] Hstd _))).
  repeat constructor.
Defined.

Lemma critical_error_is_absorbing_witness :
  standard locked_world
  /\ current_state (ctx locked_world) = STATE_CRITICAL_ERROR
  /\ current_state
       (ctx (run_calls (platform := simulation_platform)
               [Call_Execute; Call_PostEvent EVENT_STOP; Call_ClearError;
                Call_Execute; Call_AttemptRecovery]
               locked_world)) = STATE_CRITICAL_ERROR.
Proof.
  assert (Hstd : standard locked_world) by startup_machine.
  assert (Hcur : current_state (ctx locked_world) = STATE_CRITICAL_ERROR)
    by (vm_compute; reflexivity).
  split; [exact Hstd|]. split; [exact Hcur|].
  refine (proj1
            (critical_error_is_absorbing (platform := simulation_platform)
               locked_world
               [Call_Execute; Call_PostEvent EVENT_STOP; Call_ClearError;
                Call_Execute; Call_AttemptRecovery] Hstd Hcur _)).
  repeat constructor; discriminate.
Defined.

Lemma calibrating_and_diagnostics_are_never_entered_witness :
  standard idle_world
  /\ current_state (ctx idle_world) = STATE_IDLE
  /\ current_state
       (ctx (run_calls (platform := simulation_platform)
               [Call_PostEvent EVENT_START; Call_Execute;
                Call_PostEvent EVENT_DATA_READY; Call_Execute; Call_Execute]
               idle_world)) <> STATE_CALIBRATING.
Proof.
  assert (Hstd : standard idle_world) by startup_machine.
  assert (Hcur : current_state (ctx idle_world) = STATE_IDLE)
    by (vm_compute; reflexivity).
  split; [exact Hstd|]. split; [exact Hcur|].
  refine (proj1
            (calibrating_and_diagnostics_are_never_entered
               (platform := simulation_platform) idle_world
               [Call_PostEvent EVENT_START; Call_Execute;
                Call_PostEvent EVENT_DATA_READY; Call_Execute; Call_Execute]
               Hstd _ _ _)).
  - rewrite Hcur. discriminate.
  - rewrite Hcur. discriminate.
  - repeat constructor.
Defined.

Lemma posted_event_is_processed_by_the_next_tick_witness :
  standard idle_started_world
  /\ critical_lock_active (handler idle_started_world) = false
  /\ pending_event (ctx idle_started_world) = EVENT_START
  /\ current_state (ctx idle_started_world) = STATE_IDLE
  /\ fst (StateMachine_Execute (platform := simulation_platform)
            idle_started_world)
     = default STATE_IDLE
         (first_match (rules_of (startup_table STATE_IDLE)) EVENT_START).
Proof.
  assert (Hstd : standard idle_started_world) by startup_machine.
  assert (Hl : critical_lock_active (handler idle_started_world) = false)
    by (vm_compute; reflexivity).
  assert (Hp : pending_event (ctx idle_started_world) = EVENT_START)
    by (vm_compute; reflexivity).
  assert (Hcur : current_state (ctx idle_started_world) = STATE_IDLE)
    by (vm_compute; reflexivity).
  assert (Hne : EVENT_START <> EVENT_NONE) by discriminate.
  split; [exact Hstd|]. split; [exact Hl|]. split; [exact Hp|].
  split; [exact Hcur|].
  rewrite <- Hcur.
  exact (proj1 (posted_event_is_processed_by_the_next_tick
                  (platform := simulation_platform) idle_started_world
                  EVENT_START Hstd Hl Hp Hne)).
Defined.

Lemma error_events_reach_their_states_witness :
  standard idle_world
  /\ critical_lock_active (handler idle_world) = false
  /\ pending_event (ctx idle_world) = EVENT_NONE
  /\ current_state (ctx idle_world) = STATE_IDLE
  /\ fst (StateMachine_Execute (platform := simulation_platform)
            (snd (ErrorHandler_Report (platform := simulation_platform)
                    ERROR_LEVEL_NORMAL ERROR_CODE_HARDWARE_FAULT
                    idle_world)))
     = STATE_RECOVERY.
Proof.
  assert (Hstd : standard idle_world) by startup_machine.
  assert (Hl : critical_lock_active (handler idle_world) = false)
    by (vm_compute; reflexivity).
  assert (Hp : pending_event (ctx idle_world) = EVENT_NONE)
    by (vm_compute; reflexivity).
  assert (Hcur : current_state (ctx idle_world) = STATE_IDLE)
    by (vm_compute; reflexivity).
  split; [exact Hstd|]. split; [exact Hl|]. split; [exact Hp|].
  split; [exact Hcur|].
  pose proof (proj2 (error_events_reach_their_states
                       (platform := simulation_platform) idle_world
                       ERROR_CODE_HARDWARE_FAULT Hstd Hl) Hp) as H.
  rewrite Hcur in H. exact H.
Defined.

Lemma execution_count_counts_the_ticks_in_a_state_witness :
  standard idle_world
  /\ critical_lock_active (handler idle_world) = false
  /\ state_changed (ctx idle_world) = false
  /\ StateMachine_GetExecutionCount
       (snd (StateMachine_Execute (platform := simulation_platform)
               idle_world))
     = u32 (StateMachine_GetExecutionCount idle_world + 1).
Proof.
  assert (Hstd : standard idle_world) by startup_machine.
  assert (Hl : critical_lock_active (handler idle_world) = false)
    by (vm_compute; reflexivity).
  assert (Hch : state_changed (ctx idle_world) = false)
    by (vm_compute; reflexivity).
  split; [exact Hstd|]. split; [exact Hl|]. split; [exact Hch|].
  pose proof (execution_count_counts_the_ticks_in_a_state
                (platform := simulation_platform) idle_world Hstd Hl) as H.
  rewrite Hch in H. exact H.
Defined.

Lemma exhausted_recovery_does_not_lock_witness :
  standard recovering_world
  /\ critical_lock_active (handler recovering_world) = false
  /\ current_state (ctx recovering_world) = STATE_RECOVERY
  /\ pending_event (ctx recovering_world) = EVENT_NONE
  /\ level (current_error (handler recovering_world)) = ERROR_LEVEL_NORMAL
  /\ retry_count (current_error (handler recovering_world)) = 2
  /\ fst (StateMachine_Execute (platform := simulation_platform)
            recovering_world) = STATE_CRITICAL_ERROR
  /\ ErrorHandler_IsCriticalLock
       (snd (StateMachine_Execute (platform := simulation_platform)
               recovering_world)) = false.
Proof.
  assert (Hstd : standard recovering_world) by startup_machine.
  assert (Hl : critical_lock_active (handler recovering_world) = false)
    by (vm_compute; reflexivity).
  assert (Hcur : current_state (ctx recovering_world) = STATE_RECOVERY)
    by (vm_compute; reflexivity).
  assert (Hp : pending_event (ctx recovering_world) = EVENT_NONE)
    by (vm_compute; reflexivity).
  assert (Hlev : level (current_error (handler recovering_world))
                 = ERROR_LEVEL_NORMAL)
    by (vm_compute; reflexivity).
  assert (Hretry : retry_count (current_error (handler recovering_world)) = 2)
    by (vm_compute; reflexivity).
  split; [exact Hstd|]. split; [exact Hl|]. split; [exact Hcur|].
  split; [exact Hp|]. split; [exact Hlev|]. split; [exact Hretry|].
  assert (Hlev' : level (current_error (handler recovering_world))
                  <> ERROR_LEVEL_NONE)
    by (rewrite Hlev; discriminate).
  assert (Hretry' : ERROR_MAX_RECOVERY_ATTEMPTS - 1
                    <= retry_count (current_error (handler recovering_world))
                    < 255)
    by (rewrite Hretry; unfold ERROR_MAX_RECOVERY_ATTEMPTS; lia).
  pose proof (exhausted_recovery_does_not_lock
                (platform := simulation_platform) recovering_world
                Hstd Hl Hcur Hp Hlev' Hretry') as H.
  split; [exact (proj1 H) | exact (proj1 (proj2 H))].
Defined.

Lemma successful_recovery_leads_to_idle_witness :
  standard timed_out_world
  /\ critical_lock_active (handler timed_out_world) = false
  /\ current_state (ctx timed_out_world) = STATE_RECOVERY
  /\ pending_event (ctx timed_out_world) = EVENT_NONE
  /\ code (current_error (handler timed_out_world)) = ERROR_CODE_TIMEOUT
  /\ retry_count (current_error (handler timed_out_world)) = 0
  /\ fst (StateMachine_Execute (platform := simulation_platform)
            timed_out_world) = STATE_IDLE.
Proof.
  assert (Hstd : standard timed_out_world) by startup_machine.
  assert (Hl : critical_lock_active (handler timed_out_world) = false)
    by (vm_compute; reflexivity).
  assert (Hcur : current_state (ctx timed_out_world) = STATE_RECOVERY)
    by (vm_compute; reflexivity).
  assert (Hp : pending_event (ctx timed_out_world) = EVENT_NONE)
    by (vm_compute; reflexivity).
  assert (Hcode : code (current_error (handler timed_out_world))
                  = ERROR_CODE_TIMEOUT)
    by (vm_compute; reflexivity).
  assert (Hretry : retry_count (current_error (handler timed_out_world)) = 0)
    by (vm_compute; reflexivity).
  split; [exact Hstd|]. split; [exact Hl|]. split; [exact Hcur|].
  split; [exact Hp|]. split; [exact Hcode|]. split; [exact Hretry|].
  refine (proj1 (successful_recovery_leads_to_idle
                   (platform := simulation_platform) timed_out_world
                   Hstd Hl Hcur Hp _)).
  right. split; [exact Hcode|].
  rewrite Hretry. unfold ERROR_MAX_RECOVERY_ATTEMPTS. lia.
Defined.

Lemma reset_returns_to_init_and_keeps_the_slot_witness :
  standard idle_started_world
  /\ critical_lock_active (handler idle_started_world) = false
  /\ pending_event (ctx idle_started_world) = EVENT_START
  /\ current_state
       (ctx (StateMachine_Reset (platform := simulation_platform)
               idle_started_world)) = STATE_INIT
  /\ pending_event
       (ctx (StateMachine_Reset (platform := simulation_platform)
               idle_started_world)) = EVENT_START.
Proof.
  assert (Hstd : standard idle_started_world) by startup_machine.
  assert (Hl : critical_lock_active (handler idle_started_world) = false)
    by (vm_compute; reflexivity).
  assert (Hp : pending_event (ctx idle_started_world) = EVENT_START)
    by (vm_compute; reflexivity).
  split; [exact Hstd|]. split; [exact Hl|]. split; [exact Hp|].
  pose proof (proj2 (reset_returns_to_init_and_keeps_the_slot
                       (platform := simulation_platform) idle_started_world
                       Hstd) Hl) as H.
  cbv zeta in H.
  destruct H as (H1 & _ & _ & _ & _ & _ & _ & H8).
  split; [exact H1|]. rewrite H8. exact Hp.
Defined.

Lemma timeout_leaves_the_state_with_the_startup_table_witness :
  standard slow_initial_world
  /\ critical_lock_active (handler slow_initial_world) = false
  /\ current_state (ctx slow_initial_world) = STATE_INIT
  /\ timeout_ms (startup_table STATE_INIT) = 5000
  /\ fst (StateMachine_Execute (platform := slow_platform)
            slow_initial_world) = STATE_RECOVERY.
Proof.
  assert (Hstd : standard slow_initial_world) by startup_machine.
  assert (Hl : critical_lock_active (handler slow_initial_world) = false)
    by (vm_compute; reflexivity).
  assert (Hcur : current_state (ctx slow_initial_world) = STATE_INIT)
    by (vm_compute; reflexivity).
  split; [exact Hstd|]. split; [exact Hl|]. split; [exact Hcur|].
  split; [reflexivity|].
  pose proof (timeout_leaves_the_state_with_the_startup_table
                (platform := slow_platform) slow_initial_world Hstd Hl) as H.
  rewrite Hcur in H.
  exact (proj1 (H ltac:(vm_compute; reflexivity)
                  ltac:(vm_compute; reflexivity)
                  ltac:(vm_compute; reflexivity))).
Defined.

Lemma row_takes_rules_until_full_witness :
  row_wf (g_state_table initial_world STATE_IDLE)
  /\ transition_count (g_state_table initial_world STATE_IDLE) = 3
  /\ fst (add_transitions STATE_IDLE
            [(EVENT_STOP, STATE_INIT); (EVENT_DATA_READY, STATE_ACTIVE);
             (EVENT_TIMEOUT, STATE_RECOVERY)]
            initial_world)
     = [true; true; false].
Proof.
  assert (Hwf : row_wf (g_state_table initial_world STATE_IDLE)).
  { split; [split|]; vm_compute; try reflexivity; discriminate. }
  split; [exact Hwf|]. split; [reflexivity|].
  etransitivity;
    [exact (proj1 (row_takes_rules_until_full STATE_IDLE
                     [(EVENT_STOP, STATE_INIT);
                      (EVENT_DATA_READY, STATE_ACTIVE);
                      (EVENT_TIMEOUT, STATE_RECOVERY)]
                     initial_world Hwf))
    | vm_compute; reflexivity].
Defined.

Lemma added_rule_is_found_unless_shadowed_witness :
  row_wf (g_state_table idle_world STATE_IDLE)
  /\ transition_count (g_state_table idle_world STATE_IDLE)
     < SM_MAX_TRANSITIONS_PER_STATE
  /\ current_state (ctx idle_world) = STATE_IDLE
  /\ CheckStateTransition EVENT_STOP idle_world = None
  /\ CheckStateTransition EVENT_STOP
       (snd (StateMachine_AddTransition STATE_IDLE EVENT_STOP STATE_INIT
               idle_world))
     = Some STATE_INIT.
Proof.
  assert (Hwf : row_wf (g_state_table idle_world STATE_IDLE)).
  { split; [split|]; vm_compute; try reflexivity; discriminate. }
  assert (Hroom : transition_count (g_state_table idle_world STATE_IDLE)
                  < SM_MAX_TRANSITIONS_PER_STATE)
    by (vm_compute; reflexivity).
  assert (Hcur : current_state (ctx idle_world) = STATE_IDLE)
    by (vm_compute; reflexivity).
  assert (Hold : CheckStateTransition EVENT_STOP idle_world = None)
    by (vm_compute; reflexivity).
  split; [exact Hwf|]. split; [exact Hroom|]. split; [exact Hcur|].
  split; [exact Hold|].
  pose proof (added_rule_is_found_unless_shadowed STATE_IDLE EVENT_STOP
                EVENT_STOP STATE_INIT idle_world Hwf Hroom Hcur) as H.
  rewrite Hold in H. exact H.
Defined.


Lemma initialisation_forgets_everything_witness :
  fst (Platform_GetTimeMs (platform := stopped_platform) locked_world)
  = fst (Platform_GetTimeMs (platform := stopped_platform) blank_world)
  /\ globals_agree
       (snd (StateMachine_Init (platform := stopped_platform) locked_world))
       (snd (StateMachine_Init (platform := stopped_platform) blank_world)).
Proof.
  assert (H : fst (Platform_GetTimeMs (platform := stopped_platform)
                     locked_world)
              = fst (Platform_GetTimeMs (platform := stopped_platform)
                       blank_world))
    by reflexivity.
  split; [exact H|].
  exact (proj2 (initialisation_forgets_everything
                  (platform := stopped_platform) locked_world blank_world H)).
Defined.

Lemma channel_is_verified_from_the_third_message_witness :
  good_message_count (g_comm_verification initial_world) = 0
  /\ fst (verify_times (platform := stopped_platform) 4 initial_world)
     = map (fun i => bool_decide (COMM_VERIFICATION_COUNT
                                  <= 0 + Z.of_nat i + 1))
         (seq 0 4).
Proof.
  split; [reflexivity|].
  refine (proj1 (channel_is_verified_from_the_third_message
                   (platform := stopped_platform) 4 initial_world _ _ _)).
  - intros i _. vm_compute. discriminate.
  - vm_compute. discriminate.
  - vm_compute. discriminate.
Defined.

Lemma registered_handler_replaces_the_default_logic_witness :
  level (current_error (handler failed_world)) = ERROR_LEVEL_NORMAL
  /\ code (current_error (handler failed_world)) = ERROR_CODE_HARDWARE_FAULT
  /\ retry_count (current_error (handler failed_world)) = 0
  /\ fst (ErrorHandler_RegisterRecoveryHandler ERROR_CODE_HARDWARE_FAULT
            (Some 7%nat) failed_world) = true.
Proof.
  assert (Hlev : level (current_error (handler failed_world))
                 = ERROR_LEVEL_NORMAL)
    by (vm_compute; reflexivity).
  assert (Hcode : code (current_error (handler failed_world))
                  = ERROR_CODE_HARDWARE_FAULT)
    by (vm_compute; reflexivity).
  assert (Hretry : retry_count (current_error (handler failed_world)) = 0)
    by (vm_compute; reflexivity).
  split; [exact Hlev|]. split; [exact Hcode|]. split; [exact Hretry|].
  refine (proj1 (registered_handler_replaces_the_default_logic
                   (platform := simulation_platform)
                   ERROR_CODE_HARDWARE_FAULT 7 failed_world _ Hcode _)).
  - rewrite Hlev. discriminate.
  - rewrite Hretry. unfold ERROR_MAX_RECOVERY_ATTEMPTS. lia.
Defined.
